(** * notion_cleanup.py: a shallow embedding and its verified properties

    The script queries Notion databases page by page, archives every record
    that matches, and reduces the tallies to a process exit status.  The
    remote service, the clock and the logger are the effects of the program:
    they are modelled by a chronological trace of events, and the service by
    a function from the trace so far (ending with the request just issued)
    to its reply, so that every sequence of replies, also one that depends on
    what was sent, is an instance. *)

From Stdlib Require Import ZArith List String Ascii Bool Lia Arith.
Import ListNotations.
Local Open Scope string_scope.
Local Open Scope list_scope.
Local Open Scope Z_scope.
Set Warnings "-register-all".

(** ** Python values

    The values that [json.loads] and [response.json()] produce.  Python's
    [None] is [JNull]; numbers are restricted to integers (no claim depends
    on a float).  A [string] stands for a Python [str], one [ascii] per
    character. *)

Inductive json : Type :=
| JNull
| JBool (b : bool)
| JInt (z : Z)
| JStr (s : string)
| JList (l : list json)
| JDict (items : list (string * json)).

(** Truth value of a Python object, as tested by [if x:] and [while x:]. *)
Definition truthy (v : json) : bool :=
  match v with
  | JNull => false
  | JBool b => b
  | JInt z => negb (z =? 0)
  | JStr s => negb (String.eqb s "")
  | JList l => match l with [] => false | _ => true end
  | JDict m => match m with [] => false | _ => true end
  end.

(** The members of a JSON object in document order; a repeated key keeps its
    last value, as [json.loads] does. *)
Fixpoint dict_get (key : string) (items : list (string * json)) : option json :=
  match items with
  | [] => None
  | (k, v) :: rest =>
      match dict_get key rest with
      | Some v' => Some v'
      | None => if String.eqb key k then Some v else None
      end
  end.

(** Exceptions, as far as the program tells them apart: the one
    [raise_for_status] raises, the one [sys.exit] raises, and every other
    [Exception]. *)
Inductive exn : Type :=
| HTTPStatusError (status_code : Z) (text : string)
| SystemExit (code : Z)
| OtherException.

Inductive result (A : Type) : Type :=
| Ok (a : A)
| Raise (e : exn).
Arguments Ok {A} a.
Arguments Raise {A} e.

Definition rbind {A B} (r : result A) (k : A -> result B) : result B :=
  match r with
  | Ok a => k a
  | Raise e => Raise e
  end.

Fixpoint rmap {A B} (f : A -> result B) (l : list A) : result (list B) :=
  match l with
  | [] => Ok []
  | a :: rest => rbind (f a) (fun b => rbind (rmap f rest) (fun bs => Ok (b :: bs)))
  end.

(** [d.get(key, default)]: an [AttributeError] on anything but a dict. *)
Definition py_get (d : json) (key : string) (default : json) : result json :=
  match d with
  | JDict m => Ok (match dict_get key m with Some v => v | None => default end)
  | _ => Raise OtherException
  end.

(** [d[key]]: [KeyError] on a dict without the key, [TypeError] on a value
    that a string cannot index. *)
Definition py_getitem (d : json) (key : string) : result json :=
  match d with
  | JDict m => match dict_get key m with Some v => Ok v | None => Raise OtherException end
  | _ => Raise OtherException
  end.

Definition is_substring (key s : string) : bool :=
  match String.index 0 key s with Some _ => true | None => false end.

(** [key in d]: membership among the keys of a dict, the elements of a list,
    the substrings of a str; [TypeError] on the rest. *)
Definition py_contains (key : string) (d : json) : result bool :=
  match d with
  | JDict m => Ok (existsb (fun kv => String.eqb key (fst kv)) m)
  | JList l => Ok (existsb (fun x => match x with JStr s => String.eqb key s | _ => false end) l)
  | JStr s => Ok (is_substring key s)
  | _ => Raise OtherException
  end.

(** What a [for] loop iterates over: the elements of a list, the keys of a
    dict, the characters of a str. *)
Definition py_iter (v : json) : result (list json) :=
  match v with
  | JList l => Ok l
  | JDict m => Ok (map (fun kv => JStr (fst kv)) m)
  | JStr s => Ok (map (fun c => JStr (String c EmptyString)) (list_ascii_of_string s))
  | _ => Raise OtherException
  end.

(** ** Effects *)

Inductive level : Type := INFO | WARNING | ERROR.

(** One constructor per logging site of the script (consecutive calls of one
    site are one message), with the values the text interpolates. *)
Inductive log_msg : Type :=
| MsgInvalidIdLength (notion_id : string) (got : Z)
| MsgQuerying (database_id : string) (filters : json)
| MsgFound (count : Z)
| MsgQueryHttpError (text : string)
| MsgQueryError
| MsgDryRunWouldDelete (page_id : json)
| MsgDeleted (page_id : json)
| MsgRateLimited (page_id : json) (wait_time attempt_no max_retries : Z)
| MsgDeleteHttpError (page_id : json) (text : string)
| MsgDeleteUnexpected (page_id : json)
| MsgDeleteGaveUp (page_id : json) (max_retries : Z)
| MsgDryRunBanner
| MsgProcessingDatabase (database_name : json) (database_id : string)
| MsgNoRecords
| MsgDeleting (count : Z)
| MsgProcessingRecord (i count : Z)
| MsgSummary (queried matched deleted failed : Z)
| MsgNoDeletionsOccurred
| MsgInTrash
| MsgApiKeyNotSet
| MsgApiKeyBadFormat (len : Z)
| MsgApiKeyBadChars
| MsgApiKeyLoaded (len : Z)
| MsgConfigNotFound (config_path : string)
| MsgEnvVarNotSet (var_name : string)
| MsgInvalidJson
| MsgNoDatabasesKey
| MsgDatabasesNotList
| MsgNoDatabaseId
| MsgNoFilters.

Inductive event : Type :=
| EvPost (api_key database_id : string) (body : json)
| EvPatch (api_key : string) (page_id : json)
| EvSleep (millis : Z)
| EvLog (lvl : level) (msg : log_msg).

Definition trace := list event.

(** What an httpx call comes back with: an exception before any response
    (connection, timeout), or a response with its status code, its text and
    its body as JSON when it parses. *)
Inductive http_reply : Type :=
| TransportError
| Response (status_code : Z) (text : string) (body : option json).

Definition service := trace -> http_reply.

(** httpx's [Response.is_success], the test of [raise_for_status]. *)
Definition is_success (status_code : Z) : bool :=
  (200 <=? status_code) && (status_code <=? 299).

(** The monad of the script's effects: a computation extends the trace. *)
Definition M (A : Type) : Type := trace -> A * trace.

Definition ret {A} (a : A) : M A := fun tr => (a, tr).
Definition bind {A B} (m : M A) (k : A -> M B) : M B :=
  fun tr => let (a, tr') := m tr in k a tr'.

Declare Scope m_scope.
Delimit Scope m_scope with m.
Notation "x <- m ;; k" := (bind m (fun x => k))
  (at level 100, m at next level, right associativity) : m_scope.
Notation "m ;; k" := (bind m (fun _ => k))
  (at level 100, right associativity) : m_scope.
Local Open Scope m_scope.

Definition emit (e : event) : M unit := fun tr => (tt, tr ++ [e]).
Definition log (lvl : level) (msg : log_msg) : M unit := emit (EvLog lvl msg).
Definition sleep (millis : Z) : M unit := emit (EvSleep millis).

(** The pause of [time.sleep(0.35)], in milliseconds. *)
Definition PACING : Z := 350.

(** ** format_notion_id *)

Fixpoint remove_char (c : ascii) (s : string) : string :=
  match s with
  | EmptyString => EmptyString
  | String a rest =>
      if Ascii.eqb a c then remove_char c rest else String a (remove_char c rest)
  end.

Definition len (s : string) : Z := Z.of_nat (String.length s).

(** [s[i:j]] for [0 <= i <= j]. *)
Definition slice (i j : nat) (s : string) : string := substring i (j - i) s.
(** [s[i:]]. *)
Definition slice_from (i : nat) (s : string) : string :=
  substring i (String.length s - i) s.

Definition format_notion_id (notion_id : string) : M string :=
  let clean_id := remove_char " " (remove_char "-" notion_id) in
  if negb (len clean_id =? 32) then
    log WARNING (MsgInvalidIdLength notion_id (len clean_id));;
    ret notion_id
  else
    ret (slice 0 8 clean_id ++ "-" ++ slice 8 12 clean_id ++ "-" ++
         slice 12 16 clean_id ++ "-" ++ slice 16 20 clean_id ++ "-" ++
         slice_from 20 clean_id)%string.

(** ** The engine: query_database and delete_page *)

Section Engine.

Variable server : service.
Variable api_key : string.

(** An httpx call: the request is issued, and the service answers it. *)
Definition request (e : event) : M http_reply :=
  fun tr => let tr' := tr ++ [e] in (server tr', tr').

(** [response.raise_for_status()] *)
Definition raise_for_status (reply : http_reply) : result (option json) :=
  match reply with
  | TransportError => Raise OtherException
  | Response status_code text body =>
      if is_success status_code then Ok body
      else Raise (HTTPStatusError status_code text)
  end.

(** [response.json()] *)
Definition response_json (body : option json) : result json :=
  match body with
  | Some data => Ok data
  | None => Raise OtherException
  end.

(** Lines 210-215: the identifiers of one page, then [has_more] and
    [next_cursor]. *)
Definition read_page (data : json) : result (list json * json * json) :=
  rbind (py_get data "results" (JList [])) (fun results =>
  rbind (py_iter results) (fun pages =>
  rbind (rmap (fun page => py_getitem page "id") pages) (fun ids =>
  rbind (py_get data "has_more" (JBool false)) (fun has_more =>
  rbind (py_get data "next_cursor" JNull) (fun start_cursor =>
  Ok (ids, has_more, start_cursor)))))).

Definition query_body (filters start_cursor : json) : json :=
  JDict (("filter", filters) ::
         (if truthy start_cursor then [("start_cursor", start_cursor)] else [])).

(** The [while has_more:] loop of lines 193-219.  [fuel] bounds the number of
    times the loop test is evaluated; [None] is a loop still running when the
    fuel is spent. *)
Fixpoint query_pages (fuel : nat) (database_id : string) (filters : json)
    (page_ids : list json) (has_more start_cursor : json)
    : M (option (result (list json))) :=
  match fuel with
  | O => ret None
  | S fuel' =>
      if truthy has_more then
        reply <- request (EvPost api_key database_id (query_body filters start_cursor));;
        match rbind (rbind (raise_for_status reply) response_json) read_page with
        | Raise e => ret (Some (Raise e))
        | Ok (ids, has_more', start_cursor') =>
            (if truthy has_more' then sleep PACING else ret tt);;
            query_pages fuel' database_id filters (page_ids ++ ids) has_more' start_cursor'
        end
      else ret (Some (Ok page_ids))
  end.

(** Lines 190-229.  The two [except] clauses differ by their message only;
    nothing inside the [try] calls [sys.exit]. *)
Definition query_database (fuel : nat) (database_id : string) (filters : json)
    : M (option (list json)) :=
  log INFO (MsgQuerying database_id filters);;
  r <- query_pages fuel database_id filters [] (JBool true) JNull;;
  match r with
  | None => ret None
  | Some (Ok page_ids) =>
      log INFO (MsgFound (Z.of_nat (List.length page_ids)));;
      ret (Some page_ids)
  | Some (Raise (HTTPStatusError _ text)) =>
      log ERROR (MsgQueryHttpError text);;
      ret (Some [])
  | Some (Raise _) =>
      log ERROR MsgQueryError;;
      ret (Some [])
  end.

Definition max_retries : Z := 3.
Definition retry_delay : Z := 1.

(** [range(n)] *)
Definition range (n : Z) : list Z := map Z.of_nat (seq 0 (Z.to_nat n)).

(** The [for attempt in range(max_retries):] loop of lines 256-283 over the
    attempts that remain; [None] when the loop ends without a [return]. *)
Fixpoint delete_attempts (page_id : json) (attempts : list Z) : M (option bool) :=
  match attempts with
  | [] => ret None
  | attempt :: rest =>
      reply <- request (EvPatch api_key page_id);;
      match raise_for_status reply with
      | Ok _ =>
          log INFO (MsgDeleted page_id);;
          sleep PACING;;
          ret (Some true)
      | Raise (HTTPStatusError status_code text) =>
          if status_code =? 429 then
            let wait_time := retry_delay * 2 ^ attempt in
            log WARNING (MsgRateLimited page_id wait_time (attempt + 1) max_retries);;
            sleep (1000 * wait_time);;
            delete_attempts page_id rest
          else
            log ERROR (MsgDeleteHttpError page_id text);;
            ret (Some false)
      | Raise _ =>
          log ERROR (MsgDeleteUnexpected page_id);;
          ret (Some false)
      end
  end.

Definition delete_page (page_id : json) (dry_run : json) : M bool :=
  if truthy dry_run then
    log INFO (MsgDryRunWouldDelete page_id);;
    ret true
  else
    r <- delete_attempts page_id (range max_retries);;
    match r with
    | Some success => ret success
    | None =>
        log ERROR (MsgDeleteGaveUp page_id max_retries);;
        ret false
    end.

End Engine.

(** ** The collaborators of main: credentials and configuration *)

(** [str.isspace] on the characters below 256, the set [str.strip()] removes. *)
Definition is_space (c : ascii) : bool :=
  let n := Z.of_N (N_of_ascii c) in
  ((9 <=? n) && (n <=? 13)) || ((28 <=? n) && (n <=? 32)) || (n =? 133) || (n =? 160).

Fixpoint lstrip (s : string) : string :=
  match s with
  | EmptyString => EmptyString
  | String c rest => if is_space c then lstrip rest else s
  end.

Fixpoint rstrip (s : string) : string :=
  match s with
  | EmptyString => EmptyString
  | String c rest =>
      match rstrip rest with
      | EmptyString => if is_space c then EmptyString else String c EmptyString
      | kept => String c kept
      end
  end.

Definition strip (s : string) : string := rstrip (lstrip s).

Fixpoint contains_char (c : ascii) (s : string) : bool :=
  match s with
  | EmptyString => false
  | String a rest => Ascii.eqb a c || contains_char c rest
  end.

(** [str.lower()] on the characters below 256. *)
Definition lower_char (c : ascii) : ascii :=
  let n := Z.of_N (N_of_ascii c) in
  if ((65 <=? n) && (n <=? 90)) || ((192 <=? n) && (n <=? 222) && negb (n =? 215))
  then ascii_of_N (Z.to_N (n + 32)) else c.

Fixpoint lower (s : string) : string :=
  match s with
  | EmptyString => EmptyString
  | String c rest => String (lower_char c) (lower rest)
  end.

Definition sys_exit {A} (code : Z) : M (result A) := ret (Raise (SystemExit code)).

Definition get_api_key (environ : string -> option string) : M (result string) :=
  match environ "NOTION_API_KEY" with
  | None | Some EmptyString =>
      log ERROR MsgApiKeyNotSet;;
      sys_exit 1
  | Some api_key =>
      let api_key := strip api_key in
      if negb (prefix "ntn_" api_key) && negb (prefix "secret_" api_key) then
        log ERROR (MsgApiKeyBadFormat (len api_key));;
        sys_exit 1
      else if contains_char "010" api_key || contains_char "013" api_key
              || contains_char "009" api_key then
        log ERROR MsgApiKeyBadChars;;
        sys_exit 1
      else
        log INFO (MsgApiKeyLoaded (len api_key));;
        ret (Ok api_key)
  end.

(** What lines 131-147 find at [config_path]: no file; a text that names an
    environment variable that is not set; a text that is not JSON after the
    substitution; or the parsed document.  Reading, [re.sub] and [json.loads]
    are the libraries' and are not modelled further. *)
Inductive config_source : Type :=
| FileMissing
| EnvVarNotSet (var_name : string)
| JSONDecodeError
| Parsed (config : json).

(** The loop of lines 158-164. *)
Fixpoint validate_databases (databases : list json) : M (result unit) :=
  match databases with
  | [] => ret (Ok tt)
  | db_config :: rest =>
      match py_contains "database_id" db_config with
      | Raise e => ret (Raise e)
      | Ok false => log ERROR MsgNoDatabaseId;; sys_exit 1
      | Ok true =>
          match py_contains "filters" db_config with
          | Raise e => ret (Raise e)
          | Ok false => log ERROR MsgNoFilters;; sys_exit 1
          | Ok true => validate_databases rest
          end
      end
  end.

Definition load_deletion_rules (config_path : string) (source : config_source)
    : M (result json) :=
  match source with
  | FileMissing => log ERROR (MsgConfigNotFound config_path);; sys_exit 1
  | EnvVarNotSet var_name => log ERROR (MsgEnvVarNotSet var_name);; sys_exit 1
  | JSONDecodeError => log ERROR MsgInvalidJson;; sys_exit 1
  | Parsed config =>
      match py_contains "databases" config with
      | Raise e => ret (Raise e)
      | Ok false => log ERROR MsgNoDatabasesKey;; sys_exit 1
      | Ok true =>
          match py_getitem config "databases" with
          | Raise e => ret (Raise e)
          | Ok (JList databases) =>
              r <- validate_databases databases;;
              match r with
              | Raise e => ret (Raise e)
              | Ok _ => ret (Ok config)
              end
          | Ok _ => log ERROR MsgDatabasesNotList;; sys_exit 1
          end
      end
  end.

(** ** main *)

Record stats : Type := mkStats {
  total_queried : Z;
  total_matched : Z;
  total_deleted : Z;
  total_failed : Z
}.

Definition count_query (n : Z) (st : stats) : stats :=
  mkStats (total_queried st + 1) (total_matched st + n) (total_deleted st) (total_failed st).

(** Lines 357-360. *)
Definition count_outcome (success : bool) (st : stats) : stats :=
  if success
  then mkStats (total_queried st) (total_matched st) (total_deleted st + 1) (total_failed st)
  else mkStats (total_queried st) (total_matched st) (total_deleted st) (total_failed st + 1).

Record invocation : Type := mkInvocation {
  args_config : string;
  args_dry_run : bool;
  environ : string -> option string;
  config_file : config_source
}.

(** How a run ends: past the summary, with the status given to [sys.exit];
    or before it, on an exception nothing catches. *)
Inductive outcome : Type :=
| Completed (summary : stats) (code : Z)
| Aborted (e : exn).

(** The exit status of the process: the argument of [sys.exit], and 1 for a
    traceback. *)
Definition exit_status (o : outcome) : Z :=
  match o with
  | Completed _ code => code
  | Aborted (SystemExit code) => code
  | Aborted _ => 1
  end.

Section Run.

Variable server : service.

(** The loop of lines 353-360, from record number [i] of [count]. *)
Fixpoint delete_each (api_key : string) (db_dry_run : json) (i count : Z)
    (page_ids : list json) (st : stats) : M stats :=
  match page_ids with
  | [] => ret st
  | page_id :: rest =>
      log INFO (MsgProcessingRecord i count);;
      success <- delete_page server api_key page_id db_dry_run;;
      delete_each api_key db_dry_run (i + 1) count rest (count_outcome success st)
  end.

(** The loop of lines 329-360 over the targets that remain.  [fuel] is the
    bound given to each query. *)
Fixpoint process_databases (fuel : nat) (api_key : string) (dry_run : bool)
    (databases : list json) (st : stats) : M (option (result stats)) :=
  match databases with
  | [] => ret (Some (Ok st))
  | db_config :: rest =>
      match py_getitem db_config "database_id" with
      | Ok (JStr notion_id) =>
          database_id <- format_notion_id notion_id;;
          match py_get db_config "name" (JStr database_id),
                py_getitem db_config "filters",
                py_get db_config "dry_run" (JBool dry_run) with
          | Ok database_name, Ok filters, Ok db_dry_run =>
              log INFO (MsgProcessingDatabase database_name database_id);;
              r <- query_database server api_key fuel database_id filters;;
              match r with
              | None => ret None
              | Some page_ids =>
                  let count := Z.of_nat (List.length page_ids) in
                  let st := count_query count st in
                  match page_ids with
                  | [] =>
                      log INFO MsgNoRecords;;
                      process_databases fuel api_key dry_run rest st
                  | _ =>
                      log INFO (MsgDeleting count);;
                      st <- delete_each api_key db_dry_run 1 count page_ids st;;
                      process_databases fuel api_key dry_run rest st
                  end
              end
          | Raise e, _, _ | _, Raise e, _ | _, _, Raise e => ret (Some (Raise e))
          end
      | Ok _ => ret (Some (Raise OtherException))
      | Raise e => ret (Some (Raise e))
      end
  end.

Definition env_flag (environ : string -> option string) (name : string) : bool :=
  let v := lower (match environ name with Some v => v | None => "" end) in
  String.eqb v "true" || String.eqb v "1" || String.eqb v "yes".

Definition main (fuel : nat) (inv : invocation) : M (option outcome) :=
  let dry_run := args_dry_run inv || env_flag (environ inv) "DRY_RUN" in
  (if dry_run then log INFO MsgDryRunBanner else ret tt);;
  k <- get_api_key (environ inv);;
  match k with
  | Raise e => ret (Some (Aborted e))
  | Ok api_key =>
      c <- load_deletion_rules (args_config inv) (config_file inv);;
      match rbind c (fun config => rbind (py_getitem config "databases") py_iter) with
      | Raise e => ret (Some (Aborted e))
      | Ok databases =>
          r <- process_databases fuel api_key dry_run databases (mkStats 0 0 0 0);;
          match r with
          | None => ret None
          | Some (Raise e) => ret (Some (Aborted e))
          | Some (Ok st) =>
              log INFO (MsgSummary (total_queried st) (total_matched st)
                                   (total_deleted st) (total_failed st));;
              log INFO (if dry_run then MsgNoDeletionsOccurred else MsgInTrash);;
              if total_failed st >? 0
              then ret (Some (Completed st 1))
              else ret (Some (Completed st 0))
          end
      end
  end.

End Run.

(** ** Observations on traces *)

Definition is_post (e : event) : bool :=
  match e with EvPost _ _ _ => true | _ => false end.
Definition is_patch (e : event) : bool :=
  match e with EvPatch _ _ => true | _ => false end.
Definition is_log (e : event) : bool :=
  match e with EvLog _ _ => true | _ => false end.

(** The message of a record that [delete_page] gave up on: each [False] it
    returns is announced by exactly one of the three. *)
Definition is_failure (e : event) : bool :=
  match e with
  | EvLog ERROR (MsgDeleteHttpError _ _)
  | EvLog ERROR (MsgDeleteUnexpected _)
  | EvLog ERROR (MsgDeleteGaveUp _ _) => true
  | _ => false
  end.

Definition count (p : event -> bool) (tr : trace) : nat := List.length (filter p tr).
Definition count_posts : trace -> nat := count is_post.
Definition count_patches : trace -> nat := count is_patch.
Definition count_requests (tr : trace) : nat := (count_posts tr + count_patches tr)%nat.
Definition count_failures : trace -> nat := count is_failure.

(** The requests and pauses of a trace, without the log lines. *)
Definition net (tr : trace) : trace := filter (fun e => negb (is_log e)) tr.

(** ** Services used to state the properties *)

(** The service that answers the n-th request it receives, whatever it is,
    with the n-th reply of a list. *)
Definition scripted (replies : list http_reply) : service :=
  fun tr => nth (count_requests tr - 1) replies TransportError.

Definition ok (data : json) : http_reply := Response 200 "" (Some data).

(** A query response after which the loop goes on, and one on which it ends
    normally. *)
Definition continues (data : json) : bool :=
  match read_page data with
  | Ok (_, has_more, _) => truthy has_more
  | Raise _ => false
  end.
Definition stops (data : json) : bool :=
  match read_page data with
  | Ok (_, has_more, _) => negb (truthy has_more)
  | Raise _ => false
  end.
Definition ids_of (data : json) : list json :=
  match read_page data with
  | Ok (ids, _, _) => ids
  | Raise _ => []
  end.
Definition cursor_of (data : json) : json :=
  match read_page data with
  | Ok (_, _, start_cursor) => start_cursor
  | Raise _ => JNull
  end.

Definition has_more_of (data : json) : json :=
  match read_page data with
  | Ok (_, has_more, _) => has_more
  | Raise _ => JBool false
  end.

(** The flag and the cursor the loop holds after [pages], and the requests
    and pauses it went through. *)
Definition last_flag (has_more : json) (pages : list json) : json :=
  fold_left (fun _ data => has_more_of data) pages has_more.
Definition last_cursor (start_cursor : json) (pages : list json) : json :=
  fold_left (fun _ data => cursor_of data) pages start_cursor.
Fixpoint turns (api_key database_id : string) (filters start_cursor : json)
    (pages : list json) : trace :=
  match pages with
  | [] => []
  | data :: rest =>
      EvPost api_key database_id (query_body filters start_cursor)
      :: EvSleep PACING
      :: turns api_key database_id filters (cursor_of data) rest
  end.

(** A reply on which [raise_for_status] raises, or that never arrived. *)
Definition is_error (reply : http_reply) : bool :=
  match raise_for_status reply with
  | Ok _ => false
  | Raise _ => true
  end.

Definition is_rate_limit (reply : http_reply) : bool :=
  match reply with
  | Response status_code _ _ => status_code =? 429
  | TransportError => false
  end.

(** An error of a request that is not a rate limit. *)
Definition is_hard_error (reply : http_reply) : bool :=
  is_error reply && negb (is_rate_limit reply).

(** The requests and pauses of a pagination that starts with [start_cursor]
    and is answered by [pages], each of which continues, and then by one
    more response. *)
Fixpoint paging (api_key database_id : string) (filters start_cursor : json)
    (pages : list json) : trace :=
  match pages with
  | [] => [EvPost api_key database_id (query_body filters start_cursor)]
  | data :: rest =>
      EvPost api_key database_id (query_body filters start_cursor)
      :: EvSleep PACING
      :: paging api_key database_id filters (cursor_of data) rest
  end.

(** The display name and the effective dry-run flag of a target, lines 331
    and 335. *)
Definition name_of (db_config : json) (database_id : string) : json :=
  match py_get db_config "name" (JStr database_id) with
  | Ok v => v
  | Raise _ => JStr database_id
  end.
Definition dry_run_of (db_config : json) (dry_run : bool) : json :=
  match py_get db_config "dry_run" (JBool dry_run) with
  | Ok v => v
  | Raise _ => JBool dry_run
  end.

(** The exceptions that end the process with status 1: [sys.exit(1)], and
    whatever ends in a traceback. *)
Definition exits_1 (e : exn) : bool :=
  match e with
  | SystemExit code => code =? 1
  | _ => true
  end.

(** A trace of queries separated by the pacing pause: a pause between
    consecutive requests, none before the first, none after the last. *)
Fixpoint paced (tr : trace) : bool :=
  match tr with
  | EvPost _ _ _ :: rest =>
      match rest with
      | [] => true
      | EvSleep millis :: rest' => (millis =? PACING) && paced rest'
      | _ => false
      end
  | _ => false
  end.

(** [ceil(n / p)] *)
Definition ceil_div (n p : nat) : nat := ((n + p - 1) / p)%nat.

(** A well-behaved remote database: it holds [items] and serves them
    [page_size] at a time.  A cursor is the encoding of the offset at which
    the next page starts; it is sent only when more items remain. *)
Definition page_at (encode : nat -> json) (items : list json)
    (page_size offset : nat) : json :=
  let more := (offset + page_size <? List.length items)%nat in
  JDict [("results",
          JList (map (fun id => JDict [("id", id)])
                     (firstn page_size (skipn offset items))));
         ("has_more", JBool more);
         ("next_cursor", if more then encode (offset + page_size)%nat else JNull)].

Definition offset_of (decode : json -> nat) (body : json) : nat :=
  match py_getitem body "start_cursor" with
  | Ok start_cursor => decode start_cursor
  | Raise _ => 0%nat
  end.

Definition paged_service (encode : nat -> json) (decode : json -> nat)
    (items : list json) (page_size : nat) : service :=
  fun tr =>
    match last tr (EvSleep 0) with
    | EvPost _ _ body => ok (page_at encode items page_size (offset_of decode body))
    | _ => TransportError
    end.

(** The cursor the loop holds when it has read the items before [offset]. *)
Definition cursor_at (encode : nat -> json) (offset : nat) : json :=
  match offset with
  | O => JNull
  | _ => encode offset
  end.

(** The message [delete_page] logs for a reply that is an error other than a
    rate limit. *)
Definition hard_error_msg (page_id : json) (reply : http_reply) : log_msg :=
  match reply with
  | TransportError => MsgDeleteUnexpected page_id
  | Response _ text _ => MsgDeleteHttpError page_id text
  end.

(** A service that accepts every mutation. *)
Definition patches_succeed (server : service) : Prop :=
  forall (t : trace) (key : string) (page_id : json),
    is_error (server (t ++ [EvPatch key page_id])) = false.

(** What the retry loop of [delete_page] adds to the trace over attempts
    that are all rate limited. *)
Definition backoff (api_key : string) (page_id : json) (attempts : list Z) : trace :=
  flat_map (fun attempt =>
    [EvPatch api_key page_id;
     EvLog WARNING (MsgRateLimited page_id (retry_delay * 2 ^ attempt)
                                   (attempt + 1) max_retries);
     EvSleep (1000 * (retry_delay * 2 ^ attempt))]) attempts.

(** ** Vocabulary for identifiers *)

Definition is_hex (c : ascii) : bool :=
  let n := Z.of_N (N_of_ascii c) in
  ((48 <=? n) && (n <=? 57)) || ((97 <=? n) && (n <=? 102)) || ((65 <=? n) && (n <=? 70)).

Fixpoint all_chars (p : ascii -> bool) (s : string) : bool :=
  match s with
  | EmptyString => true
  | String c rest => p c && all_chars p rest
  end.

(** [s] is [clean] cut into groups of 8, 4, 4, 4 and 12 characters joined by
    dashes. *)
Definition dashed (clean s : string) : Prop :=
  exists a b c d e : string,
    String.length a = 8%nat /\ String.length b = 4%nat /\ String.length c = 4%nat /\
    String.length d = 4%nat /\ String.length e = 12%nat /\
    clean = (a ++ b ++ c ++ d ++ e)%string /\
    s = (a ++ "-" ++ b ++ "-" ++ c ++ "-" ++ d ++ "-" ++ e)%string.


(** ** Concrete servers, responses and configurations *)

Definition page (id : string) : json := JDict [("id", JStr id)].

Definition response (ids : list string) (has_more next_cursor : json) : json :=
  JDict [("results", JList (map page ids));
         ("has_more", has_more);
         ("next_cursor", next_cursor)].

Definition no_filter : json := JDict [].

Definition target (notion_id : string) (more : list (string * json)) : json :=
  JDict (("database_id", JStr notion_id) :: ("filters", no_filter) :: more).

Definition config_of (targets : list json) : json :=
  JDict [("databases", JList targets)].

Definition environ_with_key (name : string) : option string :=
  if String.eqb name "NOTION_API_KEY" then Some "ntn_key" else None.

Definition invoke (dry_run : bool) (source : config_source) : invocation :=
  mkInvocation "rules.json" dry_run environ_with_key source.

Definition rate_limited : http_reply := Response 429 "rate limited" None.
Definition refused : http_reply := Response 400 "validation error" None.
Definition accepted : http_reply := Response 200 "" (Some (JDict [])).

(** A service whose queries all fail and whose mutations all succeed. *)
Definition only_patches : service :=
  fun tr =>
    match last tr (EvSleep 0) with
    | EvPatch _ _ => accepted
    | _ => Response 500 "internal error" None
    end.

(** Offsets as cursors. *)
Definition offset_cursor (k : nat) : json := JInt (Z.of_nat k).
Definition cursor_offset (c : json) : nat :=
  match c with
  | JInt z => Z.to_nat z
  | _ => 0%nat
  end.

Definition a_database_id : string := "0123456789abcdef0123456789abcdef".
Definition a_dashed_id : string := "01234567-89ab-cdef-0123-456789abcdef".

(** ** substitute_env_vars

    [re.sub(r'\$\{([^}]+)\}', replace_var, text)]: the text is scanned from
    left to right; where the pattern matches, the match is replaced by what
    [replace_var] returns and the scan goes on after the match; elsewhere one
    character is copied. *)

(** The text before the first closing brace, and the text after it. *)
Fixpoint split_brace (s : string) : option (string * string) :=
  match s with
  | EmptyString => None
  | String c rest =>
      if Ascii.eqb c "}" then Some (EmptyString, rest)
      else match split_brace rest with
           | Some (var_name, after) => Some (String c var_name, after)
           | None => None
           end
  end.

(** A match of the pattern at the start of [text]: group 1 and the text after
    the match.  [[^}]+] takes every character up to the first closing brace,
    and needs one at least. *)
Definition match_var (text : string) : option (string * string) :=
  match text with
  | String c0 (String c1 rest) =>
      if Ascii.eqb c0 "$" && Ascii.eqb c1 "{" then
        match split_brace rest with
        | Some (String c var_name, after) => Some (String c var_name, after)
        | _ => None
        end
      else None
  | _ => None
  end.

(** The scan, with the name of the first variable that is not set on the
    left.  [fuel] bounds the number of positions visited. *)
Fixpoint substitute (fuel : nat) (environ : string -> option string) (text : string)
    : string + string :=
  match fuel with
  | O => inr text
  | S fuel' =>
      match match_var text with
      | Some (var_name, after) =>
          match environ var_name with
          | None => inl var_name
          | Some value =>
              match substitute fuel' environ after with
              | inr s => inr (value ++ s)%string
              | inl v => inl v
              end
          end
      | None =>
          match text with
          | EmptyString => inr EmptyString
          | String c rest =>
              match substitute fuel' environ rest with
              | inr s => inr (String c s)
              | inl v => inl v
              end
          end
      end
  end.

(** Lines 83-92: [replace_var] logs and leaves at the first variable that is
    not set. *)
Definition substitute_env_vars (environ : string -> option string) (text : string)
    : M (result string) :=
  match substitute (S (String.length text)) environ text with
  | inl var_name => log ERROR (MsgEnvVarNotSet var_name);; sys_exit 1
  | inr s => ret (Ok s)
  end.

(** Lines 131-147 on a file: [os.path.exists], the substitution in what was
    read, then [json.loads], taken as a parameter. *)
Definition read_config (file_exists : bool) (config_text : string)
    (environ : string -> option string) (loads : string -> option json)
    : config_source :=
  if negb file_exists then FileMissing
  else match substitute (S (String.length config_text)) environ config_text with
       | inl var_name => EnvVarNotSet var_name
       | inr s =>
           match loads s with
           | Some config => Parsed config
           | None => JSONDecodeError
           end
       end.

(** ** More observations *)

(** The time a trace spends in [time.sleep], in milliseconds. *)
Fixpoint slept (tr : trace) : Z :=
  match tr with
  | [] => 0
  | EvSleep millis :: rest => millis + slept rest
  | _ :: rest => slept rest
  end.

(** A query request for [database_id] with [api_key] whose body carries
    [filters]; no mutation; the other events pass. *)
Definition is_query_for (api_key database_id : string) (filters : json) (e : event)
    : Prop :=
  match e with
  | EvPost key id body =>
      key = api_key /\ id = database_id /\ py_getitem body "filter" = Ok filters
  | EvPatch _ _ => False
  | _ => True
  end.

(** A reply from which the loop of [query_database] gets no page: an error
    of the request, a body that is not JSON, or JSON of another shape. *)
Definition unreadable (reply : http_reply) : bool :=
  match rbind (rbind (raise_for_status reply) response_json) read_page with
  | Ok _ => false
  | Raise _ => true
  end.

(** What [delete_each] adds to the trace for records that are all archived
    at the first attempt. *)
Fixpoint archived (api_key : string) (i n : Z) (page_ids : list json) : trace :=
  match page_ids with
  | [] => []
  | page_id :: rest =>
      EvLog INFO (MsgProcessingRecord i n)
      :: EvPatch api_key page_id
      :: EvLog INFO (MsgDeleted page_id)
      :: EvSleep PACING
      :: archived api_key (i + 1) n rest
  end.

(** A target that is a JSON object with a string for [database_id] and with
    [filters]. *)
Definition well_typed_target (db_config : json) : bool :=
  match py_getitem db_config "database_id", py_getitem db_config "filters" with
  | Ok (JStr _), Ok _ => true
  | _, _ => false
  end.

(** A target that sets its own [dry_run]. *)
Definition sets_dry_run (db_config : json) : bool :=
  match py_getitem db_config "dry_run" with
  | Ok _ => true
  | Raise _ => false
  end.

(** No whitespace at the start, none at the end. *)
Definition starts_clean (s : string) : bool :=
  match s with
  | EmptyString => true
  | String c _ => negb (is_space c)
  end.
Fixpoint ends_clean (s : string) : bool :=
  match s with
  | EmptyString => true
  | String c EmptyString => negb (is_space c)
  | String _ rest => ends_clean rest
  end.

(** The longest that the backoff of [delete_page] can take over [attempts],
    in milliseconds. *)
Definition backoff_budget (attempts : list Z) : Z :=
  fold_right (fun attempt total => 1000 * (retry_delay * 2 ^ attempt) + total) 0 attempts.

(** Whether a reference opens at the head of [s], a text that a ["$"]
    follows: a dollar sign and an opening brace that no closing brace
    follows at once. *)
Definition opens_here (s : string) : bool :=
  match s with
  | String c0 (String c1 rest) =>
      Ascii.eqb c0 "$" && Ascii.eqb c1 "{" &&
      negb (match rest with
            | String c2 _ => Ascii.eqb c2 "}"
            | EmptyString => false
            end)
  | _ => false
  end.

(** No reference opens anywhere in [s]: what follows [s] holds the first
    reference of the text, if it starts with one. *)
Fixpoint opens_nothing (s : string) : bool :=
  match s with
  | EmptyString => true
  | String _ rest => negb (opens_here s) && opens_nothing rest
  end.

(** An error message of [delete_page] about the record [page_id]. *)
Definition names_failure (page_id : json) (msg : log_msg) : Prop :=
  match msg with
  | MsgDeleteHttpError id _ => id = page_id
  | MsgDeleteUnexpected id => id = page_id
  | MsgDeleteGaveUp id n => id = page_id /\ n = max_retries
  | _ => False
  end.

(** A mutation request for [page_id] with [api_key]; no query; the other
    events pass. *)
Definition is_patch_for (api_key : string) (page_id : json) (e : event) : Prop :=
  match e with
  | EvPatch key id => key = api_key /\ id = page_id
  | EvPost _ _ _ => False
  | _ => True
  end.
(** * Properties *)

(** ** format_notion_id *)

Lemma remove_char_absent (c : ascii) (s : string) :
  contains_char c s = false -> remove_char c s = s.
Proof.
  induction s as [| a rest IH]; simpl; [reflexivity |].
  intros H. apply orb_false_iff in H as [Ha Hrest].
  rewrite Ha, (IH Hrest). reflexivity.
Qed.

Lemma hex_has_no (c : ascii) (s : string) :
  is_hex c = false -> all_chars is_hex s = true -> contains_char c s = false.
Proof.
  intros Hc. induction s as [| a rest IH]; simpl; [reflexivity |].
  intros H. apply andb_true_iff in H as [Ha Hrest].
  rewrite (IH Hrest), orb_false_r.
  destruct (Ascii.eqb_spec a c) as [-> | _]; [congruence | reflexivity].
Qed.

Lemma hex_is_clean (s : string) :
  all_chars is_hex s = true -> remove_char " " (remove_char "-" s) = s.
Proof.
  intros H.
  rewrite (remove_char_absent "-" s) by (apply hex_has_no; [reflexivity | exact H]).
  apply remove_char_absent, hex_has_no; [reflexivity | exact H].
Qed.

Ltac uncons s H :=
  destruct s as [| ? s]; [discriminate H |]; simpl in H; apply Nat.succ_inj in H.

Lemma dashed_32 (clean : string) :
  String.length clean = 32%nat ->
  dashed clean
    (slice 0 8 clean ++ "-" ++ slice 8 12 clean ++ "-" ++ slice 12 16 clean ++ "-" ++
     slice 16 20 clean ++ "-" ++ slice_from 20 clean)%string.
Proof.
  intros H.
  exists (slice 0 8 clean), (slice 8 12 clean), (slice 12 16 clean),
         (slice 16 20 clean), (slice_from 20 clean).
  do 32 (uncons clean H).
  destruct clean; [| discriminate H].
  repeat split; reflexivity.
Qed.

(** C9 (as amended).  [format_notion_id] removes dashes and spaces and
    measures what is left.  When that is 32 characters long it returns them
    in the dashed 8-4-4-4-12 form and logs nothing; otherwise it returns its
    argument unchanged after one warning.  A string of hex digits has nothing
    to remove, so a 32-character hex string is dashed as it stands.  The
    function is total: no input makes it raise. *)
Theorem format_notion_id_spec (notion_id : string) (tr : trace) :
  let clean_id := remove_char " " (remove_char "-" notion_id) in
  (String.length clean_id = 32%nat ->
     exists s, dashed clean_id s /\ format_notion_id notion_id tr = (s, tr)) /\
  (String.length clean_id <> 32%nat ->
     format_notion_id notion_id tr =
       (notion_id, tr ++ [EvLog WARNING (MsgInvalidIdLength notion_id (len clean_id))])) /\
  (all_chars is_hex notion_id = true -> clean_id = notion_id).
Proof.
  intros clean_id. unfold format_notion_id. fold clean_id.
  split; [| split].
  - intros H. eexists. split; [apply (dashed_32 clean_id H) |].
    unfold len. rewrite H. reflexivity.
  - intros H. unfold len.
    destruct (Z.eqb_spec (Z.of_nat (String.length clean_id)) 32) as [E | _].
    + exfalso. apply H. lia.
    + reflexivity.
  - apply hex_is_clean.
Qed.

Lemma format_notion_id_spec_witness :
  exists s, dashed "0123456789abcdef0123456789abcdef" s /\
            format_notion_id "0123456789abcdef0123456789abcdef" [] = (s, []).
Proof.
  apply (proj1 (format_notion_id_spec "0123456789abcdef0123456789abcdef" [])).
  reflexivity.
Defined.

(** C9 as stated fails: this string is 33 characters long, not 32, and yet
    it is not returned unchanged, and no warning is logged. *)
Lemma format_notion_id_other_length_reformatted :
  String.length "01234567-89abcdef0123456789abcdef" <> 32%nat /\
  format_notion_id "01234567-89abcdef0123456789abcdef" [] =
    ("01234567-89ab-cdef-0123-456789abcdef", []) /\
  "01234567-89ab-cdef-0123-456789abcdef" <> "01234567-89abcdef0123456789abcdef".
Proof.
  split; [| split].
  - discriminate.
  - reflexivity.
  - discriminate.
Qed.

(** ** Traces and scripted services *)

Lemma count_app (p : event -> bool) (t1 t2 : trace) :
  count p (t1 ++ t2) = (count p t1 + count p t2)%nat.
Proof. unfold count. rewrite filter_app, length_app. reflexivity. Qed.

Lemma count_cons (p : event -> bool) (e : event) (t : trace) :
  count p (e :: t) = ((if p e then 1 else 0) + count p t)%nat.
Proof. unfold count. cbn. destruct (p e); reflexivity. Qed.

Lemma count_requests_app (t1 t2 : trace) :
  count_requests (t1 ++ t2) = (count_requests t1 + count_requests t2)%nat.
Proof. unfold count_requests, count_posts, count_patches. rewrite !count_app. lia. Qed.

Lemma app_assoc3 {A} (a b c d : list A) : a ++ b ++ c ++ d = ((a ++ b) ++ c) ++ d.
Proof. rewrite !app_assoc. reflexivity. Qed.

Lemma net_app (t1 t2 : trace) : net (t1 ++ t2) = net t1 ++ net t2.
Proof. apply filter_app. Qed.

(** The reply of a scripted service to a request issued after [k] others. *)
Lemma scripted_nth (pre replies : list http_reply) (t : trace) (e : event) (k : nat) :
  count_requests t = (List.length pre + k)%nat ->
  count_requests [e] = 1%nat ->
  scripted (pre ++ replies) (t ++ [e]) = nth k replies TransportError.
Proof.
  intros Ht He. unfold scripted.
  rewrite count_requests_app, Ht, He.
  replace (List.length pre + k + 1 - 1)%nat with (List.length pre + k)%nat by lia.
  apply app_nth2_plus.
Qed.

Lemma rate_limit_inv (reply : http_reply) :
  is_rate_limit reply = true -> exists text body, reply = Response 429 text body.
Proof.
  destruct reply as [| status_code text body]; simpl; [discriminate |].
  intros H. apply Z.eqb_eq in H. subst. eauto.
Qed.

#[local] Arguments Z.mul : simpl never.
#[local] Arguments Z.pow : simpl never.
#[local] Arguments Z.add : simpl never.

Ltac run := unfold sys_exit, bind, ret, log, sleep, emit, request; cbn [fst snd].

(** ** delete_page *)

Section DeletePage.

Variable server : service.
Variable api_key : string.
Variable page_id : json.

(** One rate-limited attempt: a warning, the backoff, and the loop goes on
    with the attempts that remain. *)
Lemma delete_attempts_429 (attempt : Z) (rest : list Z) (tr : trace) :
  is_rate_limit (server (tr ++ [EvPatch api_key page_id])) = true ->
  delete_attempts server api_key page_id (attempt :: rest) tr =
  delete_attempts server api_key page_id rest
    (tr ++ [EvPatch api_key page_id;
            EvLog WARNING (MsgRateLimited page_id (retry_delay * 2 ^ attempt)
                                          (attempt + 1) max_retries);
            EvSleep (1000 * (retry_delay * 2 ^ attempt))]).
Proof.
  intros H. apply rate_limit_inv in H as (text & body & H).
  cbn [delete_attempts]. run. rewrite H. cbn.
  rewrite <- !app_assoc. cbn [app].
  reflexivity.
Qed.

(** One attempt that meets an error other than a rate limit ends the loop. *)
Lemma delete_attempts_hard (attempt : Z) (rest : list Z) (tr : trace) :
  is_hard_error (server (tr ++ [EvPatch api_key page_id])) = true ->
  delete_attempts server api_key page_id (attempt :: rest) tr =
    (Some false,
     tr ++ [EvPatch api_key page_id;
            EvLog ERROR (hard_error_msg page_id (server (tr ++ [EvPatch api_key page_id])))]).
Proof.
  unfold is_hard_error, is_error. intros H.
  cbn [delete_attempts]. run.
  destruct (server (tr ++ [EvPatch api_key page_id])) as [| status_code text body].
  - cbn. rewrite <- app_assoc. reflexivity.
  - cbn in *. destruct (is_success status_code); [discriminate |].
    cbn in H. destruct (status_code =? 429); [discriminate |].
    cbn. rewrite <- app_assoc. reflexivity.
Qed.

Lemma hard_error_msg_is_failure (reply : http_reply) :
  is_failure (EvLog ERROR (hard_error_msg page_id reply)) = true.
Proof. destruct reply; reflexivity. Qed.

(** One attempt that succeeds ends the loop after the pacing pause. *)
Lemma delete_attempts_ok (attempt : Z) (rest : list Z) (tr : trace) :
  is_error (server (tr ++ [EvPatch api_key page_id])) = false ->
  delete_attempts server api_key page_id (attempt :: rest) tr =
    (Some true, tr ++ [EvPatch api_key page_id; EvLog INFO (MsgDeleted page_id);
                       EvSleep PACING]).
Proof.
  unfold is_error. intros H. cbn [delete_attempts]. run.
  destruct (raise_for_status (server (tr ++ [EvPatch api_key page_id]))); [| discriminate].
  rewrite <- !app_assoc. reflexivity.
Qed.

(** The loop issues at most one request per attempt, and what it returns
    agrees with the failure messages it logs. *)
Lemma delete_attempts_counts (attempts : list Z) (tr : trace) :
  let (r, tr') := delete_attempts server api_key page_id attempts tr in
  (count_patches tr' <= count_patches tr + List.length attempts)%nat /\
  count_posts tr' = count_posts tr /\
  count_failures tr' =
    (count_failures tr + match r with Some false => 1 | _ => 0 end)%nat.
Proof.
  revert tr. induction attempts as [| attempt rest IH]; intros tr.
  - cbn. lia.
  - destruct (is_error (server (tr ++ [EvPatch api_key page_id]))) eqn:E.
    + destruct (is_rate_limit (server (tr ++ [EvPatch api_key page_id]))) eqn:R.
      * rewrite (delete_attempts_429 _ _ _ R).
        specialize (IH (tr ++ [EvPatch api_key page_id;
            EvLog WARNING (MsgRateLimited page_id (retry_delay * 2 ^ attempt)
                                          (attempt + 1) max_retries);
            EvSleep (1000 * (retry_delay * 2 ^ attempt))])).
        destruct (delete_attempts server api_key page_id rest _) as [r tr'].
        unfold count_patches, count_posts, count_failures in *.
        rewrite !count_app in IH. cbn in IH. cbn [List.length]. lia.
      * rewrite delete_attempts_hard
          by (unfold is_hard_error; rewrite E, R; reflexivity).
        unfold count_patches, count_posts, count_failures.
        rewrite !count_app, !count_cons, hard_error_msg_is_failure. cbn. lia.
    + rewrite (delete_attempts_ok _ _ _ E).
      unfold count_patches, count_posts, count_failures.
      rewrite !count_app. cbn. lia.
Qed.

(** [delete_page] issues at most three requests, none of them a query, and
    logs one failure message exactly when it returns [False]. *)
Lemma delete_page_counts (dry_run : json) (tr : trace) :
  let (success, tr') := delete_page server api_key page_id dry_run tr in
  (count_patches tr' <= count_patches tr + 3)%nat /\
  count_posts tr' = count_posts tr /\
  count_failures tr' = (count_failures tr + if success then 0 else 1)%nat.
Proof.
  unfold delete_page. destruct (truthy dry_run).
  - run. unfold count_patches, count_posts, count_failures.
    rewrite !count_app. cbn. lia.
  - run. pose proof (delete_attempts_counts (range max_retries) tr) as H.
    destruct (delete_attempts server api_key page_id (range max_retries) tr) as [r tr'].
    change (List.length (range max_retries)) with 3%nat in H.
    destruct r as [[|] |]; cbn; try lia.
    unfold count_patches, count_posts, count_failures in *.
    rewrite !count_app. cbn. lia.
Qed.

(** The dry-run path: one log line, no request, no pause. *)
Lemma delete_page_dry (dry_run : json) (tr : trace) :
  truthy dry_run = true ->
  delete_page server api_key page_id dry_run tr =
    (true, tr ++ [EvLog INFO (MsgDryRunWouldDelete page_id)]).
Proof. intros H. unfold delete_page. rewrite H. reflexivity. Qed.

End DeletePage.

(** *** delete_page against a script of replies *)

Section DeletePageScripted.

Variable api_key : string.
Variable page_id : json.

Local Abbreviation retries := (backoff api_key page_id).

Lemma backoff_one (attempt : Z) :
  [EvPatch api_key page_id;
   EvLog WARNING (MsgRateLimited page_id (retry_delay * 2 ^ attempt)
                                 (attempt + 1) max_retries);
   EvSleep (1000 * (retry_delay * 2 ^ attempt))] = retries [attempt].
Proof. reflexivity. Qed.

Lemma count_requests_backoff_step (tr : trace) (attempt : Z) :
  count_requests (tr ++ retries [attempt]) = S (count_requests tr).
Proof. rewrite count_requests_app. cbn. lia. Qed.

Lemma scripted_patch (pre replies : list http_reply) (tr : trace) :
  count_requests tr = List.length pre ->
  scripted (pre ++ replies) (tr ++ [EvPatch api_key page_id]) =
    nth 0 replies TransportError.
Proof.
  intros H. apply scripted_nth; [rewrite H; lia | reflexivity].
Qed.

Lemma snoc_script (pre : list http_reply) (r : http_reply) (rest : list http_reply) :
  pre ++ r :: rest = (pre ++ [r]) ++ rest.
Proof. rewrite <- app_assoc. reflexivity. Qed.

(** Rate limits on every attempt: the loop runs through all of them. *)
Lemma delete_attempts_all_429 (attempts : list Z) :
  forall (limited pre rest : list http_reply) (tr : trace),
    List.length limited = List.length attempts ->
    forallb is_rate_limit limited = true ->
    count_requests tr = List.length pre ->
    delete_attempts (scripted (pre ++ limited ++ rest)) api_key page_id attempts tr =
      (None, tr ++ retries attempts).
Proof.
  induction attempts as [| attempt attempts IH];
    intros [| r limited] pre rest tr Hlen Hall Htr; try discriminate Hlen.
  - cbn. rewrite app_nil_r. reflexivity.
  - cbn in Hall. apply andb_true_iff in Hall as [Hr Hall].
    rewrite delete_attempts_429
      by (rewrite (scripted_patch pre _ tr Htr); exact Hr).
    cbn [app]. rewrite backoff_one, snoc_script, IH.
    + unfold retries. cbn [flat_map]. rewrite <- !app_assoc. reflexivity.
    + cbn in Hlen. lia.
    + exact Hall.
    + rewrite count_requests_backoff_step, length_app, Htr. cbn. lia.
Qed.


(** [delete_page] on a record whose three attempts are all rate limited. *)
Lemma delete_page_all_429 (dry_run : json) (r1 r2 r3 : http_reply)
    (pre rest : list http_reply) (tr : trace) :
  truthy dry_run = false ->
  forallb is_rate_limit [r1; r2; r3] = true ->
  count_requests tr = List.length pre ->
  delete_page (scripted (pre ++ r1 :: r2 :: r3 :: rest)) api_key page_id dry_run tr =
    (false, tr ++ retries [0; 1; 2] ++ [EvLog ERROR (MsgDeleteGaveUp page_id 3)]).
Proof.
  intros Hdry Hall Htr. unfold delete_page. rewrite Hdry. run.
  change (range max_retries) with [0; 1; 2].
  change (r1 :: r2 :: r3 :: rest) with ([r1; r2; r3] ++ rest).
  rewrite delete_attempts_all_429 by (assumption || reflexivity).
  rewrite <- app_assoc. reflexivity.
Qed.


End DeletePageScripted.

(** ** The deletion loop of main *)

Section DeleteEach.

Variable server : service.
Variable api_key : string.

Lemma delete_each_cons (db_dry_run : json) (i n : Z) (page_id : json)
    (rest : list json) (st : stats) (tr : trace) :
  delete_each server api_key db_dry_run i n (page_id :: rest) st tr =
    let (success, tr') :=
      delete_page server api_key page_id db_dry_run
        (tr ++ [EvLog INFO (MsgProcessingRecord i n)]) in
    delete_each server api_key db_dry_run (i + 1) n rest (count_outcome success st) tr'.
Proof. reflexivity. Qed.

(** The loop touches neither the count of targets nor that of matches, adds
    one to [total_deleted] or to [total_failed] per record, and adds to
    [total_failed] exactly the failures that [delete_page] logged. *)
Lemma delete_each_counts (db_dry_run : json) (page_ids : list json) :
  forall (i n : Z) (st : stats) (tr : trace),
    let (st', tr') := delete_each server api_key db_dry_run i n page_ids st tr in
    total_queried st' = total_queried st /\
    total_matched st' = total_matched st /\
    total_deleted st' + total_failed st' =
      total_deleted st + total_failed st + Z.of_nat (List.length page_ids) /\
    total_failed st' - Z.of_nat (count_failures tr') =
      total_failed st - Z.of_nat (count_failures tr) /\
    total_failed st <= total_failed st' /\
    count_posts tr' = count_posts tr.
Proof.
  induction page_ids as [| page_id rest IH]; intros i n st tr.
  - cbn. lia.
  - rewrite delete_each_cons.
    pose proof (delete_page_counts server api_key page_id db_dry_run
                  (tr ++ [EvLog INFO (MsgProcessingRecord i n)])) as Hp.
    destruct (delete_page server api_key page_id db_dry_run _) as [success tr1].
    specialize (IH (i + 1) n (count_outcome success st) tr1).
    destruct (delete_each server api_key db_dry_run (i + 1) n rest _ tr1) as [st' tr'].
    unfold count_posts, count_failures in *. rewrite !count_app in Hp.
    cbn [List.length]. destruct success; cbn in *; lia.
Qed.

(** With the dry-run flag every record counts as deleted, and nothing is
    sent. *)
Lemma delete_each_dry (db_dry_run : json) (page_ids : list json) :
  truthy db_dry_run = true ->
  forall (i n : Z) (st : stats) (tr : trace),
    let (st', tr') := delete_each server api_key db_dry_run i n page_ids st tr in
    st' = mkStats (total_queried st) (total_matched st)
                  (total_deleted st + Z.of_nat (List.length page_ids)) (total_failed st) /\
    net tr' = net tr.
Proof.
  intros Hdry. induction page_ids as [| page_id rest IH]; intros i n st tr.
  - cbn. destruct st; cbn. rewrite Z.add_0_r. auto.
  - rewrite delete_each_cons, (delete_page_dry _ _ _ _ _ Hdry).
    specialize (IH (i + 1) n (count_outcome true st)
      ((tr ++ [EvLog INFO (MsgProcessingRecord i n)])
          ++ [EvLog INFO (MsgDryRunWouldDelete page_id)])).
    destruct (delete_each server api_key db_dry_run (i + 1) n rest _ _) as [st' tr'].
    destruct IH as [-> ->]. rewrite !net_app. cbn. rewrite !app_nil_r.
    split; [| reflexivity]. f_equal. lia.
Qed.



End DeleteEach.

(** ** query_database *)

Section QueryDatabase.

Variable server : service.
Variable api_key : string.
Variable database_id : string.
Variable filters : json.

Local Abbreviation post start_cursor :=
  (EvPost api_key database_id (query_body filters start_cursor)).

(** The loop ends when [has_more] is false. *)
Lemma query_pages_done (fuel : nat) (page_ids : list json)
    (has_more start_cursor : json) (tr : trace) :
  truthy has_more = false ->
  query_pages server api_key (S fuel) database_id filters page_ids has_more start_cursor tr =
    (Some (Ok page_ids), tr).
Proof. intros H. cbn [query_pages]. rewrite H. reflexivity. Qed.


(** A page that is read: its identifiers are appended, and the loop goes on
    with the flag and the cursor of the page, after a pause when the flag
    is true. *)
Lemma query_pages_page (fuel : nat) (page_ids : list json)
    (has_more start_cursor : json) (tr : trace)
    (status_code : Z) (text : string) (data : json)
    (ids : list json) (has_more' start_cursor' : json) :
  truthy has_more = true ->
  server (tr ++ [post start_cursor]) = Response status_code text (Some data) ->
  is_success status_code = true ->
  read_page data = Ok (ids, has_more', start_cursor') ->
  query_pages server api_key (S fuel) database_id filters page_ids has_more start_cursor tr =
    query_pages server api_key fuel database_id filters (page_ids ++ ids)
      has_more' start_cursor'
      (tr ++ post start_cursor :: (if truthy has_more' then [EvSleep PACING] else [])).
Proof.
  intros H Hreply Hcode Hread. cbn [query_pages]. rewrite H. run.
  rewrite Hreply. cbn [raise_for_status]. rewrite Hcode. cbn [rbind response_json].
  rewrite Hread. destruct (truthy has_more'); run.
  - rewrite <- app_assoc. reflexivity.
  - reflexivity.
Qed.

(** Queries send no mutation and log no deletion failure. *)
Lemma query_pages_counts (fuel : nat) :
  forall (page_ids : list json) (has_more start_cursor : json) (tr : trace),
    let (r, tr') :=
      query_pages server api_key fuel database_id filters page_ids has_more start_cursor tr in
    count_patches tr' = count_patches tr /\ count_failures tr' = count_failures tr.
Proof.
  induction fuel as [| fuel IH]; intros page_ids has_more start_cursor tr.
  - cbn. auto.
  - cbn [query_pages]. destruct (truthy has_more); [| cbn; auto]. run.
    assert (Hpost : count_patches (tr ++ [post start_cursor]) = count_patches tr /\
      count_failures (tr ++ [post start_cursor]) = count_failures tr).
    { unfold count_patches, count_failures. rewrite !count_app. cbn. lia. }
    destruct (rbind _ read_page) as [[[ids has_more'] start_cursor'] | e]; [| exact Hpost].
    destruct Hpost as [Hp Hf].
    destruct (truthy has_more'); cbn;
      match goal with |- context [query_pages _ _ _ _ _ ?a ?h ?c ?t] =>
        specialize (IH a h c t); destruct (query_pages _ _ _ _ _ a h c t) as [r tr']
      end;
      unfold count_patches, count_failures in *; rewrite ?count_app in IH;
      cbn in IH; lia.
Qed.

Lemma query_database_counts (fuel : nat) (tr : trace) :
  let (r, tr') := query_database server api_key fuel database_id filters tr in
  count_patches tr' = count_patches tr /\ count_failures tr' = count_failures tr.
Proof.
  unfold query_database. run.
  pose proof (query_pages_counts fuel [] (JBool true) JNull
                (tr ++ [EvLog INFO (MsgQuerying database_id filters)])) as H.
  destruct (query_pages server api_key fuel database_id filters [] _ _ _) as [r tr'].
  assert (H0 : count_patches tr' = count_patches tr /\
      count_failures tr' = count_failures tr).
  { unfold count_patches, count_failures in *. rewrite !count_app in H. cbn in H. lia. }
  destruct r as [[page_ids | [status_code text | code |]] |]; cbn;
    unfold count_patches, count_failures in *; rewrite ?count_app; cbn; lia.
Qed.

(** What [query_database] makes of the way the loop ended. *)
Lemma query_database_ok (fuel : nat) (tr tr' : trace) (page_ids : list json) :
  query_pages server api_key fuel database_id filters [] (JBool true) JNull
    (tr ++ [EvLog INFO (MsgQuerying database_id filters)]) = (Some (Ok page_ids), tr') ->
  query_database server api_key fuel database_id filters tr =
    (Some page_ids, tr' ++ [EvLog INFO (MsgFound (Z.of_nat (List.length page_ids)))]).
Proof. intros H. unfold query_database. run. rewrite H. reflexivity. Qed.

Lemma query_database_raise (fuel : nat) (tr tr' : trace) (e : exn) :
  query_pages server api_key fuel database_id filters [] (JBool true) JNull
    (tr ++ [EvLog INFO (MsgQuerying database_id filters)]) = (Some (Raise e), tr') ->
  exists msg,
    query_database server api_key fuel database_id filters tr =
      (Some [], tr' ++ [EvLog ERROR msg]).
Proof.
  intros H. unfold query_database. run. rewrite H.
  destruct e; eexists; reflexivity.
Qed.

End QueryDatabase.

(** *** query_database against a script of replies *)

Section QueryScripted.

Variable api_key : string.
Variable database_id : string.
Variable filters : json.

Local Abbreviation post start_cursor :=
  (EvPost api_key database_id (query_body filters start_cursor)).
Local Abbreviation rounds := (turns api_key database_id filters).
Local Abbreviation pagination := (paging api_key database_id filters).

Lemma scripted_post (pre replies : list http_reply) (tr : trace) (start_cursor : json) :
  count_requests tr = List.length pre ->
  scripted (pre ++ replies) (tr ++ [post start_cursor]) = nth 0 replies TransportError.
Proof.
  intros H. apply scripted_nth; [rewrite H; lia | reflexivity].
Qed.

Lemma continues_inv (data : json) :
  continues data = true ->
  read_page data = Ok (ids_of data, has_more_of data, cursor_of data) /\
  truthy (has_more_of data) = true.
Proof.
  unfold continues, ids_of, has_more_of, cursor_of.
  destruct (read_page data) as [[[ids has_more] start_cursor] | e]; [auto | discriminate].
Qed.

Lemma stops_inv (data : json) :
  stops data = true ->
  read_page data = Ok (ids_of data, has_more_of data, cursor_of data) /\
  truthy (has_more_of data) = false.
Proof.
  unfold stops, ids_of, has_more_of, cursor_of.
  destruct (read_page data) as [[[ids has_more] start_cursor] | e]; [| discriminate].
  intros H. apply negb_true_iff in H. auto.
Qed.

Lemma paging_turns (pages : list json) :
  forall start_cursor,
    pagination start_cursor pages =
      rounds start_cursor pages ++ [post (last_cursor start_cursor pages)].
Proof.
  induction pages as [| data rest IH]; intros start_cursor; cbn; [reflexivity |].
  rewrite IH. reflexivity.
Qed.

Lemma count_requests_turns (pages : list json) :
  forall start_cursor, count_requests (rounds start_cursor pages) = List.length pages.
Proof.
  induction pages as [| data rest IH]; intros start_cursor; [reflexivity |].
  cbn [turns].
  change (post start_cursor :: EvSleep PACING :: rounds (cursor_of data) rest)
    with ([post start_cursor; EvSleep PACING] ++ rounds (cursor_of data) rest).
  rewrite count_requests_app, IH. reflexivity.
Qed.

(** Over pages that all continue, the loop makes one request and one pause
    per page, whatever their cursors are. *)
Lemma query_pages_script (pages : list json) :
  forall (pre tail : list http_reply) (fuel : nat) (page_ids : list json)
         (has_more start_cursor : json) (tr : trace),
    forallb continues pages = true ->
    truthy has_more = true ->
    count_requests tr = List.length pre ->
    truthy (last_flag has_more pages) = true /\
    query_pages (scripted (pre ++ map ok pages ++ tail)) api_key
        (List.length pages + fuel) database_id filters page_ids has_more start_cursor tr =
      query_pages (scripted (pre ++ map ok pages ++ tail)) api_key
        fuel database_id filters (page_ids ++ flat_map ids_of pages)
        (last_flag has_more pages) (last_cursor start_cursor pages)
        (tr ++ rounds start_cursor pages).
Proof.
  induction pages as [| data rest IH];
    intros pre tail fuel page_ids has_more start_cursor tr Hall Hmore Htr.
  - cbn. rewrite !app_nil_r. auto.
  - cbn in Hall. apply andb_true_iff in Hall as [Hdata Hall].
    destruct (continues_inv data Hdata) as [Hread Hflag].
    cbn [List.length Nat.add map app].
    rewrite (query_pages_page _ _ _ _ _ _ _ _ _ 200 "" data _ _ _ Hmore
               (scripted_post pre (ok data :: map ok rest ++ tail) tr start_cursor Htr)
               eq_refl Hread).
    rewrite Hflag, snoc_script.
    destruct (IH (pre ++ [ok data]) tail fuel (page_ids ++ ids_of data)
                 (has_more_of data) (cursor_of data)
                 (tr ++ [post start_cursor; EvSleep PACING]) Hall Hflag) as [Hlast ->].
    { rewrite count_requests_app, length_app, Htr. cbn. lia. }
    split; [exact Hlast |].
    cbn [flat_map turns]. rewrite <- !app_assoc. reflexivity.
Qed.

(** ... and ends normally on the first response whose flag is false. *)
Lemma query_pages_script_stop (pages : list json) (final : json)
    (pre tail : list http_reply) (fuel : nat) (tr : trace) :
  forallb continues pages = true ->
  stops final = true ->
  count_requests tr = List.length pre ->
  (List.length pages + 2 <= fuel)%nat ->
  query_pages (scripted (pre ++ map ok (pages ++ [final]) ++ tail)) api_key
      fuel database_id filters [] (JBool true) JNull tr =
    (Some (Ok (flat_map ids_of (pages ++ [final]))), tr ++ pagination JNull pages).
Proof.
  intros Hall Hfinal Htr Hfuel.
  replace fuel with (List.length pages + S (S (fuel - List.length pages - 2)))%nat by lia.
  rewrite map_app, <- app_assoc.
  destruct (query_pages_script pages pre (map ok [final] ++ tail)
              (S (S (fuel - List.length pages - 2))) [] (JBool true) JNull tr
              Hall eq_refl Htr) as [Hlast ->].
  destruct (stops_inv final Hfinal) as [Hread Hflag].
  assert (Hcount : count_requests (tr ++ rounds JNull pages) =
                   List.length (pre ++ map ok pages)).
  { rewrite count_requests_app, count_requests_turns, length_app, length_map, Htr.
    reflexivity. }
  rewrite (app_assoc pre).
  rewrite (query_pages_page _ _ _ _ _ _ _ _ _ 200 "" final _ _ _ Hlast
             (scripted_post (pre ++ map ok pages) (map ok [final] ++ tail) _
                            (last_cursor JNull pages) Hcount)
             eq_refl Hread).
  rewrite Hflag, query_pages_done by exact Hflag.
  rewrite paging_turns, flat_map_app, <- !app_assoc. cbn. rewrite app_nil_r.
  reflexivity.
Qed.


End QueryScripted.

(** ** main *)

Lemma count_failures_snoc (tr : trace) (e : event) :
  is_failure e = false -> count_failures (tr ++ [e]) = count_failures tr.
Proof.
  intros H. unfold count_failures. rewrite count_app, count_cons, H. cbn. lia.
Qed.

Lemma count_patches_log (tr : trace) (lvl : level) (msg : log_msg) :
  count_patches (tr ++ [EvLog lvl msg]) = count_patches tr.
Proof. unfold count_patches. rewrite count_app. cbn. lia. Qed.

Lemma count_posts_log (tr : trace) (lvl : level) (msg : log_msg) :
  count_posts (tr ++ [EvLog lvl msg]) = count_posts tr.
Proof. unfold count_posts. rewrite count_app. cbn. lia. Qed.

Lemma format_notion_id_counts (notion_id : string) (tr : trace) :
  let (database_id, tr') := format_notion_id notion_id tr in
  count_failures tr' = count_failures tr /\ count_patches tr' = count_patches tr /\
  count_posts tr' = count_posts tr.
Proof.
  unfold format_notion_id. destruct (negb _); run.
  - rewrite count_failures_snoc, count_patches_log, count_posts_log by reflexivity. auto.
  - auto.
Qed.

Lemma get_api_key_raises (environ : string -> option string) (tr : trace) :
  let (k, tr') := get_api_key environ tr in
  count_failures tr' = count_failures tr /\ count_requests tr' = count_requests tr /\
  match k with Ok _ => True | Raise e => e = SystemExit 1 end.
Proof.
  assert (Hlog : forall lvl msg, is_failure (EvLog lvl msg) = false ->
            count_failures (tr ++ [EvLog lvl msg]) = count_failures tr /\
            count_requests (tr ++ [EvLog lvl msg]) = count_requests tr).
  { intros lvl msg H. rewrite count_failures_snoc by exact H.
    unfold count_requests. rewrite count_patches_log, count_posts_log. auto. }
  unfold get_api_key.
  destruct (environ "NOTION_API_KEY") as [[| c s] |]; run;
    try (destruct (Hlog ERROR MsgApiKeyNotSet eq_refl); auto; fail).
  destruct (negb _ && negb _).
  - destruct (Hlog ERROR (MsgApiKeyBadFormat (len (strip (String c s)))) eq_refl). auto.
  - destruct (_ || _).
    + destruct (Hlog ERROR MsgApiKeyBadChars eq_refl). auto.
    + destruct (Hlog INFO (MsgApiKeyLoaded (len (strip (String c s)))) eq_refl). auto.
Qed.

Lemma validate_databases_raises (databases : list json) (tr : trace) :
  let (r, tr') := validate_databases databases tr in
  count_failures tr' = count_failures tr /\ count_requests tr' = count_requests tr /\
  match r with Ok _ => True | Raise e => exits_1 e = true end.
Proof.
  assert (Hlog : forall msg, is_failure (EvLog ERROR msg) = false ->
            count_failures (tr ++ [EvLog ERROR msg]) = count_failures tr /\
            count_requests (tr ++ [EvLog ERROR msg]) = count_requests tr).
  { intros msg H. rewrite count_failures_snoc by exact H.
    unfold count_requests. rewrite count_patches_log, count_posts_log. auto. }
  induction databases as [| db_config rest IH]; cbn [validate_databases].
  - cbn. auto.
  - destruct (py_contains "database_id" db_config) as [[|] | e] eqn:E1.
    + destruct (py_contains "filters" db_config) as [[|] | e] eqn:E2.
      * exact IH.
      * run. destruct (Hlog MsgNoFilters eq_refl). auto.
      * run. destruct db_config; cbn in E2; inversion E2; auto.
    + run. destruct (Hlog MsgNoDatabaseId eq_refl). auto.
    + run. destruct db_config; cbn in E1; inversion E1; auto.
Qed.

Lemma load_deletion_rules_raises (config_path : string) (source : config_source)
    (tr : trace) :
  let (r, tr') := load_deletion_rules config_path source tr in
  count_failures tr' = count_failures tr /\ count_requests tr' = count_requests tr /\
  match r with Ok _ => True | Raise e => exits_1 e = true end.
Proof.
  assert (Hlog : forall msg, is_failure (EvLog ERROR msg) = false ->
            count_failures (tr ++ [EvLog ERROR msg]) = count_failures tr /\
            count_requests (tr ++ [EvLog ERROR msg]) = count_requests tr).
  { intros msg H. rewrite count_failures_snoc by exact H.
    unfold count_requests. rewrite count_patches_log, count_posts_log. auto. }
  unfold load_deletion_rules.
  destruct source as [| var_name | | config]; run.
  - destruct (Hlog (MsgConfigNotFound config_path) eq_refl). auto.
  - destruct (Hlog (MsgEnvVarNotSet var_name) eq_refl). auto.
  - destruct (Hlog MsgInvalidJson eq_refl). auto.
  - destruct (py_contains "databases" config) as [[|] | e] eqn:E1.
    + destruct (py_getitem config "databases") as [v | e] eqn:E2.
      * destruct v as [| b | z | s | databases | m];
          try (destruct (Hlog MsgDatabasesNotList eq_refl); auto; fail).
        pose proof (validate_databases_raises databases tr) as H.
        destruct (validate_databases databases tr) as [[u | e] tr']; cbn; tauto.
      * destruct config as [| | | | |m]; cbn in E2; inversion E2; auto.
        destruct (dict_get "databases" m); inversion H0. auto.
    + destruct (Hlog MsgNoDatabasesKey eq_refl). auto.
    + destruct config; cbn in E1; inversion E1; auto.
Qed.

Section Run.

Variable server : service.

(** One turn of the loop over the targets. *)
Lemma process_databases_cons (fuel : nat) (api_key : string) (dry_run : bool)
    (db_config : json) (rest : list json) (st : stats) (tr : trace) :
  process_databases server fuel api_key dry_run (db_config :: rest) st tr =
  match py_getitem db_config "database_id" with
  | Ok (JStr notion_id) =>
      let (database_id, tr1) := format_notion_id notion_id tr in
      match py_getitem db_config "filters" with
      | Ok filters =>
          let (r, tr2) :=
            query_database server api_key fuel database_id filters
              (tr1 ++ [EvLog INFO (MsgProcessingDatabase (name_of db_config database_id)
                                                         database_id)]) in
          match r with
          | None => (None, tr2)
          | Some [] =>
              process_databases server fuel api_key dry_run rest (count_query 0 st)
                (tr2 ++ [EvLog INFO MsgNoRecords])
          | Some page_ids =>
              let n := Z.of_nat (List.length page_ids) in
              let (st', tr3) :=
                delete_each server api_key (dry_run_of db_config dry_run) 1 n page_ids
                  (count_query n st) (tr2 ++ [EvLog INFO (MsgDeleting n)]) in
              process_databases server fuel api_key dry_run rest st' tr3
          end
      | Raise e => (Some (Raise e), tr1)
      end
  | Ok _ => (Some (Raise OtherException), tr)
  | Raise e => (Some (Raise e), tr)
  end.
Proof.
  cbn [process_databases].
  destruct db_config as [| b | z | s | l | m]; try reflexivity.
  unfold name_of, dry_run_of. cbn [py_getitem py_get].
  destruct (dict_get "database_id" m) as [[| b | z | notion_id | l | m'] |];
    try reflexivity.
  run. destruct (format_notion_id notion_id tr) as [database_id tr1].
  destruct (dict_get "filters" m) as [filters |]; [| reflexivity].
  destruct (query_database server api_key fuel database_id filters _) as [[[| p ps] |] tr2];
    reflexivity.
Qed.

Lemma py_getitem_raises (d : json) (key : string) (e : exn) :
  py_getitem d key = Raise e -> exits_1 e = true.
Proof.
  destruct d as [| | | | | m]; cbn; try (intros H; inversion H; reflexivity).
  destruct (dict_get key m); intros H; inversion H; reflexivity.
Qed.

(** The tallies of a run of the loop that gets to its end: one target
    counted per entry, and [total_failed] raised by the number of failures
    that [delete_page] logged. *)
Lemma process_databases_counts (fuel : nat) (api_key : string) (dry_run : bool)
    (databases : list json) :
  forall (st : stats) (tr : trace),
    let (r, tr') := process_databases server fuel api_key dry_run databases st tr in
    match r with
    | Some (Ok st') =>
        total_queried st' = total_queried st + Z.of_nat (List.length databases) /\
        total_failed st' - Z.of_nat (count_failures tr') =
          total_failed st - Z.of_nat (count_failures tr) /\
        total_failed st <= total_failed st'
    | Some (Raise e) => exits_1 e = true
    | None => True
    end.
Proof.
  induction databases as [| db_config rest IH]; intros st tr.
  - cbn. lia.
  - rewrite process_databases_cons.
    destruct (py_getitem db_config "database_id") as [v | e] eqn:Eid;
      [| exact (py_getitem_raises _ _ _ Eid)].
    destruct v as [| b | z | notion_id | l | m]; try reflexivity.
    pose proof (format_notion_id_counts notion_id tr) as Hf.
    destruct (format_notion_id notion_id tr) as [database_id tr1].
    destruct (py_getitem db_config "filters") as [filters | e] eqn:Efilters;
      [| exact (py_getitem_raises _ _ _ Efilters)].
    match goal with |- context [query_database _ _ _ _ _ ?t] =>
      pose proof (query_database_counts server api_key database_id filters fuel t) as Hq;
      destruct (query_database server api_key fuel database_id filters t) as [r tr2]
    end.
    rewrite count_failures_snoc in Hq by reflexivity.
    destruct r as [[| page_id page_ids] |]; [| | exact I].
    + specialize (IH (count_query 0 st) (tr2 ++ [EvLog INFO MsgNoRecords])).
      destruct (process_databases server fuel api_key dry_run rest _ _) as [[[st' | e] |] tr'];
        [| exact IH | exact I].
      rewrite count_failures_snoc in IH by reflexivity.
      cbn [List.length count_query total_queried total_failed] in *. lia.
    + cbv zeta.
      match goal with |- context [delete_each _ _ ?d ?i ?n ?l ?s ?t] =>
        pose proof (delete_each_counts server api_key d l i n s t) as Hd;
        destruct (delete_each server api_key d i n l s t) as [st1 tr3]
      end.
      specialize (IH st1 tr3).
      destruct (process_databases server fuel api_key dry_run rest st1 tr3)
        as [[[st' | e] |] tr']; [| exact IH | exact I].
      rewrite count_failures_snoc in Hd by reflexivity.
      cbn [List.length count_query total_queried total_failed] in *. lia.
Qed.


(** How every run ends: past the summary with status 1 or 0 according to
    [total_failed], which is the number of failures logged; or before it
    with status 1. *)
Lemma main_ends (fuel : nat) (inv : invocation) (tr : trace) :
  let (r, tr') := main server fuel inv tr in
  match r with
  | Some (Completed st code) =>
      total_failed st = Z.of_nat (count_failures tr') - Z.of_nat (count_failures tr) /\
      0 <= total_failed st /\
      code = (if total_failed st >? 0 then 1 else 0)
  | Some (Aborted e) => exits_1 e = true
  | None => True
  end.
Proof.
  unfold main.
  generalize (args_dry_run inv || env_flag (environ inv) "DRY_RUN"). intros dry_run.
  assert (H0 : count_failures (snd ((if dry_run then log INFO MsgDryRunBanner else ret tt) tr))
               = count_failures tr).
  { destruct dry_run; [apply count_failures_snoc |]; reflexivity. }
  unfold bind at 1.
  destruct ((if dry_run then log INFO MsgDryRunBanner else ret tt) tr) as [[] tr0].
  cbn [snd] in H0. run.
  pose proof (get_api_key_raises (environ inv) tr0) as Hk.
  destruct (get_api_key (environ inv) tr0) as [[api_key | e] tr1];
    [| destruct Hk as (_ & _ & ->); reflexivity].
  pose proof (load_deletion_rules_raises (args_config inv) (config_file inv) tr1) as Hl.
  destruct (load_deletion_rules (args_config inv) (config_file inv) tr1) as [[config | e] tr2];
    [| cbn; tauto].
  cbn [rbind].
  destruct (py_getitem config "databases") as [v | e] eqn:E;
    [| exact (py_getitem_raises _ _ _ E)].
  cbn [rbind].
  destruct (py_iter v) as [databases | e] eqn:Ei.
  2:{ destruct v; cbn in Ei; inversion Ei; reflexivity. }
  pose proof (process_databases_counts fuel api_key dry_run databases (mkStats 0 0 0 0) tr2)
    as Hp.
  destruct (process_databases server fuel api_key dry_run databases _ tr2)
    as [[[st | e] |] tr3]; [| exact Hp | exact I].
  rewrite <- app_assoc.
  assert (Hsum : count_failures
            (tr3 ++ [EvLog INFO (MsgSummary (total_queried st) (total_matched st)
                                            (total_deleted st) (total_failed st))] ++
                    [EvLog INFO (if dry_run then MsgNoDeletionsOccurred else MsgInTrash)])
          = count_failures tr3).
  { unfold count_failures. rewrite count_app. destruct dry_run; cbn; lia. }
  cbn [total_failed] in Hp.
  destruct Hp as (_ & Hp & Hpos). destruct Hk as [Hk _]. destruct Hl as [Hl _].
  cbn [total_failed] in Hp, Hpos.
  destruct (total_failed st >? 0) eqn:Hgt; cbn beta iota; rewrite Hsum, Hgt;
    (split; [lia | split; [lia | reflexivity]]).
Qed.

End Run.

(** ** Pagination against a well-behaved service *)

Lemma ceil_div_step (x p : nat) :
  (0 < p)%nat -> (p <= x)%nat -> ceil_div x p = S (ceil_div (x - p) p).
Proof.
  intros Hp Hx. unfold ceil_div.
  replace (x + p - 1)%nat with ((x - p + p - 1) + 1 * p)%nat by lia.
  rewrite Nat.div_add by lia. lia.
Qed.

Lemma ceil_div_small (x p : nat) :
  (0 < p)%nat -> (x <= p)%nat -> (ceil_div x p <= 1)%nat.
Proof.
  intros Hp Hx. unfold ceil_div.
  enough ((x + p - 1) / p < 2)%nat by lia.
  apply Nat.Div0.div_lt_upper_bound. lia.
Qed.

Lemma ceil_div_pos (x p : nat) :
  (0 < p)%nat -> (0 < x)%nat -> (1 <= ceil_div x p)%nat.
Proof.
  intros Hp Hx. unfold ceil_div.
  apply Nat.div_le_lower_bound; lia.
Qed.

Lemma firstn_add {A} (a b : nat) (l : list A) :
  firstn (a + b) l = firstn a l ++ firstn b (skipn a l).
Proof.
  revert l. induction a as [| a IH]; intros l; [reflexivity |].
  destruct l as [| x l]; cbn.
  - rewrite firstn_nil. reflexivity.
  - rewrite IH. reflexivity.
Qed.

Lemma rmap_page_objects (ids : list json) :
  rmap (fun page => py_getitem page "id") (map (fun id => JDict [("id", id)]) ids) = Ok ids.
Proof.
  induction ids as [| id rest IH]; [reflexivity |].
  cbn [map rmap]. rewrite IH. reflexivity.
Qed.

Lemma last_snoc {A} (l : list A) (x d : A) : last (l ++ [x]) d = x.
Proof. apply last_last. Qed.

Section Paged.

Variable encode : nat -> json.
Variable decode : json -> nat.
Hypothesis decode_encode : forall k, decode (encode k) = k.
Hypothesis encode_truthy : forall k, (0 < k)%nat -> truthy (encode k) = true.

Variable items : list json.
Variable page_size : nat.
Hypothesis page_size_pos : (0 < page_size)%nat.

Variable api_key : string.
Variable database_id : string.
Variable filters : json.

Local Abbreviation srv := (paged_service encode decode items page_size).
Local Abbreviation N := (List.length items).

Lemma read_page_at (offset : nat) :
  read_page (page_at encode items page_size offset) =
    Ok (firstn page_size (skipn offset items),
        JBool (offset + page_size <? N)%nat,
        if (offset + page_size <? N)%nat then encode (offset + page_size)%nat else JNull).
Proof.
  unfold read_page, page_at. cbn. rewrite rmap_page_objects. reflexivity.
Qed.

Lemma paged_reply (tr : trace) (offset : nat) :
  srv (tr ++ [EvPost api_key database_id (query_body filters (cursor_at encode offset))]) =
    ok (page_at encode items page_size offset).
Proof.
  unfold paged_service. rewrite last_snoc. f_equal. f_equal.
  unfold offset_of, query_body. destruct offset as [| k]; [reflexivity |].
  cbn [cursor_at]. rewrite encode_truthy by lia. cbn. apply decode_encode.
Qed.

(** From any offset the loop reads the rest of the items, with one request
    per page, at least one, and a pause between two requests. *)
Lemma query_pages_paged (fuel : nat) :
  forall (offset : nat) (has_more : json) (tr : trace),
    truthy has_more = true ->
    (offset = 0 \/ offset < N)%nat ->
    (Nat.max 1 (ceil_div (N - offset) page_size) + 1 <= fuel)%nat ->
    exists new,
      query_pages srv api_key fuel database_id filters (firstn offset items) has_more
          (cursor_at encode offset) tr = (Some (Ok items), tr ++ new) /\
      count_posts new = Nat.max 1 (ceil_div (N - offset) page_size) /\
      net new = new /\
      paced new = true.
Proof.
  induction fuel as [| fuel IH]; intros offset has_more tr Hmore Hoff Hfuel; [lia |].
  rewrite (query_pages_page _ _ _ _ _ _ _ _ _ 200 "" _ _ _ _ Hmore
             (paged_reply tr offset) eq_refl (read_page_at offset)).
  cbn [truthy].
  destruct (Nat.ltb_spec (offset + page_size) N) as [Hlt | Hge].
  - rewrite <- firstn_add.
    assert (Hcur : encode (offset + page_size)%nat = cursor_at encode (offset + page_size)).
    { destruct (offset + page_size)%nat eqn:E; [lia | reflexivity]. }
    rewrite Hcur.
    pose proof (ceil_div_step (N - offset) page_size page_size_pos ltac:(lia)) as Hstep.
    pose proof (ceil_div_pos (N - offset - page_size) page_size page_size_pos ltac:(lia)).
    replace (N - (offset + page_size))%nat with (N - offset - page_size)%nat in * by lia.
    destruct (IH (offset + page_size)%nat (JBool true)
                (tr ++ [EvPost api_key database_id (query_body filters (cursor_at encode offset));
                        EvSleep PACING]) eq_refl ltac:(lia))
      as (new & -> & Hcount & Hnet & Hpaced).
    { replace (N - (offset + page_size))%nat with (N - offset - page_size)%nat by lia. lia. }
    eexists. rewrite <- app_assoc. split; [reflexivity |].
    replace (N - (offset + page_size))%nat with (N - offset - page_size)%nat in * by lia.
    split; [| split].
    + unfold count_posts in *. cbn [app]. rewrite !count_cons, Hcount.
      cbn -[Nat.max]. lia.
    + cbn. unfold net in Hnet. rewrite Hnet. reflexivity.
    + cbn. exact Hpaced.
  - destruct fuel as [| fuel]; [lia |].
    rewrite query_pages_done by reflexivity.
    eexists. split; [| split; [| split]].
    + f_equal. f_equal. f_equal.
      rewrite (firstn_all2 (n := page_size)) by (rewrite length_skipn; lia).
      apply firstn_skipn.
    + pose proof (ceil_div_small (N - offset) page_size page_size_pos ltac:(lia)).
      cbn -[Nat.max]. lia.
    + reflexivity.
    + reflexivity.
Qed.

End Paged.

(** ** Whole queries *)

Section WholeQuery.

Variable api_key : string.
Variable database_id : string.
Variable filters : json.

Local Abbreviation pagination := (paging api_key database_id filters).
Local Abbreviation querying := (EvLog INFO (MsgQuerying database_id filters)).

Lemma count_requests_log (tr : trace) (lvl : level) (msg : log_msg) :
  count_requests (tr ++ [EvLog lvl msg]) = count_requests tr.
Proof. unfold count_requests. rewrite count_patches_log, count_posts_log. reflexivity. Qed.

(** Pages that continue and then one that does not: the query returns the
    identifiers of all of them. *)
Lemma query_database_script_stop (pages : list json) (final : json)
    (pre tail : list http_reply) (fuel : nat) (tr : trace) :
  forallb continues pages = true ->
  stops final = true ->
  count_requests tr = List.length pre ->
  (List.length pages + 2 <= fuel)%nat ->
  query_database (scripted (pre ++ map ok (pages ++ [final]) ++ tail)) api_key
      fuel database_id filters tr =
    (Some (flat_map ids_of (pages ++ [final])),
     tr ++ [querying] ++ pagination JNull pages ++
       [EvLog INFO (MsgFound (Z.of_nat (List.length (flat_map ids_of (pages ++ [final])))))]).
Proof.
  intros Hall Hfinal Htr Hfuel.
  rewrite (app_assoc3 tr). apply query_database_ok.
  apply query_pages_script_stop; try assumption.
  rewrite count_requests_log. exact Htr.
Qed.


Variable server : service.

Local Abbreviation first_post :=
  (EvPost api_key database_id (query_body filters JNull)).



(** A service that keeps declaring more pages is queried for ever, with or
    without a cursor. *)
Lemma query_pages_endless (data : json) (fuel : nat) :
  continues data = true ->
  (forall t, server t = ok data) ->
  forall (page_ids : list json) (has_more start_cursor : json) (tr : trace),
    truthy has_more = true ->
    fst (query_pages server api_key fuel database_id filters
           page_ids has_more start_cursor tr) = None.
Proof.
  intros Hdata Hserver. destruct (continues_inv data Hdata) as [Hread Hflag].
  induction fuel as [| fuel IH]; intros page_ids has_more start_cursor tr Hmore.
  - reflexivity.
  - rewrite (query_pages_page _ _ _ _ _ _ _ _ _ 200 "" data _ _ _ Hmore
               (Hserver _) eq_refl Hread).
    apply IH. exact Hflag.
Qed.

End WholeQuery.

(** ** Targets whose query returns nothing, and configuration failures *)

Section Skip.

Variable server : service.


Lemma validate_databases_result (databases : list json) (t t' : trace) :
  fst (validate_databases databases t) = fst (validate_databases databases t').
Proof.
  revert t t'. induction databases as [| db_config rest IH]; intros t t'; [reflexivity |].
  cbn [validate_databases].
  destruct (py_contains "database_id" db_config) as [[|] | e]; try reflexivity.
  destruct (py_contains "filters" db_config) as [[|] | e]; try reflexivity.
  apply IH.
Qed.

(** Whether the configuration is accepted does not depend on what was
    logged before. *)
Lemma load_deletion_rules_result (config_path : string) (source : config_source)
    (t t' : trace) :
  fst (load_deletion_rules config_path source t) =
  fst (load_deletion_rules config_path source t').
Proof.
  unfold load_deletion_rules.
  destruct source as [| var_name | | config]; try reflexivity.
  destruct (py_contains "databases" config) as [[|] | e]; try reflexivity.
  destruct (py_getitem config "databases") as [[| b | z | s | databases | m] | e];
    try reflexivity.
  run. pose proof (validate_databases_result databases t t') as H.
  destruct (validate_databases databases t) as [[u | e] t1],
           (validate_databases databases t') as [[u' | e'] t1'];
    cbn in H |- *; congruence.
Qed.

(** A configuration that is refused ends the run before any request, with
    status 1, whatever the fuel. *)
Lemma main_config_failure (fuel : nat) (inv : invocation) (tr t : trace) (e : exn) :
  fst (load_deletion_rules (args_config inv) (config_file inv) t) = Raise e ->
  exists e' tr',
    main server fuel inv tr = (Some (Aborted e'), tr') /\
    exits_1 e' = true /\
    count_requests tr' = count_requests tr.
Proof.
  intros Hload. unfold main.
  generalize (args_dry_run inv || env_flag (environ inv) "DRY_RUN"). intros dry_run.
  assert (H0 : count_requests (snd ((if dry_run then log INFO MsgDryRunBanner else ret tt) tr))
               = count_requests tr).
  { destruct dry_run; [apply count_requests_log | reflexivity]. }
  unfold bind at 1.
  destruct ((if dry_run then log INFO MsgDryRunBanner else ret tt) tr) as [[] tr0].
  cbn [snd] in H0. run.
  pose proof (get_api_key_raises (environ inv) tr0) as Hkey.
  destruct (get_api_key (environ inv) tr0) as [[api_key | e0] tr1];
    destruct Hkey as (_ & Hk & He).
  - pose proof (load_deletion_rules_raises (args_config inv) (config_file inv) tr1)
      as Hrules.
    rewrite (load_deletion_rules_result _ _ t tr1) in Hload.
    destruct (load_deletion_rules (args_config inv) (config_file inv) tr1) as [r tr2].
    destruct Hrules as (_ & Hl & He').
    cbn in Hload. subst r. cbn [rbind].
    exists e, tr2. split; [reflexivity |]. split; [exact He' | congruence].
  - subst e0. exists (SystemExit 1), tr1. split; [reflexivity |].
    split; [reflexivity | congruence].
Qed.

End Skip.

(** * The properties of the specification *)

Lemma count_posts_paging (api_key database_id : string) (filters : json)
    (pages : list json) :
  forall start_cursor,
    count_posts (paging api_key database_id filters start_cursor pages) =
      S (List.length pages).
Proof.
  unfold count_posts.
  induction pages as [| data rest IH]; intros start_cursor; [reflexivity |].
  cbn [paging]. rewrite !count_cons, IH. reflexivity.
Qed.

Lemma paced_paging (api_key database_id : string) (filters : json) (pages : list json) :
  forall start_cursor,
    paced (paging api_key database_id filters start_cursor pages) = true.
Proof.
  induction pages as [| data rest IH]; intros start_cursor; [reflexivity |].
  cbn [paging paced]. rewrite IH. reflexivity.
Qed.

(** C1 (as amended).  For every sequence of query responses, pagination goes
    on exactly while the response declares more pages, whether or not it
    supplies a cursor, and ends on the first response that does not: after
    [pages], each with a true [has_more], and [final], with a false or absent
    one, [query_database] has sent one request per response, each but the
    first carrying the cursor of the response before it when that cursor is
    there, and it returns the identifiers of all the responses. *)
Theorem query_database_follows_has_more
    (api_key database_id : string) (filters : json)
    (pages : list json) (final : json) (pre tail : list http_reply)
    (fuel : nat) (tr : trace) :
  forallb continues pages = true ->
  stops final = true ->
  count_requests tr = List.length pre ->
  (List.length pages + 2 <= fuel)%nat ->
  query_database (scripted (pre ++ map ok (pages ++ [final]) ++ tail)) api_key
      fuel database_id filters tr =
    (Some (flat_map ids_of (pages ++ [final])),
     tr ++ [EvLog INFO (MsgQuerying database_id filters)]
        ++ paging api_key database_id filters JNull pages
        ++ [EvLog INFO (MsgFound (Z.of_nat
              (List.length (flat_map ids_of (pages ++ [final])))))]) /\
  count_posts (paging api_key database_id filters JNull pages) = S (List.length pages).
Proof.
  intros Hall Hfinal Htr Hfuel. split.
  - apply query_database_script_stop; assumption.
  - apply count_posts_paging.
Qed.

Lemma query_database_follows_has_more_witness :
  query_database
      (scripted ([] ++ map ok ([response ["p1"] (JBool true) JNull]
                               ++ [response ["p2"] (JBool false) JNull]) ++ []))
      "ntn_key" 3 "db" no_filter [] =
    (Some (flat_map ids_of ([response ["p1"] (JBool true) JNull]
                            ++ [response ["p2"] (JBool false) JNull])),
     [] ++ [EvLog INFO (MsgQuerying "db" no_filter)]
        ++ paging "ntn_key" "db" no_filter JNull [response ["p1"] (JBool true) JNull]
        ++ [EvLog INFO (MsgFound (Z.of_nat
              (List.length (flat_map ids_of ([response ["p1"] (JBool true) JNull]
                                             ++ [response ["p2"] (JBool false) JNull])))))]) /\
  count_posts (paging "ntn_key" "db" no_filter JNull [response ["p1"] (JBool true) JNull])
    = 2%nat.
Proof.
  apply (query_database_follows_has_more "ntn_key" "db" no_filter
           [response ["p1"] (JBool true) JNull] (response ["p2"] (JBool false) JNull)
           [] [] 3 []).
  - reflexivity.
  - reflexivity.
  - reflexivity.
  - apply le_n.
Defined.

(** C1 as stated fails: the first response declares more pages and carries
    no cursor, and [query_database] does not stop there.  It pauses and sends
    a second request, without a cursor, and returns what both responses
    hold. *)
Lemma query_database_goes_on_without_cursor :
  query_database
      (scripted [ok (response ["p1"] (JBool true) JNull);
                 ok (response ["p2"] (JBool false) JNull)])
      "ntn_key" 5 "db" no_filter [] =
    (Some [JStr "p1"; JStr "p2"],
     [EvLog INFO (MsgQuerying "db" no_filter);
      EvPost "ntn_key" "db" (JDict [("filter", no_filter)]);
      EvSleep 350;
      EvPost "ntn_key" "db" (JDict [("filter", no_filter)]);
      EvLog INFO (MsgFound 2)]).
Proof. reflexivity. Qed.

(** With such responses throughout, no amount of fuel lets the query
    return. *)
Lemma query_database_endless (api_key database_id : string) (filters : json) (fuel : nat) :
  fst (query_database (fun _ => ok (response [] (JBool true) JNull)) api_key
         fuel database_id filters []) = None.
Proof.
  unfold query_database. run.
  pose proof (query_pages_endless api_key database_id filters
                (fun _ => ok (response [] (JBool true) JNull))
                (response [] (JBool true) JNull) fuel eq_refl (fun _ => eq_refl)
                [] (JBool true) JNull
                [EvLog INFO (MsgQuerying database_id filters)] eq_refl) as H.
  cbn [app].
  destruct (query_pages _ api_key fuel database_id filters [] (JBool true) JNull _)
    as [r tr'].
  cbn in H. subst r. reflexivity.
Qed.






Lemma only_patches_succeed : patches_succeed only_patches.
Proof.
  intros t key page_id. unfold only_patches. rewrite last_last. reflexivity.
Qed.


(** A run over two targets whose queries both fail: both are counted, none
    of the other counts moves, and the status is 0. *)
Example two_failed_queries_exit_0 :
  fst (main only_patches 2
         (invoke false (Parsed (config_of [target a_database_id [];
                                           target a_database_id []]))) []) =
    Some (Completed (mkStats 2 0 0 0) 0).
Proof. reflexivity. Qed.

(** C5.  A run that reaches the summary exits with status 0 if and only if
    [total_failed] is zero, and [total_failed] is the number of records that
    [delete_page] gave up on over all the targets: a single failure makes
    the status 1 whatever else succeeded.  A run that ends before the
    summary exits with status 1, and a configuration that
    [load_deletion_rules] refuses ends every run that way, before any
    request. *)
Theorem exit_status_reflects_failures
    (server : service) (fuel : nat) (inv : invocation) (tr : trace) :
  (forall st code tr',
     main server fuel inv tr = (Some (Completed st code), tr') ->
     total_failed st = Z.of_nat (count_failures tr') - Z.of_nat (count_failures tr) /\
     (exit_status (Completed st code) = 0 <-> total_failed st = 0) /\
     (total_failed st <> 0 -> exit_status (Completed st code) = 1)) /\
  (forall e tr',
     main server fuel inv tr = (Some (Aborted e), tr') ->
     exit_status (Aborted e) = 1) /\
  (forall e t,
     fst (load_deletion_rules (args_config inv) (config_file inv) t) = Raise e ->
     exists e' tr',
       main server fuel inv tr = (Some (Aborted e'), tr') /\
       exit_status (Aborted e') = 1 /\
       count_requests tr' = count_requests tr).
Proof.
  assert (Haborted : forall e, exits_1 e = true -> exit_status (Aborted e) = 1).
  { intros [status_code text | code |] H; cbn in *;
      [reflexivity | apply Z.eqb_eq; exact H | reflexivity]. }
  pose proof (main_ends server fuel inv tr) as Hends.
  split; [| split].
  - intros st code tr' Hmain. rewrite Hmain in Hends.
    destruct Hends as (Hfailed & Hpos & ->). cbn [exit_status].
    split; [exact Hfailed |].
    destruct (Z.gtb_spec (total_failed st) 0); split; intros; try lia; try reflexivity.
  - intros e tr' Hmain. rewrite Hmain in Hends. apply Haborted. exact Hends.
  - intros e t Hload.
    destruct (main_config_failure server fuel inv tr t e Hload)
      as (e' & tr' & Hmain & He' & Hreq).
    exists e', tr'. split; [exact Hmain |]. split; [apply Haborted; exact He' | exact Hreq].
Qed.

(** One record is archived and the next one is refused: the run ends with
    one deletion, one failure and status 1. *)
Lemma exit_status_reflects_failures_witness :
  fst (main (scripted [ok (response ["a1"; "a2"] (JBool false) JNull); accepted; refused])
            2 (invoke false (Parsed (config_of [target a_database_id []]))) []) =
    Some (Completed (mkStats 1 2 1 1) 1) /\
  (exit_status (Completed (mkStats 1 2 1 1) 1) = 0 <-> total_failed (mkStats 1 2 1 1) = 0).
Proof.
  split; [reflexivity |].
  exact (proj1 (proj2 (proj1 (exit_status_reflects_failures
           (scripted [ok (response ["a1"; "a2"] (JBool false) JNull); accepted; refused])
           2 (invoke false (Parsed (config_of [target a_database_id []]))) [])
           (mkStats 1 2 1 1) 1 _ eq_refl))).
Defined.

(** The scenario of two targets: the first matches two records, of which
    one is archived and one is refused, the second matches none. *)
Example two_targets_one_failure :
  fst (main (scripted [ok (response ["a1"; "a2"] (JBool false) JNull); accepted; refused;
                       ok (response [] (JBool false) JNull)])
            2 (invoke false (Parsed (config_of [target a_database_id [];
                                                target a_database_id []]))) []) =
    Some (Completed (mkStats 2 2 1 1) 1).
Proof. reflexivity. Qed.

(** A file that is missing, a variable that is not set, a text that is not
    JSON, a document without a list of databases: status 1, nothing sent. *)
Example missing_file_exits_1 :
  main only_patches 2 (invoke false FileMissing) [] =
    (Some (Aborted (SystemExit 1)),
     [EvLog INFO (MsgApiKeyLoaded 7); EvLog ERROR (MsgConfigNotFound "rules.json")]).
Proof. reflexivity. Qed.

Example databases_not_a_list_exits_1 :
  fst (main only_patches 2 (invoke false (Parsed (JDict [("databases", JInt 3)]))) []) =
    Some (Aborted (SystemExit 1)).
Proof. reflexivity. Qed.

(** C2 (as amended).  Every record processed with an effective dry-run flag
    that is true adds one to the deleted count of the summary and leaves the
    failed count as it was; no request is sent for it and no pause is
    made.  Dry-run records are counted with the deletions, not apart. *)
Theorem dry_run_counts_as_deleted
    (server : service) (api_key : string) (db_dry_run : json) (i n : Z)
    (page_ids : list json) (st : stats) (tr : trace) :
  truthy db_dry_run = true ->
  let (st', tr') := delete_each server api_key db_dry_run i n page_ids st tr in
  total_deleted st' = total_deleted st + Z.of_nat (List.length page_ids) /\
  total_failed st' = total_failed st /\
  total_queried st' = total_queried st /\
  total_matched st' = total_matched st /\
  net tr' = net tr.
Proof.
  intros Hdry.
  pose proof (delete_each_dry server api_key db_dry_run page_ids Hdry i n st tr) as H.
  destruct (delete_each server api_key db_dry_run i n page_ids st tr) as [st' tr'].
  destruct H as [-> Hnet]. cbn. auto.
Qed.

Lemma dry_run_counts_as_deleted_witness :
  let (st', tr') :=
    delete_each only_patches "ntn_key" (JBool true) 1 2 [JStr "p1"; JStr "p2"]
      (mkStats 1 2 0 0) [] in
  total_deleted st' = 0 + Z.of_nat 2 /\
  total_failed st' = 0 /\
  total_queried st' = 1 /\
  total_matched st' = 2 /\
  net tr' = net [].
Proof.
  apply (dry_run_counts_as_deleted only_patches "ntn_key" (JBool true) 1 2
           [JStr "p1"; JStr "p2"] (mkStats 1 2 0 0) []).
  reflexivity.
Defined.

(** C2 as stated fails: in a dry run over one target that matches one
    record, the summary reports one record deleted, although no mutation was
    sent. *)
Lemma dry_run_item_is_reported_deleted :
  main (scripted [ok (response ["p1"] (JBool false) JNull)]) 2
       (invoke true (Parsed (config_of [target a_database_id []]))) [] =
    (Some (Completed (mkStats 1 1 1 0) 0),
     [EvLog INFO MsgDryRunBanner;
      EvLog INFO (MsgApiKeyLoaded 7);
      EvLog INFO (MsgProcessingDatabase (JStr a_dashed_id) a_dashed_id);
      EvLog INFO (MsgQuerying a_dashed_id no_filter);
      EvPost "ntn_key" a_dashed_id (JDict [("filter", no_filter)]);
      EvLog INFO (MsgFound 1);
      EvLog INFO (MsgDeleting 1);
      EvLog INFO (MsgProcessingRecord 1 1);
      EvLog INFO (MsgDryRunWouldDelete (JStr "p1"));
      EvLog INFO (MsgSummary 1 1 1 0);
      EvLog INFO MsgNoDeletionsOccurred]).
Proof. reflexivity. Qed.

(** C8 (as amended).  With a dry-run flag that is true, [delete_page] sends
    no request and makes no pause: it logs the record it would delete and
    returns at once.  What it returns is [True], the value that a live call
    returns for a record that was archived: there is no outcome of its own
    for a record that was skipped, and the log line alone tells the two
    apart. *)
Theorem dry_run_sends_nothing
    (server : service) (api_key : string) (page_id dry_run : json) (tr : trace) :
  truthy dry_run = true ->
  delete_page server api_key page_id dry_run tr =
    (true, tr ++ [EvLog INFO (MsgDryRunWouldDelete page_id)]) /\
  count_requests (snd (delete_page server api_key page_id dry_run tr)) = count_requests tr /\
  net (snd (delete_page server api_key page_id dry_run tr)) = net tr /\
  (forall (live : service) (live_flag : json) (t : trace),
     truthy live_flag = false ->
     is_error (live (t ++ [EvPatch api_key page_id])) = false ->
     fst (delete_page live api_key page_id live_flag t) =
     fst (delete_page server api_key page_id dry_run tr)).
Proof.
  intros Hdry. rewrite (delete_page_dry server api_key page_id dry_run tr Hdry).
  cbn [fst snd]. rewrite count_requests_log, net_app. cbn. rewrite app_nil_r.
  repeat split.
  intros live live_flag t Hlive Hok. unfold delete_page. rewrite Hlive. run.
  change (range max_retries) with [0; 1; 2].
  rewrite delete_attempts_ok by exact Hok. reflexivity.
Qed.

Lemma dry_run_sends_nothing_witness :
  delete_page only_patches "ntn_key" (JStr "p1") (JBool true) [] =
    (true, [] ++ [EvLog INFO (MsgDryRunWouldDelete (JStr "p1"))]) /\
  count_requests (snd (delete_page only_patches "ntn_key" (JStr "p1") (JBool true) []))
    = count_requests [] /\
  net (snd (delete_page only_patches "ntn_key" (JStr "p1") (JBool true) [])) = net [].
Proof.
  pose proof (dry_run_sends_nothing only_patches "ntn_key" (JStr "p1") (JBool true) []
                eq_refl) as (H1 & H2 & H3 & _).
  exact (conj H1 (conj H2 H3)).
Defined.

(** C8 as stated fails: a dry run returns no outcome of its own.  On one
    record, the call with the flag and the call that archives the record
    return the same value, [True]; only the second sends a request. *)
Lemma dry_run_returns_what_success_returns :
  fst (delete_page (scripted [accepted]) "ntn_key" (JStr "p1") (JBool true) []) =
  fst (delete_page (scripted [accepted]) "ntn_key" (JStr "p1") (JBool false) []) /\
  delete_page (scripted [accepted]) "ntn_key" (JStr "p1") (JBool true) [] =
    (true, [EvLog INFO (MsgDryRunWouldDelete (JStr "p1"))]) /\
  delete_page (scripted [accepted]) "ntn_key" (JStr "p1") (JBool false) [] =
    (true, [EvPatch "ntn_key" (JStr "p1"); EvLog INFO (MsgDeleted (JStr "p1"));
            EvSleep 350]).
Proof. repeat split. Qed.

(** C3.  In live mode a rate-limited attempt is followed by a pause of
    [retry_delay * 2 ^ attempt] seconds and by another attempt on the same
    record, up to three attempts.  When all three are rate limited the
    pauses are of 1, 2 and 4 seconds, [delete_page] returns [False] after the
    third, no fourth request is sent, and main counts the record as failed.
    Whatever the service replies, one call sends at most three requests. *)
Theorem rate_limit_backoff
    (api_key : string) (page_id dry_run : json) (r1 r2 r3 : http_reply)
    (pre rest : list http_reply) (tr : trace) :
  truthy dry_run = false ->
  forallb is_rate_limit [r1; r2; r3] = true ->
  count_requests tr = List.length pre ->
  let server := scripted (pre ++ r1 :: r2 :: r3 :: rest) in
  delete_page server api_key page_id dry_run tr =
    (false,
     tr ++ [EvPatch api_key page_id; EvLog WARNING (MsgRateLimited page_id 1 1 3);
            EvSleep 1000;
            EvPatch api_key page_id; EvLog WARNING (MsgRateLimited page_id 2 2 3);
            EvSleep 2000;
            EvPatch api_key page_id; EvLog WARNING (MsgRateLimited page_id 4 3 3);
            EvSleep 4000;
            EvLog ERROR (MsgDeleteGaveUp page_id 3)]) /\
  (forall i n st,
     fst (delete_each server api_key dry_run i n [page_id] st tr) =
       mkStats (total_queried st) (total_matched st) (total_deleted st)
               (total_failed st + 1)) /\
  (forall (any : service) (attempt : Z) (attempts : list Z) (t : trace),
     is_rate_limit (any (t ++ [EvPatch api_key page_id])) = true ->
     delete_attempts any api_key page_id (attempt :: attempts) t =
       delete_attempts any api_key page_id attempts
         (t ++ [EvPatch api_key page_id;
                EvLog WARNING (MsgRateLimited page_id (retry_delay * 2 ^ attempt)
                                              (attempt + 1) max_retries);
                EvSleep (1000 * (retry_delay * 2 ^ attempt))])) /\
  (forall (any : service) (t : trace),
     (count_patches (snd (delete_page any api_key page_id dry_run t))
      <= count_patches t + 3)%nat).
Proof.
  intros Hdry Hall Htr server. split; [| split; [| split]].
  - exact (delete_page_all_429 api_key page_id dry_run r1 r2 r3 pre rest tr Hdry Hall Htr).
  - intros i n st. rewrite delete_each_cons.
    unfold server.
    rewrite (delete_page_all_429 api_key page_id dry_run r1 r2 r3 pre rest _ Hdry Hall)
      by (rewrite count_requests_log; exact Htr).
    reflexivity.
  - intros any attempt attempts t H. apply delete_attempts_429. exact H.
  - intros any t.
    pose proof (delete_page_counts any api_key page_id dry_run t) as H.
    destruct (delete_page any api_key page_id dry_run t) as [success t'].
    cbn [snd]. tauto.
Qed.

Lemma rate_limit_backoff_witness :
  net (snd (delete_page (scripted ([] ++ rate_limited :: rate_limited :: rate_limited
                                      :: [accepted]))
              "ntn_key" (JStr "p1") (JBool false) [])) =
    [EvPatch "ntn_key" (JStr "p1"); EvSleep 1000;
     EvPatch "ntn_key" (JStr "p1"); EvSleep 2000;
     EvPatch "ntn_key" (JStr "p1"); EvSleep 4000].
Proof.
  rewrite (proj1 (rate_limit_backoff "ntn_key" (JStr "p1") (JBool false)
                    rate_limited rate_limited rate_limited [] [accepted] []
                    eq_refl eq_refl eq_refl)).
  reflexivity.
Defined.

(** Two rate limits and then a success: the record is archived at the third
    attempt, after pauses of 1 and 2 seconds. *)
Example third_attempt_succeeds :
  delete_page (scripted [rate_limited; rate_limited; accepted])
              "ntn_key" (JStr "p1") (JBool false) [] =
    (true,
     [EvPatch "ntn_key" (JStr "p1"); EvLog WARNING (MsgRateLimited (JStr "p1") 1 1 3);
      EvSleep 1000;
      EvPatch "ntn_key" (JStr "p1"); EvLog WARNING (MsgRateLimited (JStr "p1") 2 2 3);
      EvSleep 2000;
      EvPatch "ntn_key" (JStr "p1"); EvLog INFO (MsgDeleted (JStr "p1"));
      EvSleep 350]).
Proof. reflexivity. Qed.



(** A refusal, a lost connection and a success over three records: one
    request for each, and the loop goes through all of them. *)
Example refused_then_next_record :
  delete_each (scripted [refused; TransportError; accepted]) "ntn_key" (JBool false) 1 3
      [JStr "p1"; JStr "p2"; JStr "p3"] (mkStats 1 3 0 0) [] =
    (mkStats 1 3 1 2,
     [EvLog INFO (MsgProcessingRecord 1 3);
      EvPatch "ntn_key" (JStr "p1");
      EvLog ERROR (MsgDeleteHttpError (JStr "p1") "validation error");
      EvLog INFO (MsgProcessingRecord 2 3);
      EvPatch "ntn_key" (JStr "p2");
      EvLog ERROR (MsgDeleteUnexpected (JStr "p2"));
      EvLog INFO (MsgProcessingRecord 3 3);
      EvPatch "ntn_key" (JStr "p3");
      EvLog INFO (MsgDeleted (JStr "p3"));
      EvSleep 350]).
Proof. reflexivity. Qed.

(** C6 (as amended).  From a service that holds N items and serves them in
    pages of P, [query_database] returns exactly the N items, in
    [max(1, ceil(N/P))] requests, one even when N is zero, with the pacing
    pause between two consecutive requests and none before the first or
    after the last. *)
Theorem paginated_result_set
    (encode : nat -> json) (decode : json -> nat)
    (items : list json) (page_size : nat)
    (api_key database_id : string) (filters : json) (fuel : nat) (tr : trace) :
  (forall k, decode (encode k) = k) ->
  (forall k, (0 < k)%nat -> truthy (encode k) = true) ->
  (0 < page_size)%nat ->
  (Nat.max 1 (ceil_div (List.length items) page_size) + 1 <= fuel)%nat ->
  exists new,
    query_database (paged_service encode decode items page_size) api_key
        fuel database_id filters tr = (Some items, tr ++ new) /\
    count_posts new = Nat.max 1 (ceil_div (List.length items) page_size) /\
    paced (net new) = true.
Proof.
  intros Hdec Htruthy Hpos Hfuel.
  destruct (query_pages_paged encode decode Hdec Htruthy items page_size Hpos
              api_key database_id filters fuel 0%nat (JBool true)
              (tr ++ [EvLog INFO (MsgQuerying database_id filters)]) eq_refl
              (or_introl eq_refl))
    as (new & Hq & Hcount & Hnet & Hpaced).
  { rewrite Nat.sub_0_r. exact Hfuel. }
  rewrite Nat.sub_0_r in Hcount. cbn [firstn cursor_at] in Hq.
  exists ([EvLog INFO (MsgQuerying database_id filters)] ++ new
            ++ [EvLog INFO (MsgFound (Z.of_nat (List.length items)))]).
  split; [| split].
  - rewrite (app_assoc3 tr). apply query_database_ok.
    rewrite Hq. reflexivity.
  - unfold count_posts in *. rewrite !count_app, Hcount. cbn -[Nat.max]. lia.
  - rewrite !net_app, Hnet. cbn. rewrite app_nil_r. exact Hpaced.
Qed.

Lemma cursor_offset_cursor (k : nat) : cursor_offset (offset_cursor k) = k.
Proof. apply Nat2Z.id. Defined.

Lemma offset_cursor_truthy (k : nat) : (0 < k)%nat -> truthy (offset_cursor k) = true.
Proof.
  intros H. destruct k as [| k]; [exfalso; exact (Nat.nlt_0_r 0 H) | reflexivity].
Defined.

(** Five items in pages of two: three requests, two pauses. *)
Lemma paginated_result_set_witness :
  exists new,
    query_database
        (paged_service offset_cursor cursor_offset
           [JStr "a"; JStr "b"; JStr "c"; JStr "d"; JStr "e"] 2)
        "ntn_key" 4 "db" no_filter [] =
      (Some [JStr "a"; JStr "b"; JStr "c"; JStr "d"; JStr "e"], [] ++ new) /\
    count_posts new = 3%nat /\
    paced (net new) = true.
Proof.
  apply (paginated_result_set offset_cursor cursor_offset
           [JStr "a"; JStr "b"; JStr "c"; JStr "d"; JStr "e"] 2
           "ntn_key" "db" no_filter 4 []
           cursor_offset_cursor offset_cursor_truthy (le_S _ _ (le_n 1)) (le_n 4)).
Defined.

Example five_items_in_pages_of_two :
  net (snd (query_database
              (paged_service offset_cursor cursor_offset
                 [JStr "a"; JStr "b"; JStr "c"; JStr "d"; JStr "e"] 2)
              "ntn_key" 4 "db" no_filter [])) =
    [EvPost "ntn_key" "db" (JDict [("filter", no_filter)]);
     EvSleep 350;
     EvPost "ntn_key" "db" (JDict [("filter", no_filter); ("start_cursor", JInt 2)]);
     EvSleep 350;
     EvPost "ntn_key" "db" (JDict [("filter", no_filter); ("start_cursor", JInt 4)])].
Proof. reflexivity. Qed.

(** C6 as stated fails for an empty result set: [ceil(0/P)] is zero, and
    one request is sent all the same. *)
Lemma empty_result_set_takes_one_request :
  ceil_div 0 10 = 0%nat /\
  query_database (paged_service offset_cursor cursor_offset [] 10)
      "ntn_key" 2 "db" no_filter [] =
    (Some [],
     [EvLog INFO (MsgQuerying "db" no_filter);
      EvPost "ntn_key" "db" (JDict [("filter", no_filter)]);
      EvLog INFO (MsgFound 0)]).
Proof. split; reflexivity. Qed.

(** * Further properties of the code *)

(** ** substitute_env_vars *)

Lemma split_brace_spec (s var_name after : string) :
  split_brace s = Some (var_name, after) ->
  s = (var_name ++ "}" ++ after)%string /\ contains_char "}" var_name = false.
Proof.
  revert var_name. induction s as [| c rest IH]; intros var_name; cbn; [discriminate |].
  destruct (Ascii.eqb_spec c "}") as [-> | Hc].
  - intros H. inversion H. auto.
  - destruct (split_brace rest) as [[n a] |]; [| discriminate].
    intros H. inversion H; subst. destruct (IH n eq_refl) as [-> Hn].
    split; [reflexivity |]. cbn. rewrite Hn.
    destruct (Ascii.eqb_spec c "}"); [contradiction | reflexivity].
Qed.

Lemma split_brace_none (s : string) :
  contains_char "}" s = false -> split_brace s = None.
Proof.
  induction s as [| c rest IH]; cbn; [reflexivity |].
  intros H. apply orb_false_iff in H as [Hc Hrest].
  rewrite Hc, (IH Hrest). reflexivity.
Qed.

Lemma split_brace_app (var_name after : string) :
  contains_char "}" var_name = false ->
  split_brace (var_name ++ String "}" after) = Some (var_name, after).
Proof.
  induction var_name as [| c rest IH]; [reflexivity |].
  cbn [contains_char append split_brace].
  intros H. apply orb_false_iff in H as [Hc Hrest].
  rewrite Hc, (IH Hrest). reflexivity.
Qed.

Lemma length_append (a b : string) :
  String.length (a ++ b) = (String.length a + String.length b)%nat.
Proof. induction a as [| c a IH]; cbn; [reflexivity | rewrite IH; reflexivity]. Qed.

Lemma match_var_shorter (text var_name after : string) :
  match_var text = Some (var_name, after) ->
  (String.length after < String.length text)%nat.
Proof.
  destruct text as [| c0 [| c1 rest]]; cbn; try discriminate.
  destruct (Ascii.eqb c0 "$" && Ascii.eqb c1 "{"); [| discriminate].
  destruct (split_brace rest) as [[[| c n] a] |] eqn:E; try discriminate.
  intros H. inversion H; subst.
  apply split_brace_spec in E as [-> _]. rewrite !length_append. cbn. lia.
Qed.

(** The fuel that [substitute_env_vars] gives is enough: more changes
    nothing. *)
Lemma substitute_fuel (environ : string -> option string) (f1 : nat) :
  forall (f2 : nat) (text : string),
    (String.length text < f1)%nat -> (String.length text < f2)%nat ->
    substitute f1 environ text = substitute f2 environ text.
Proof.
  induction f1 as [| f1 IH]; intros [| f2] text H1 H2; try lia.
  cbn [substitute].
  destruct (match_var text) as [[var_name after] |] eqn:E.
  - apply match_var_shorter in E.
    destruct (environ var_name); [| reflexivity].
    rewrite (IH f2 after) by lia. reflexivity.
  - destruct text as [| c rest]; [reflexivity |].
    cbn in H1, H2. rewrite (IH f2 rest) by lia. reflexivity.
Qed.

Lemma match_var_reference (var_name after : string) :
  var_name <> EmptyString ->
  contains_char "}" var_name = false ->
  match_var ("${" ++ var_name ++ "}" ++ after) = Some (var_name, after).
Proof.
  intros Hne Hn. cbn [append match_var Ascii.eqb Bool.eqb andb].
  change ("}" ++ after)%string with (String "}" after).
  rewrite (split_brace_app var_name after Hn).
  destruct var_name; [contradiction | reflexivity].
Qed.

Lemma match_var_no_dollar (c : ascii) (rest : string) :
  Ascii.eqb c "$" = false -> match_var (String c rest) = None.
Proof. intros H. cbn. destruct rest; [reflexivity |]. rewrite H. reflexivity. Qed.

(** A prefix without a dollar sign is copied, and the scan goes on behind
    it. *)
Lemma substitute_prefix (environ : string -> option string) (pre : string) :
  forall (fuel : nat) (rest : string),
    contains_char "$" pre = false ->
    substitute (String.length pre + fuel) environ (pre ++ rest) =
      match substitute fuel environ rest with
      | inr s => inr (pre ++ s)%string
      | inl v => inl v
      end.
Proof.
  induction pre as [| c pre IH]; intros fuel rest H.
  - cbn. destruct (substitute fuel environ rest); reflexivity.
  - cbn in H. apply orb_false_iff in H as [Hc Hpre].
    cbn [String.length Nat.add append substitute].
    rewrite (match_var_no_dollar c _ Hc), (IH fuel rest Hpre).
    destruct (substitute fuel environ rest); reflexivity.
Qed.

Lemma substitute_no_brace (environ : string -> option string) (text : string) :
  forall fuel,
    contains_char "}" text = false ->
    substitute fuel environ text = inr text.
Proof.
  induction text as [| c rest IH]; intros [| fuel] H; try reflexivity.
  cbn in H. apply orb_false_iff in H as [Hc Hrest].
  cbn [substitute].
  assert (Hm : match_var (String c rest) = None).
  { cbn. destruct rest as [| c1 rest']; [reflexivity |].
    destruct (Ascii.eqb c "$" && Ascii.eqb c1 "{"); [| reflexivity].
    cbn in Hrest. apply orb_false_iff in Hrest as [_ Hrest'].
    rewrite (split_brace_none rest' Hrest'). reflexivity. }
  rewrite Hm, (IH fuel Hrest). reflexivity.
Qed.

Lemma substitute_no_dollar (environ : string -> option string) (text : string) :
  contains_char "$" text = false ->
  substitute (S (String.length text)) environ text = inr text.
Proof.
  intros H.
  pose proof (substitute_prefix environ text 1 EmptyString H) as Hp.
  assert (Happ : forall s : string, (s ++ "")%string = s).
  { induction s as [| c s IH]; cbn; [reflexivity | rewrite IH; reflexivity]. }
  rewrite Happ in Hp. cbn [substitute match_var] in Hp. rewrite Happ in Hp.
  rewrite <- Hp. f_equal. lia.
Qed.

(** X1.  A text without a dollar sign, or without a closing brace, holds no
    reference: [substitute_env_vars] returns it unchanged, whatever the
    environment, and logs nothing.  A reference needs a name: the three
    characters of an empty one are copied and the scan goes on behind
    them. *)
Theorem text_without_reference_is_unchanged
    (environ : string -> option string) (text : string) (tr : trace) :
  (contains_char "$" text = false \/ contains_char "}" text = false ->
   substitute_env_vars environ text tr = (Ok text, tr)) /\
  (substitute_env_vars environ ("${}" ++ text) tr =
   match substitute_env_vars environ text tr with
   | (Ok s, tr') => (Ok ("${}" ++ s)%string, tr')
   | failed => failed
   end).
Proof.
  split.
  - intros [H | H]; unfold substitute_env_vars.
    + rewrite (substitute_no_dollar environ text H). reflexivity.
    + rewrite (substitute_no_brace environ text _ H). reflexivity.
  - unfold substitute_env_vars.
    change (String.length ("${}" ++ text)) with (S (S (S (String.length text)))).
    change ("${}" ++ text)%string with (String "$" (String "{" (String "}" text))).
    cbn [substitute].
    change (match_var (String "$" (String "{" (String "}" text)))) with (@None (string * string)).
    change (match_var (String "{" (String "}" text))) with (@None (string * string)).
    rewrite (match_var_no_dollar "}" text eq_refl).
    destruct text as [| c rest];
      destruct (match_var _) as [[var_name after] |]; try reflexivity;
      try (destruct (environ var_name); [| reflexivity]);
      match goal with |- context [substitute ?f environ ?t] =>
        destruct (substitute f environ t) end; reflexivity.
Qed.

Lemma text_without_reference_is_unchanged_witness :
  substitute_env_vars (fun _ => None) "costs $5 {and ${more" [] =
    (Ok "costs $5 {and ${more", []).
Proof.
  apply (proj1 (text_without_reference_is_unchanged (fun _ => None)
                  "costs $5 {and ${more" [])).
  right. reflexivity.
Defined.

Lemma append_assoc3 (a b c : string) : ((a ++ b) ++ c = a ++ b ++ c)%string.
Proof. induction a as [| x a IH]; cbn; [reflexivity | rewrite IH; reflexivity]. Qed.

Lemma split_brace_some (a b : string) :
  exists var_name after, split_brace (a ++ String "}" b) = Some (var_name, after).
Proof.
  induction a as [| c a (n & r & IH)].
  - exists EmptyString, b. reflexivity.
  - cbn [append split_brace]. rewrite IH. destruct (Ascii.eqb c "}"); eauto.
Qed.

(** Where no reference opens, the pattern does not match. *)
Lemma match_var_closed (c : ascii) (pre tail : string) :
  opens_here (String c pre) = false ->
  match_var (String c (pre ++ String "$" tail)) = None.
Proof.
  destruct pre as [| c1 [| c2 r2]]; cbn [opens_here append match_var].
  - intros _. rewrite andb_false_r. reflexivity.
  - intros H. rewrite andb_true_r in H. rewrite H. reflexivity.
  - intros H. destruct (Ascii.eqb c "$" && Ascii.eqb c1 "{"); [| reflexivity].
    cbn in H. apply negb_false_iff in H. cbn [split_brace]. rewrite H. reflexivity.
Qed.

(** And where the pattern does not match ahead of a reference, none
    opens. *)
Lemma match_var_none_closed (c : ascii) (pre var_name post : string) :
  match_var (String c (pre ++ "${" ++ var_name ++ String "}" post)) = None ->
  opens_here (String c pre) = false.
Proof.
  destruct pre as [| c1 [| c2 r2]]; cbn [opens_here append match_var]; [reflexivity | |].
  - destruct (Ascii.eqb c "$" && Ascii.eqb c1 "{"); [| reflexivity].
    change ("${" ++ var_name ++ String "}" post)%string
      with (String "$" (String "{" (var_name ++ String "}" post))).
    cbn [split_brace Ascii.eqb Bool.eqb].
    destruct (split_brace_some var_name post) as (n & r & ->). discriminate.
  - destruct (Ascii.eqb c "$" && Ascii.eqb c1 "{"); [| reflexivity].
    cbn [split_brace andb]. destruct (Ascii.eqb c2 "}"); [reflexivity |].
    change (r2 ++ "${" ++ var_name ++ String "}" post)%string
      with (r2 ++ String "$" (String "{" (var_name ++ String "}" post)))%string.
    assert (H : exists n r, split_brace
              (r2 ++ String "$" (String "{" (var_name ++ String "}" post))) = Some (n, r)).
    { replace (r2 ++ String "$" (String "{" (var_name ++ String "}" post)))%string
        with ((r2 ++ "${" ++ var_name) ++ String "}" post)%string.
      - apply split_brace_some.
      - rewrite append_assoc3. reflexivity. }
    destruct H as (n & r & ->). discriminate.
Qed.

(** What stands before the first reference of a text is copied, dollar
    signs and braces included, and the scan goes on at the reference. *)
Lemma substitute_before_reference (environ : string -> option string) (pre : string) :
  forall (fuel : nat) (tail : string),
    opens_nothing pre = true ->
    substitute (String.length pre + fuel) environ (pre ++ String "$" tail) =
      match substitute fuel environ (String "$" tail) with
      | inr s => inr (pre ++ s)%string
      | inl v => inl v
      end.
Proof.
  induction pre as [| c pre IH]; intros fuel tail H.
  - cbn [String.length Nat.add append].
    destruct (substitute fuel environ (String "$" tail)); reflexivity.
  - cbn [opens_nothing] in H. apply andb_true_iff in H as [Hc Hpre].
    apply negb_true_iff in Hc.
    cbn [String.length Nat.add append substitute].
    rewrite (match_var_closed c pre tail Hc), (IH fuel tail Hpre).
    destruct (substitute fuel environ (String "$" tail)); reflexivity.
Qed.

(** The scan at the first reference of a text. *)
Lemma substitute_reference (environ : string -> option string)
    (pre var_name post : string) :
  opens_nothing pre = true ->
  var_name <> EmptyString ->
  contains_char "}" var_name = false ->
  substitute (S (String.length (pre ++ "${" ++ var_name ++ "}" ++ post))) environ
      (pre ++ "${" ++ var_name ++ "}" ++ post) =
    match environ var_name with
    | None => inl var_name
    | Some value =>
        match substitute (S (String.length post)) environ post with
        | inr s => inr (pre ++ value ++ s)%string
        | inl v => inl v
        end
    end.
Proof.
  intros Hpre Hne Hname.
  replace (S (String.length (pre ++ "${" ++ var_name ++ "}" ++ post)))
    with (String.length pre + S (S (String.length var_name + 2 + String.length post)))%nat
    by (rewrite !length_append; cbn; lia).
  change ("${" ++ var_name ++ "}" ++ post)%string
    with (String "$" (String "{" (var_name ++ "}" ++ post))).
  rewrite (substitute_before_reference environ pre _ _ Hpre).
  change (String "$" (String "{" (var_name ++ "}" ++ post)))
    with ("${" ++ var_name ++ "}" ++ post)%string.
  remember (S (String.length var_name + 2 + String.length post)) as fuel eqn:Hfuel.
  remember (substitute (S (String.length post)) environ post) as r eqn:Hr.
  cbn [substitute]. rewrite (match_var_reference var_name post Hne Hname).
  destruct (environ var_name) as [value |]; [| reflexivity].
  rewrite (substitute_fuel environ fuel (S (String.length post)) post), <- Hr by lia.
  destruct r; reflexivity.
Qed.

Lemma match_var_spec (text var_name after : string) :
  match_var text = Some (var_name, after) ->
  text = ("${" ++ var_name ++ "}" ++ after)%string /\
  var_name <> EmptyString /\ contains_char "}" var_name = false.
Proof.
  destruct text as [| c0 [| c1 rest]]; cbn [match_var]; try discriminate.
  destruct (Ascii.eqb_spec c0 "$") as [-> |]; [| discriminate].
  destruct (Ascii.eqb_spec c1 "{") as [-> |]; [| discriminate].
  cbn [andb].
  destruct (split_brace rest) as [[[| c n] a] |] eqn:E; try discriminate.
  intros H. inversion H; subst.
  apply split_brace_spec in E as [-> Hn].
  split; [reflexivity |]. split; [discriminate | exact Hn].
Qed.

(** Every text either holds no reference, and is left as it is in every
    environment, or splits at its first reference. *)
Lemma first_reference_split (text : string) :
  (forall environ, substitute (S (String.length text)) environ text = inr text) \/
  exists pre var_name post,
    text = (pre ++ "${" ++ var_name ++ "}" ++ post)%string /\
    opens_nothing pre = true /\
    var_name <> EmptyString /\ contains_char "}" var_name = false.
Proof.
  induction text as [| c rest IH].
  - left. reflexivity.
  - destruct (match_var (String c rest)) as [[var_name after] |] eqn:E.
    + right. apply match_var_spec in E as (-> & Hne & Hn).
      exists EmptyString, var_name, after. auto.
    + destruct IH as [IH | (pre & var_name & post & -> & Hpre & Hne & Hn)].
      * left. intros environ.
        cbn [String.length]. remember (S (String.length rest)) as fuel.
        cbn [substitute]. rewrite E. subst fuel. rewrite IH. reflexivity.
      * right. exists (String c pre), var_name, post.
        split; [reflexivity |]. split; [| auto].
        cbn [opens_nothing]. rewrite Hpre, andb_true_r. apply negb_true_iff.
        exact (match_var_none_closed c pre var_name post E).
Qed.

(** X2.  In every text, the first reference to a variable, when the
    variable is set, is replaced by its value, what stands before it is
    kept, dollar signs included, and the text behind it is substituted on
    its own: the value that was put in is not scanned again, so a value that
    looks like a reference stays as it is.  [pre] is what stands before the
    first reference: no reference opens in it; and every text that holds a
    reference splits that way. *)
Theorem reference_is_replaced_once
    (environ : string -> option string) (pre var_name value post : string) (tr : trace) :
  opens_nothing pre = true ->
  var_name <> EmptyString ->
  contains_char "}" var_name = false ->
  environ var_name = Some value ->
  substitute_env_vars environ (pre ++ "${" ++ var_name ++ "}" ++ post) tr =
    match substitute_env_vars environ post tr with
    | (Ok s, tr') => (Ok (pre ++ value ++ s)%string, tr')
    | failed => failed
    end /\
  (forall text,
     (forall env t, substitute_env_vars env text t = (Ok text, t)) \/
     exists pre' var_name' post',
       text = (pre' ++ "${" ++ var_name' ++ "}" ++ post')%string /\
       opens_nothing pre' = true /\
       var_name' <> EmptyString /\ contains_char "}" var_name' = false).
Proof.
  intros Hpre Hne Hname Hset. split.
  - unfold substitute_env_vars.
    rewrite (substitute_reference environ pre var_name post Hpre Hne Hname), Hset.
    destruct (substitute (S (String.length post)) environ post); reflexivity.
  - intros text. destruct (first_reference_split text) as [H | H]; [left | right; exact H].
    intros env t. unfold substitute_env_vars. rewrite H. reflexivity.
Qed.

Lemma not_empty (c : ascii) (s : string) : String c s <> EmptyString.
Proof. discriminate. Defined.

Lemma reference_is_replaced_once_witness :
  substitute_env_vars
      (fun name => if String.eqb name "DB" then Some "${DB}" else None)
      ("cost $5 ${} " ++ "${" ++ "DB" ++ "}" ++ ", done") [] =
    (Ok "cost $5 ${} ${DB}, done", []).
Proof.
  rewrite (proj1 (reference_is_replaced_once
             (fun name => if String.eqb name "DB" then Some "${DB}" else None)
             "cost $5 ${} " "DB" "${DB}" ", done" [] eq_refl
             (not_empty _ _) eq_refl eq_refl)).
  reflexivity.
Defined.

(** X3.  In every text, the first reference to a variable that is not set
    ends the process: one error names the variable, [sys.exit(1)] follows,
    and what comes behind the reference is not looked at.
    [load_deletion_rules] on such a file ends the same way whatever
    [json.loads] would make of it.  [pre] is what stands before the first
    reference, as in X2. *)
Theorem unset_variable_exits
    (environ : string -> option string) (pre var_name post : string) (tr : trace) :
  opens_nothing pre = true ->
  var_name <> EmptyString ->
  contains_char "}" var_name = false ->
  environ var_name = None ->
  substitute_env_vars environ (pre ++ "${" ++ var_name ++ "}" ++ post) tr =
    (Raise (SystemExit 1), tr ++ [EvLog ERROR (MsgEnvVarNotSet var_name)]) /\
  (forall config_path loads,
     load_deletion_rules config_path
       (read_config true (pre ++ "${" ++ var_name ++ "}" ++ post) environ loads) tr =
       (Raise (SystemExit 1), tr ++ [EvLog ERROR (MsgEnvVarNotSet var_name)])) /\
  (forall text,
     (forall env t, substitute_env_vars env text t = (Ok text, t)) \/
     exists pre' var_name' post',
       text = (pre' ++ "${" ++ var_name' ++ "}" ++ post')%string /\
       opens_nothing pre' = true /\
       var_name' <> EmptyString /\ contains_char "}" var_name' = false).
Proof.
  intros Hpre Hne Hname Hunset. split; [| split].
  - unfold substitute_env_vars.
    rewrite (substitute_reference environ pre var_name post Hpre Hne Hname), Hunset.
    reflexivity.
  - intros config_path loads. unfold read_config. cbn [negb].
    rewrite (substitute_reference environ pre var_name post Hpre Hne Hname), Hunset.
    reflexivity.
  - intros text. destruct (first_reference_split text) as [H | H]; [left | right; exact H].
    intros env t. unfold substitute_env_vars. rewrite H. reflexivity.
Qed.

Lemma unset_variable_exits_witness :
  substitute_env_vars (fun _ => None)
      ("cost $5 ${} " ++ "${" ++ "DB" ++ "}" ++ " ${OTHER}") [] =
    (Raise (SystemExit 1), [] ++ [EvLog ERROR (MsgEnvVarNotSet "DB")]).
Proof.
  apply (proj1 (unset_variable_exits (fun _ => None) "cost $5 ${} " "DB" " ${OTHER}" []
                  eq_refl (not_empty _ _) eq_refl eq_refl)).
Defined.

(** ** get_api_key *)

Lemma lstrip_starts_clean (s : string) : starts_clean (lstrip s) = true.
Proof.
  induction s as [| c rest IH]; [reflexivity |].
  cbn [lstrip]. destruct (is_space c) eqn:E; [exact IH |].
  cbn. rewrite E. reflexivity.
Qed.

Lemma lstrip_clean (s : string) : starts_clean s = true -> lstrip s = s.
Proof.
  destruct s as [| c rest]; [reflexivity |]. cbn.
  destruct (is_space c); [discriminate | reflexivity].
Qed.

Lemma rstrip_starts_clean (s : string) :
  starts_clean s = true -> starts_clean (rstrip s) = true.
Proof.
  destruct s as [| c rest]; [reflexivity |]. cbn.
  destruct (is_space c) eqn:E; [discriminate |]. intros _.
  destruct (rstrip rest); cbn; rewrite E; reflexivity.
Qed.

Lemma rstrip_ends_clean (s : string) : ends_clean (rstrip s) = true.
Proof.
  induction s as [| c rest IH]; [reflexivity |].
  cbn [rstrip]. destruct (rstrip rest) as [| d kept].
  - destruct (is_space c) eqn:E; cbn; [| rewrite E]; reflexivity.
  - exact IH.
Qed.

Lemma rstrip_clean (s : string) : ends_clean s = true -> rstrip s = s.
Proof.
  induction s as [| c rest IH]; [reflexivity |].
  destruct rest as [| d rest'].
  - cbn. destruct (is_space c); [discriminate | reflexivity].
  - intros H. change (ends_clean (String d rest') = true) in H.
    cbn [rstrip] in *. rewrite (IH H). reflexivity.
Qed.

Lemma strip_clean (s : string) :
  starts_clean (strip s) = true /\ ends_clean (strip s) = true.
Proof.
  unfold strip. split.
  - apply rstrip_starts_clean, lstrip_starts_clean.
  - apply rstrip_ends_clean.
Qed.

Lemma strip_fixed (s : string) :
  starts_clean s = true -> ends_clean s = true -> strip s = s.
Proof.
  intros Hs He. unfold strip. rewrite (lstrip_clean s Hs). apply rstrip_clean, He.
Qed.

Lemma prefix_nonempty (p s : string) :
  p <> EmptyString -> prefix p s = true -> s <> EmptyString.
Proof.
  intros Hp H ->. destruct p; [contradiction | discriminate].
Qed.

(** What a key that [get_api_key] returns is like. *)
Lemma get_api_key_ok (environ : string -> option string) (tr tr' : trace)
    (api_key : string) :
  get_api_key environ tr = (Ok api_key, tr') ->
  (exists raw, environ "NOTION_API_KEY" = Some raw /\ api_key = strip raw) /\
  (prefix "ntn_" api_key || prefix "secret_" api_key) = true /\
  (contains_char "010" api_key || contains_char "013" api_key
   || contains_char "009" api_key) = false /\
  tr' = tr ++ [EvLog INFO (MsgApiKeyLoaded (len api_key))].
Proof.
  unfold get_api_key.
  destruct (environ "NOTION_API_KEY") as [[| c s] |]; run; try discriminate.
  destruct (negb (prefix "ntn_" (strip (String c s))) &&
            negb (prefix "secret_" (strip (String c s)))) eqn:Ep; [discriminate |].
  destruct (contains_char "010" (strip (String c s))
            || contains_char "013" (strip (String c s))
            || contains_char "009" (strip (String c s))) eqn:Ec; [discriminate |].
  intros H. inversion H; subst. split; [eauto |].
  split; [| split; [exact Ec | reflexivity]].
  destruct (prefix "ntn_" (strip (String c s))),
           (prefix "secret_" (strip (String c s))); try reflexivity; discriminate.
Qed.

(** X4.  A key that [get_api_key] returns is the value of NOTION_API_KEY
    without the whitespace around it: it starts with [ntn_] or [secret_],
    has no whitespace at either end and no newline, carriage return or tab
    anywhere, so it can go into a header line as it is.  One message, with
    its length, is all that is logged. *)
Theorem accepted_key_is_trimmed
    (environ : string -> option string) (tr tr' : trace) (api_key : string) :
  get_api_key environ tr = (Ok api_key, tr') ->
  (exists raw, environ "NOTION_API_KEY" = Some raw /\ api_key = strip raw) /\
  (prefix "ntn_" api_key = true \/ prefix "secret_" api_key = true) /\
  starts_clean api_key = true /\ ends_clean api_key = true /\
  contains_char "010" api_key = false /\
  contains_char "013" api_key = false /\
  contains_char "009" api_key = false /\
  tr' = tr ++ [EvLog INFO (MsgApiKeyLoaded (len api_key))].
Proof.
  intros H. apply get_api_key_ok in H as ((raw & Hraw & ->) & Hp & Hc & ->).
  destruct (strip_clean raw) as [Hs He].
  apply orb_false_iff in Hc as [Hc Htab]. apply orb_false_iff in Hc as [Hnl Hcr].
  apply orb_true_iff in Hp.
  repeat split; eauto.
Qed.

Lemma accepted_key_is_trimmed_witness :
  starts_clean "secret_abc" = true /\ ends_clean "secret_abc" = true.
Proof.
  pose proof (accepted_key_is_trimmed (fun _ => Some "  secret_abc  ") []
                [EvLog INFO (MsgApiKeyLoaded 10)] "secret_abc" eq_refl)
    as (_ & _ & Hs & He & _).
  exact (conj Hs He).
Defined.

(** X5.  [get_api_key] is idempotent: a key that it returned, put back into
    NOTION_API_KEY, is returned as it is. *)
Theorem accepted_key_is_accepted_again
    (environ : string -> option string) (tr tr' t : trace) (api_key : string) :
  get_api_key environ tr = (Ok api_key, tr') ->
  get_api_key (fun _ => Some api_key) t =
    (Ok api_key, t ++ [EvLog INFO (MsgApiKeyLoaded (len api_key))]).
Proof.
  intros H. apply get_api_key_ok in H as ((raw & Hraw & Hkey) & Hp & Hc & _).
  assert (Hfix : strip api_key = api_key).
  { subst api_key. destruct (strip_clean raw). apply strip_fixed; assumption. }
  assert (Hne : api_key <> EmptyString).
  { apply orb_true_iff in Hp as [Hp | Hp];
      [apply (prefix_nonempty "ntn_") | apply (prefix_nonempty "secret_")];
      (discriminate || exact Hp). }
  unfold get_api_key. destruct api_key as [| c s]; [contradiction |].
  rewrite Hfix, Hc.
  destruct (prefix "ntn_" (String c s)), (prefix "secret_" (String c s));
    try discriminate; reflexivity.
Qed.

Lemma accepted_key_is_accepted_again_witness :
  get_api_key (fun _ => Some "ntn_key") [] =
    (Ok "ntn_key", [] ++ [EvLog INFO (MsgApiKeyLoaded (len "ntn_key"))]).
Proof.
  apply (accepted_key_is_accepted_again environ_with_key []
           [EvLog INFO (MsgApiKeyLoaded 7)] [] "ntn_key").
  reflexivity.
Defined.

(** ** format_notion_id *)

Lemma remove_char_app (c : ascii) (a b : string) :
  remove_char c (a ++ b) = (remove_char c a ++ remove_char c b)%string.
Proof.
  induction a as [| x a IH]; [reflexivity |].
  cbn. rewrite IH. destruct (Ascii.eqb x c); reflexivity.
Qed.

Lemma contains_char_app (c : ascii) (a b : string) :
  contains_char c (a ++ b) = contains_char c a || contains_char c b.
Proof.
  induction a as [| x a IH]; [reflexivity |].
  cbn. rewrite IH. apply orb_assoc.
Qed.

Lemma contains_remove_same (c : ascii) (s : string) :
  contains_char c (remove_char c s) = false.
Proof.
  induction s as [| x s IH]; [reflexivity |].
  cbn. destruct (Ascii.eqb x c) eqn:E; [exact IH |]. cbn. rewrite E. exact IH.
Qed.

Lemma contains_remove_other (c d : ascii) (s : string) :
  contains_char c s = false -> contains_char c (remove_char d s) = false.
Proof.
  induction s as [| x s IH]; [reflexivity |].
  cbn. intros H. apply orb_false_iff in H as [Hx Hs].
  destruct (Ascii.eqb x d); [exact (IH Hs) |]. cbn. rewrite Hx. exact (IH Hs).
Qed.

Lemma clean_id_has_none (notion_id : string) :
  contains_char "-" (remove_char " " (remove_char "-" notion_id)) = false /\
  contains_char " " (remove_char " " (remove_char "-" notion_id)) = false.
Proof.
  split.
  - apply contains_remove_other, contains_remove_same.
  - apply contains_remove_same.
Qed.

(** An identifier in dashed form already is returned as it is. *)
Lemma format_dashed (clean s : string) (tr : trace) :
  dashed clean s ->
  contains_char "-" clean = false ->
  contains_char " " clean = false ->
  format_notion_id s tr = (s, tr).
Proof.
  intros (a & b & c & d & e & Ha & Hb & Hc & Hd & He & -> & ->) Hdash Hspace.
  rewrite !contains_char_app in Hdash, Hspace.
  repeat match goal with
         | H : _ || _ = false |- _ => apply orb_false_iff in H as [? ?]
         end.
  assert (Hclean : remove_char " " (remove_char "-"
            (a ++ "-" ++ b ++ "-" ++ c ++ "-" ++ d ++ "-" ++ e)) =
            (a ++ b ++ c ++ d ++ e)%string).
  { rewrite !remove_char_app.
    change (remove_char "-" "-") with EmptyString.
    change (remove_char " " EmptyString) with EmptyString.
    rewrite !(remove_char_absent "-") by assumption.
    rewrite !(remove_char_absent " ") by assumption. reflexivity. }
  unfold format_notion_id. rewrite Hclean.
  do 8 (uncons a Ha). destruct a; [| discriminate Ha].
  do 4 (uncons b Hb). destruct b; [| discriminate Hb].
  do 4 (uncons c Hc). destruct c; [| discriminate Hc].
  do 4 (uncons d Hd). destruct d; [| discriminate Hd].
  do 12 (uncons e He). destruct e; [| discriminate He].
  reflexivity.
Qed.

(** X6.  An identifier that is in the dashed 8-4-4-4-12 form already, 36
    characters of which 32 are neither dashes nor spaces, is returned as it
    is, without a warning. *)
Theorem dashed_id_is_unchanged (clean s : string) (tr : trace) :
  dashed clean s ->
  contains_char "-" clean = false ->
  contains_char " " clean = false ->
  format_notion_id s tr = (s, tr) /\
  String.length s = 36%nat /\ String.length clean = 32%nat.
Proof.
  intros Hd Hdash Hspace. split; [exact (format_dashed clean s tr Hd Hdash Hspace) |].
  destruct Hd as (a & b & c & d & e & Ha & Hb & Hc & Hd & He & -> & ->).
  rewrite !length_append, Ha, Hb, Hc, Hd, He. split; reflexivity.
Qed.

Lemma dashed_id_is_unchanged_witness :
  format_notion_id a_dashed_id [] = (a_dashed_id, []) /\
  String.length a_dashed_id = 36%nat /\ String.length a_database_id = 32%nat.
Proof.
  apply (dashed_id_is_unchanged a_database_id a_dashed_id []).
  - exists "01234567", "89ab", "cdef", "0123", "456789abcdef".
    repeat split; reflexivity.
  - reflexivity.
  - reflexivity.
Defined.

(** X7.  [format_notion_id] is idempotent: what it returns, it returns
    again when it is given it, for every string. *)
Theorem format_notion_id_idempotent (notion_id : string) (tr tr' : trace) :
  fst (format_notion_id (fst (format_notion_id notion_id tr)) tr') =
  fst (format_notion_id notion_id tr).
Proof.
  destruct (clean_id_has_none notion_id) as [Hdash Hspace].
  unfold format_notion_id at 2 3.
  set (clean_id := remove_char " " (remove_char "-" notion_id)) in *.
  destruct (Z.eqb_spec (len clean_id) 32) as [E | E]; cbn [negb fst]; run.
  - rewrite (format_dashed clean_id _ tr'); [reflexivity | | exact Hdash | exact Hspace].
    apply dashed_32. unfold len in E. lia.
  - unfold format_notion_id. fold clean_id.
    destruct (Z.eqb_spec (len clean_id) 32); [contradiction | reflexivity].
Qed.

(** ** query_database *)

Section QueryMore.

Variable api_key : string.
Variable database_id : string.
Variable filters : json.

Local Abbreviation post_with start_cursor :=
  (EvPost api_key database_id (query_body filters start_cursor)).

(** A reply from which no page is read ends the loop with an exception that
    [query_database] catches. *)
Lemma query_pages_unreadable (server : service) (fuel : nat) (page_ids : list json)
    (has_more start_cursor : json) (tr : trace) :
  truthy has_more = true ->
  unreadable (server (tr ++ [post_with start_cursor])) = true ->
  exists e,
    query_pages server api_key (S fuel) database_id filters page_ids has_more start_cursor tr =
      (Some (Raise e), tr ++ [post_with start_cursor]).
Proof.
  unfold unreadable. intros H E. cbn [query_pages]. rewrite H. run.
  destruct (rbind _ read_page) as [p | e]; [discriminate |].
  exists e. reflexivity.
Qed.

Lemma query_body_filter (start_cursor : json) :
  py_getitem (query_body filters start_cursor) "filter" = Ok filters.
Proof. unfold query_body. destruct (truthy start_cursor); reflexivity. Qed.

(** Whatever the service replies, the loop sends only queries, all for the
    same database, with the same key and the same filter. *)
Lemma query_pages_sends (server : service) (fuel : nat) :
  forall (page_ids : list json) (has_more start_cursor : json) (tr : trace),
  exists new,
    snd (query_pages server api_key fuel database_id filters page_ids has_more
           start_cursor tr) = tr ++ new /\
    Forall (is_query_for api_key database_id filters) new.
Proof.
  induction fuel as [| fuel IH]; intros page_ids has_more start_cursor tr.
  - exists []. rewrite app_nil_r. auto.
  - cbn [query_pages]. destruct (truthy has_more).
    2:{ exists []. split; [cbn; rewrite app_nil_r; reflexivity | constructor]. }
    run.
    assert (Hpost : is_query_for api_key database_id filters (post_with start_cursor)).
    { unfold is_query_for. repeat split. apply query_body_filter. }
    destruct (rbind _ read_page) as [[[ids has_more'] start_cursor'] | e].
    + destruct (truthy has_more'); run;
        match goal with |- context [query_pages _ _ _ _ _ ?a ?h ?c ?t] =>
          destruct (IH a h c t) as (new & -> & Hnew)
        end.
      * exists (post_with start_cursor :: EvSleep PACING :: new).
        rewrite <- !app_assoc. split; [reflexivity |].
        constructor; [exact Hpost | constructor; [exact I | exact Hnew]].
      * exists (post_with start_cursor :: new).
        rewrite <- !app_assoc. split; [reflexivity |].
        constructor; [exact Hpost | exact Hnew].
    + exists [post_with start_cursor]. split; [reflexivity |].
      constructor; [exact Hpost | constructor].
Qed.

End QueryMore.

(** X8.  A reply with a 2xx status from which no page can be read, because
    its body is not JSON, is not an object, or lists a result without an
    [id], has the effect of a failed request: after any number of pages
    that were read, [query_database] returns the empty list. *)
Theorem unreadable_response_matches_nothing
    (api_key database_id : string) (filters : json)
    (pages : list json) (h : http_reply) (pre tail : list http_reply)
    (fuel : nat) (tr : trace) :
  forallb continues pages = true ->
  unreadable h = true ->
  count_requests tr = List.length pre ->
  (List.length pages + 1 <= fuel)%nat ->
  exists msg,
    query_database (scripted (pre ++ map ok pages ++ h :: tail)) api_key
        fuel database_id filters tr =
      (Some [],
       tr ++ [EvLog INFO (MsgQuerying database_id filters)]
          ++ paging api_key database_id filters JNull pages
          ++ [EvLog ERROR msg]).
Proof.
  intros Hall Hh Htr Hfuel.
  replace fuel with (List.length pages + S (fuel - List.length pages - 1))%nat by lia.
  assert (Htr' : count_requests (tr ++ [EvLog INFO (MsgQuerying database_id filters)])
                 = List.length pre).
  { rewrite count_requests_log. exact Htr. }
  destruct (query_pages_script api_key database_id filters pages pre (h :: tail)
              (S (fuel - List.length pages - 1)) [] (JBool true) JNull _
              Hall eq_refl Htr') as [Hlast Hrun].
  destruct (query_pages_unreadable api_key database_id filters
              (scripted (pre ++ map ok pages ++ h :: tail))
              (fuel - List.length pages - 1)
              ([] ++ flat_map ids_of pages) (last_flag (JBool true) pages)
              (last_cursor JNull pages)
              ((tr ++ [EvLog INFO (MsgQuerying database_id filters)])
                 ++ turns api_key database_id filters JNull pages) Hlast)
    as (e & He).
  { rewrite (app_assoc pre), scripted_post; [exact Hh |].
    rewrite count_requests_app, count_requests_turns, length_app, length_map, Htr'.
    reflexivity. }
  rewrite <- Hrun in He.
  destruct (query_database_raise _ _ _ _ _ _ _ _ He) as (msg & ->).
  exists msg. rewrite paging_turns, <- !app_assoc. reflexivity.
Qed.

Lemma unreadable_response_matches_nothing_witness :
  exists msg,
    query_database
        (scripted ([] ++ map ok [response ["p1"] (JBool true) (JStr "c1")]
                      ++ ok (JDict [("results", JList [JDict [("name", JStr "p2")]])])
                      :: []))
        "ntn_key" 2 "db" no_filter [] =
      (Some [],
       [] ++ [EvLog INFO (MsgQuerying "db" no_filter)]
          ++ paging "ntn_key" "db" no_filter JNull
               [response ["p1"] (JBool true) (JStr "c1")]
          ++ [EvLog ERROR msg]).
Proof.
  apply (unreadable_response_matches_nothing "ntn_key" "db" no_filter
           [response ["p1"] (JBool true) (JStr "c1")]
           (ok (JDict [("results", JList [JDict [("name", JStr "p2")]])]))
           [] [] 2 [] eq_refl eq_refl eq_refl (le_n 2)).
Defined.

Lemma queries_are_no_patches (api_key database_id : string) (filters : json)
    (new : trace) :
  Forall (is_query_for api_key database_id filters) new -> count_patches new = 0%nat.
Proof.
  unfold count_patches.
  induction 1 as [| e new He _ IH]; [reflexivity |].
  rewrite count_cons, IH. destruct e; cbn in *; (contradiction || reflexivity).
Qed.

(** X9.  Whatever the service replies and however long the query runs,
    [query_database] only reads: it sends no mutation, and every request it
    sends is a query for the database it was given, with the key it was
    given and with the filter as it was given. *)
Theorem query_database_only_queries
    (server : service) (api_key database_id : string) (filters : json)
    (fuel : nat) (tr : trace) :
  exists new,
    snd (query_database server api_key fuel database_id filters tr) = tr ++ new /\
    Forall (is_query_for api_key database_id filters) new /\
    count_patches (tr ++ new) = count_patches tr.
Proof.
  enough (H : exists new,
            snd (query_database server api_key fuel database_id filters tr) = tr ++ new /\
            Forall (is_query_for api_key database_id filters) new).
  { destruct H as (new & Hnew & Hall). exists new. split; [exact Hnew |].
    split; [exact Hall |].
    unfold count_patches. rewrite count_app.
    pose proof (queries_are_no_patches _ _ _ _ Hall) as H0.
    unfold count_patches in H0. lia. }
  unfold query_database. run.
  destruct (query_pages_sends api_key database_id filters server fuel [] (JBool true) JNull
              (tr ++ [EvLog INFO (MsgQuerying database_id filters)]))
    as (new & Hnew & Hall).
  destruct (query_pages server api_key fuel database_id filters [] (JBool true) JNull _)
    as [r tr1].
  cbn [snd] in Hnew. subst tr1.
  assert (Hlog : forall lvl msg, exists new',
            (tr ++ [EvLog INFO (MsgQuerying database_id filters)] ++ new)
              ++ [EvLog lvl msg] = tr ++ new' /\
            Forall (is_query_for api_key database_id filters) new').
  { intros lvl msg.
    exists ([EvLog INFO (MsgQuerying database_id filters)] ++ new ++ [EvLog lvl msg]).
    split; [rewrite <- !app_assoc; reflexivity |].
    apply Forall_app. split; [repeat constructor |].
    apply Forall_app. split; [exact Hall | repeat constructor]. }
  rewrite <- app_assoc.
  destruct r as [[page_ids | [status_code text | code |]] |]; cbn [fst snd];
    try apply Hlog.
  exists ([EvLog INFO (MsgQuerying database_id filters)] ++ new).
  split; [reflexivity |]. apply Forall_app. split; [repeat constructor | exact Hall].
Qed.

(** ** delete_page *)

Lemma slept_app (t1 t2 : trace) : slept (t1 ++ t2) = slept t1 + slept t2.
Proof.
  induction t1 as [| e t1 IH]; [reflexivity |].
  destruct e; cbn [app slept]; rewrite IH; lia.
Qed.

Section DeletePageMore.

Variable api_key : string.
Variable page_id : json.

(** Rate limits, fewer than there are attempts, and then a success. *)
Lemma delete_attempts_then_ok (limited : list http_reply) :
  forall (attempts : list Z) (pre rest : list http_reply) (h : http_reply) (tr : trace),
    (List.length limited < List.length attempts)%nat ->
    forallb is_rate_limit limited = true ->
    is_error h = false ->
    count_requests tr = List.length pre ->
    delete_attempts (scripted (pre ++ limited ++ h :: rest)) api_key page_id attempts tr =
      (Some true,
       tr ++ backoff api_key page_id (firstn (List.length limited) attempts)
          ++ [EvPatch api_key page_id; EvLog INFO (MsgDeleted page_id); EvSleep PACING]).
Proof.
  induction limited as [| r limited IH];
    intros [| attempt attempts] pre rest h tr Hlen Hall Hh Htr; cbn in Hlen; try lia.
  - cbn [app List.length firstn].
    rewrite delete_attempts_ok
      by (rewrite (scripted_patch api_key page_id pre _ tr Htr); exact Hh).
    reflexivity.
  - cbn in Hall. apply andb_true_iff in Hall as [Hr Hall].
    rewrite delete_attempts_429
      by (rewrite (scripted_patch api_key page_id pre _ tr Htr); exact Hr).
    cbn [app]. rewrite backoff_one, snoc_script.
    rewrite (IH attempts (pre ++ [r]) rest h (tr ++ backoff api_key page_id [attempt]));
      try assumption.
    + cbn [List.length firstn]. unfold backoff. cbn [flat_map].
      rewrite <- !app_assoc. reflexivity.
    + lia.
    + rewrite count_requests_backoff_step, length_app, Htr. cbn. lia.
Qed.

(** The pauses of the retry loop: never more than the backoff of all the
    attempts, and the pacing pause at the end when it succeeds. *)
Lemma delete_attempts_slept (server : service) (attempts : list Z) :
  Forall (fun attempt => 0 <= attempt) attempts ->
  forall tr,
    let (r, tr') := delete_attempts server api_key page_id attempts tr in
    slept tr <= slept tr' <= slept tr + backoff_budget attempts /\
    (r = Some true ->
     exists t, tr' = t ++ [EvLog INFO (MsgDeleted page_id); EvSleep PACING]).
Proof.
  induction 1 as [| attempt rest Hpos Hall IH]; intros tr.
  - cbn. split; [lia | discriminate].
  - assert (Hpow : 1 <= 2 ^ attempt) by (pose proof (Z.pow_pos_nonneg 2 attempt); lia).
    assert (Hrest : 0 <= backoff_budget rest).
    { clear IH. induction Hall as [| a rest Ha _ IHr]; [cbn; lia |].
      cbn [backoff_budget fold_right]. fold (backoff_budget rest).
      unfold retry_delay. pose proof (Z.pow_pos_nonneg 2 a). lia. }
    cbn [backoff_budget fold_right]. fold (backoff_budget rest).
    destruct (is_error (server (tr ++ [EvPatch api_key page_id]))) eqn:E.
    + destruct (is_rate_limit (server (tr ++ [EvPatch api_key page_id]))) eqn:R.
      * rewrite (delete_attempts_429 _ _ _ _ _ _ R).
        match goal with |- context [delete_attempts _ _ _ rest ?t] =>
          specialize (IH t); destruct (delete_attempts server api_key page_id rest t)
            as [r tr']
        end.
        rewrite slept_app in IH. cbn [slept] in IH. unfold retry_delay in *.
        split; [lia | tauto].
      * rewrite delete_attempts_hard
          by (unfold is_hard_error; rewrite E, R; reflexivity).
        rewrite slept_app. cbn [slept]. unfold retry_delay.
        split; [lia | discriminate].
    + rewrite (delete_attempts_ok _ _ _ _ _ _ E).
      rewrite slept_app. cbn [slept]. unfold retry_delay, PACING.
      split; [lia |]. intros _.
      exists (tr ++ [EvPatch api_key page_id]). rewrite <- app_assoc. reflexivity.
Qed.

End DeletePageMore.

(** X10.  A record that is rate limited once or twice and then accepted is
    archived: [delete_page] returns [True] after the backoff of the attempts
    that were limited, 1 second and then 2, and after the pacing pause that
    follows the success. *)
Theorem retry_succeeds_after_backoff
    (api_key : string) (page_id dry_run : json)
    (limited : list http_reply) (h : http_reply) (pre rest : list http_reply)
    (tr : trace) :
  truthy dry_run = false ->
  (List.length limited < 3)%nat ->
  forallb is_rate_limit limited = true ->
  is_error h = false ->
  count_requests tr = List.length pre ->
  let ending := backoff api_key page_id (firstn (List.length limited) [0; 1; 2])
                ++ [EvPatch api_key page_id; EvLog INFO (MsgDeleted page_id);
                    EvSleep PACING] in
  delete_page (scripted (pre ++ limited ++ h :: rest)) api_key page_id dry_run tr =
    (true, tr ++ ending) /\
  count_patches ending = S (List.length limited) /\
  slept ending = 1000 * (2 ^ Z.of_nat (List.length limited) - 1) + PACING.
Proof.
  intros Hdry Hlen Hall Hh Htr ending. split; [| split].
  - unfold delete_page. rewrite Hdry. run.
    change (range max_retries) with [0; 1; 2].
    rewrite delete_attempts_then_ok by (assumption || exact Hlen).
    reflexivity.
  - unfold ending, count_patches. rewrite count_app.
    destruct limited as [| a [| b [| c l]]]; cbn in Hlen |- *; try reflexivity. lia.
  - unfold ending.
    destruct limited as [| a [| b [| c l]]]; cbn in Hlen |- *; try reflexivity. lia.
Qed.

Lemma retry_succeeds_after_backoff_witness :
  delete_page (scripted ([] ++ [rate_limited; rate_limited] ++ accepted :: []))
              "ntn_key" (JStr "p1") (JBool false) [] =
    (true,
     [] ++ backoff "ntn_key" (JStr "p1")
             (firstn (List.length [rate_limited; rate_limited]) [0; 1; 2])
        ++ [EvPatch "ntn_key" (JStr "p1"); EvLog INFO (MsgDeleted (JStr "p1"));
            EvSleep PACING]).
Proof.
  apply (retry_succeeds_after_backoff "ntn_key" (JStr "p1") (JBool false)
           [rate_limited; rate_limited] accepted [] [] []
           eq_refl (le_n 3) eq_refl eq_refl eq_refl).
Defined.

(** X11.  Whatever the service replies, one call of [delete_page] pauses for
    7 seconds at most, the backoff of three attempts; a call that archives
    the record ends on the pacing pause of 0.35 second, and a dry run does
    not pause at all. *)
Theorem delete_page_pauses_are_bounded
    (server : service) (api_key : string) (page_id dry_run : json) (tr : trace) :
  slept tr <= slept (snd (delete_page server api_key page_id dry_run tr))
           <= slept tr + 7000 /\
  (truthy dry_run = false ->
   fst (delete_page server api_key page_id dry_run tr) = true ->
   exists t,
     snd (delete_page server api_key page_id dry_run tr) =
       t ++ [EvLog INFO (MsgDeleted page_id); EvSleep PACING]) /\
  (truthy dry_run = true ->
   slept (snd (delete_page server api_key page_id dry_run tr)) = slept tr).
Proof.
  unfold delete_page. destruct (truthy dry_run); run; cbn [fst snd].
  - rewrite slept_app. cbn. split; [lia |]. split; [discriminate | intros _; lia].
  - pose proof (delete_attempts_slept api_key page_id server (range max_retries)
                  ltac:(repeat constructor; discriminate) tr) as H.
    destruct (delete_attempts server api_key page_id (range max_retries) tr)
      as [[success |] tr'].
    + change (backoff_budget (range max_retries)) with 7000 in H.
      cbn [fst snd]. destruct H as [Hb Hend].
      split; [exact Hb |]. split; [| discriminate].
      intros _ ->. exact (Hend eq_refl).
    + change (backoff_budget (range max_retries)) with 7000 in H.
      cbn [fst snd]. destruct H as [Hb _].
      rewrite slept_app. cbn [slept]. split; [lia |].
      split; discriminate.
Qed.

Lemma hard_error_msg_names (page_id : json) (reply : http_reply) :
  names_failure page_id (hard_error_msg page_id reply).
Proof. destruct reply; reflexivity. Qed.

(** What the retry loop adds to the trace: requests for the record and no
    other, and a failure message, about the record, at the very end of the
    attempts that it gives up on and nowhere else. *)
Lemma delete_attempts_adds (server : service) (api_key : string) (page_id : json)
    (attempts : list Z) :
  forall tr,
  exists new,
    snd (delete_attempts server api_key page_id attempts tr) = tr ++ new /\
    Forall (is_patch_for api_key page_id) new /\
    match fst (delete_attempts server api_key page_id attempts tr) with
    | Some false =>
        exists before msg,
          new = before ++ [EvLog ERROR msg] /\
          names_failure page_id msg /\ count_failures before = 0%nat
    | _ => count_failures new = 0%nat
    end.
Proof.
  induction attempts as [| attempt rest IH]; intros tr.
  - exists []. cbn. rewrite app_nil_r. repeat split. constructor.
  - destruct (is_error (server (tr ++ [EvPatch api_key page_id]))) eqn:E.
    + destruct (is_rate_limit (server (tr ++ [EvPatch api_key page_id]))) eqn:R.
      * rewrite (delete_attempts_429 _ _ _ _ _ _ R).
        match goal with |- context [delete_attempts _ _ _ rest ?t] =>
          destruct (IH t) as (new & Hnew & Hall & Hlast)
        end.
        rewrite Hnew, backoff_one.
        exists (backoff api_key page_id [attempt] ++ new).
        rewrite <- app_assoc. split; [reflexivity |].
        split; [apply Forall_app; split; [| exact Hall]; repeat constructor |].
        destruct (fst (delete_attempts server api_key page_id rest _)) as [[|] |].
        -- unfold count_failures in *. rewrite count_app, Hlast. reflexivity.
        -- destruct Hlast as (before & msg & -> & Hmsg & Hbefore).
           exists (backoff api_key page_id [attempt] ++ before), msg.
           rewrite <- app_assoc. split; [reflexivity |]. split; [exact Hmsg |].
           unfold count_failures in *. rewrite count_app, Hbefore. reflexivity.
        -- unfold count_failures in *. rewrite count_app, Hlast. reflexivity.
      * rewrite delete_attempts_hard
          by (unfold is_hard_error; rewrite E, R; reflexivity).
        cbn [fst snd].
        eexists. split; [reflexivity |].
        split; [repeat constructor |].
        exists [EvPatch api_key page_id], (hard_error_msg page_id
                 (server (tr ++ [EvPatch api_key page_id]))).
        split; [reflexivity |]. split; [apply hard_error_msg_names | reflexivity].
    + rewrite (delete_attempts_ok _ _ _ _ _ _ E). cbn [fst snd].
      eexists. split; [reflexivity |]. split; [repeat constructor | reflexivity].
Qed.

(** X12.  Whatever the service replies, [delete_page] only adds to the
    trace, sends requests for its record alone and never a query; when it
    returns [False] the last thing it did was to log one error about that
    record, the only failure message of the call, and when it returns
    [True] it logged no failure at all. *)
Theorem delete_page_failure_is_logged_once
    (server : service) (api_key : string) (page_id dry_run : json) (tr : trace) :
  exists new,
    snd (delete_page server api_key page_id dry_run tr) = tr ++ new /\
    Forall (is_patch_for api_key page_id) new /\
    if fst (delete_page server api_key page_id dry_run tr)
    then count_failures new = 0%nat
    else exists before msg,
           new = before ++ [EvLog ERROR msg] /\
           names_failure page_id msg /\ count_failures before = 0%nat.
Proof.
  unfold delete_page. destruct (truthy dry_run).
  - run. cbn [fst snd]. eexists. split; [reflexivity |].
    split; [repeat constructor | reflexivity].
  - run.
    destruct (delete_attempts_adds server api_key page_id (range max_retries) tr)
      as (new & Hnew & Hall & Hlast).
    destruct (delete_attempts server api_key page_id (range max_retries) tr)
      as [[[|] |] tr']; cbn [fst snd] in *; subst tr'.
    + exists new. auto.
    + exists new. auto.
    + exists (new ++ [EvLog ERROR (MsgDeleteGaveUp page_id max_retries)]).
      rewrite <- app_assoc. split; [reflexivity |].
      split; [apply Forall_app; split; [exact Hall | repeat constructor] |].
      exists new, (MsgDeleteGaveUp page_id max_retries).
      split; [reflexivity |]. split; [split; reflexivity | exact Hlast].
Qed.

Lemma delete_page_pauses_are_bounded_witness :
  exists t,
    snd (delete_page (scripted [rate_limited; accepted]) "ntn_key" (JStr "p1")
           (JBool false) []) =
      t ++ [EvLog INFO (MsgDeleted (JStr "p1")); EvSleep PACING].
Proof.
  apply (proj1 (proj2 (delete_page_pauses_are_bounded
                         (scripted [rate_limited; accepted]) "ntn_key" (JStr "p1")
                         (JBool false) []))); reflexivity.
Defined.

(** ** The loops of main *)

(** X13.  When the service accepts every mutation, the records of a target
    are archived in the order in which the query returned them, each by one
    request followed by the pacing pause, and each is counted as deleted. *)
Theorem records_are_archived_in_order
    (server : service) (api_key : string) (db_dry_run : json) (page_ids : list json)
    (i n : Z) (st : stats) (tr : trace) :
  patches_succeed server ->
  truthy db_dry_run = false ->
  delete_each server api_key db_dry_run i n page_ids st tr =
    (mkStats (total_queried st) (total_matched st)
             (total_deleted st + Z.of_nat (List.length page_ids)) (total_failed st),
     tr ++ archived api_key i n page_ids).
Proof.
  intros Hok Hdry. revert i st tr.
  induction page_ids as [| page_id rest IH]; intros i st tr.
  - cbn. rewrite app_nil_r, Z.add_0_r. destruct st; reflexivity.
  - rewrite delete_each_cons. unfold delete_page. rewrite Hdry. run.
    change (range max_retries) with [0; 1; 2].
    rewrite delete_attempts_ok by apply Hok.
    rewrite IH. cbn [count_outcome total_queried total_matched total_deleted total_failed
                     archived List.length].
    rewrite <- !app_assoc. f_equal. f_equal. lia.
Qed.

Lemma records_are_archived_in_order_witness :
  delete_each only_patches "ntn_key" (JBool false) 1 2 [JStr "p1"; JStr "p2"]
      (mkStats 1 2 0 0) [] =
    (mkStats 1 2 (0 + Z.of_nat 2) 0,
     [] ++ archived "ntn_key" 1 2 [JStr "p1"; JStr "p2"]).
Proof.
  apply (records_are_archived_in_order only_patches "ntn_key" (JBool false)
           [JStr "p1"; JStr "p2"] 1 2 (mkStats 1 2 0 0) []).
  - exact only_patches_succeed.
  - reflexivity.
Defined.

Section Tally.

Variable server : service.

Lemma delete_each_deleted_mono (api_key : string) (db_dry_run : json)
    (page_ids : list json) :
  forall (i n : Z) (st : stats) (tr : trace),
    total_deleted st <=
    total_deleted (fst (delete_each server api_key db_dry_run i n page_ids st tr)).
Proof.
  induction page_ids as [| page_id rest IH]; intros i n st tr.
  - cbn. lia.
  - rewrite delete_each_cons.
    destruct (delete_page server api_key page_id db_dry_run _) as [success tr1].
    specialize (IH (i + 1) n (count_outcome success st) tr1).
    cbn beta iota.
    destruct success;
      [apply Z.le_trans with (total_deleted (count_outcome true st))
      |apply Z.le_trans with (total_deleted (count_outcome false st))];
      try exact IH; cbn; lia.
Qed.

(** Every record that was matched is counted once, as deleted or as failed. *)
Lemma process_databases_tally (fuel : nat) (api_key : string) (dry_run : bool)
    (databases : list json) :
  forall (st : stats) (tr : trace),
    match fst (process_databases server fuel api_key dry_run databases st tr) with
    | Some (Ok st') =>
        total_matched st' - total_deleted st' - total_failed st' =
          total_matched st - total_deleted st - total_failed st /\
        total_matched st <= total_matched st' /\
        total_deleted st <= total_deleted st'
    | _ => True
    end.
Proof.
  induction databases as [| db_config rest IH]; intros st tr.
  - cbn. lia.
  - rewrite process_databases_cons.
    destruct (py_getitem db_config "database_id") as [v | e]; [| exact I].
    destruct v as [| b | z | notion_id | l | m]; try exact I.
    destruct (format_notion_id notion_id tr) as [database_id tr1].
    destruct (py_getitem db_config "filters") as [filters | e]; [| exact I].
    destruct (query_database server api_key fuel database_id filters _)
      as [[[| page_id page_ids] |] tr2]; [| | exact I].
    + specialize (IH (count_query 0 st) (tr2 ++ [EvLog INFO MsgNoRecords])).
      destruct (fst (process_databases server fuel api_key dry_run rest _ _))
        as [[st' | e] |]; try exact I.
      cbn [count_query total_matched total_deleted total_failed] in IH. lia.
    + cbv zeta.
      match goal with |- context [delete_each _ _ ?d ?i ?n ?l ?s ?t] =>
        pose proof (delete_each_counts server api_key d l i n s t) as Hd;
        pose proof (delete_each_deleted_mono api_key d l i n s t) as Hm;
        destruct (delete_each server api_key d i n l s t) as [st1 tr3]
      end.
      specialize (IH st1 tr3).
      destruct (fst (process_databases server fuel api_key dry_run rest st1 tr3))
        as [[st' | e] |]; try exact I.
      cbn [count_query total_queried total_matched total_deleted total_failed
           List.length fst] in Hd, Hm.
      lia.
Qed.

End Tally.

(** ** load_deletion_rules *)

Lemma validate_databases_ok (databases : list json) (tr tr' : trace) :
  validate_databases databases tr = (Ok tt, tr') ->
  tr' = tr /\
  Forall (fun db_config =>
            py_contains "database_id" db_config = Ok true /\
            py_contains "filters" db_config = Ok true) databases.
Proof.
  induction databases as [| db_config rest IH]; cbn [validate_databases].
  - intros H. inversion H. auto.
  - destruct (py_contains "database_id" db_config) as [[|] | e] eqn:E1;
      run; try discriminate.
    destruct (py_contains "filters" db_config) as [[|] | e] eqn:E2;
      run; try discriminate.
    intros H. destruct (IH H) as [-> Hall]. split; [reflexivity |].
    constructor; [split; reflexivity || assumption | exact Hall].
Qed.

(** What [load_deletion_rules] returns, it has checked. *)
Lemma load_deletion_rules_ok
    (config_path : string) (source : config_source) (config : json) (tr tr' : trace) :
  load_deletion_rules config_path source tr = (Ok config, tr') ->
  source = Parsed config /\
  tr' = tr /\
  exists databases,
    py_getitem config "databases" = Ok (JList databases) /\
    Forall (fun db_config =>
              py_contains "database_id" db_config = Ok true /\
              py_contains "filters" db_config = Ok true) databases.
Proof.
  unfold load_deletion_rules.
  destruct source as [| var_name | | parsed]; run; try discriminate.
  destruct (py_contains "databases" parsed) as [[|] | e]; try discriminate.
  destruct (py_getitem parsed "databases") as [[| b | z | s | databases | m] | e] eqn:Eg;
    try discriminate.
  destruct (validate_databases databases tr) as [[[] | e] tr1] eqn:E; try discriminate.
  intros H. inversion H; subst.
  destruct (validate_databases_ok databases tr tr' E) as [-> Hall].
  split; [reflexivity |]. split; [reflexivity |].
  exists databases. split; [exact Eg | exact Hall].
Qed.

Lemma validate_databases_accepts (databases : list json) (tr : trace) :
  Forall (fun db_config =>
            py_contains "database_id" db_config = Ok true /\
            py_contains "filters" db_config = Ok true) databases ->
  validate_databases databases tr = (Ok tt, tr).
Proof.
  induction 1 as [| db_config rest [H1 H2] _ IH]; [reflexivity |].
  cbn [validate_databases]. rewrite H1, H2. exact IH.
Qed.

Lemma py_getitem_contains (d : json) (key : string) (v : json) :
  py_getitem d key = Ok v -> py_contains key d = Ok true.
Proof.
  destruct d as [| | | | | m]; cbn; try discriminate.
  intros H. f_equal.
  induction m as [| [k x] m IH]; [discriminate |].
  cbn in *. destruct (dict_get key m) as [v' |].
  - rewrite (IH H). apply orb_true_r.
  - destruct (String.eqb key k); [reflexivity | discriminate].
Qed.

(** X14.  [load_deletion_rules] returns a configuration exactly when the
    file was parsed to a document that holds a list under [databases] whose
    entries all hold [database_id] and [filters]; it then returns the
    document itself and logs nothing. *)
Theorem accepted_configuration_is_validated
    (config_path : string) (source : config_source) (config : json) (tr tr' : trace) :
  load_deletion_rules config_path source tr = (Ok config, tr') <->
  source = Parsed config /\
  tr' = tr /\
  exists databases,
    py_getitem config "databases" = Ok (JList databases) /\
    Forall (fun db_config =>
              py_contains "database_id" db_config = Ok true /\
              py_contains "filters" db_config = Ok true) databases.
Proof.
  split; [apply load_deletion_rules_ok |].
  intros (-> & -> & databases & Hg & Hall).
  unfold load_deletion_rules.
  rewrite (py_getitem_contains config "databases" _ Hg), Hg. run.
  rewrite (validate_databases_accepts databases tr Hall). reflexivity.
Qed.

Lemma accepted_configuration_is_validated_witness :
  exists databases,
    py_getitem (config_of [target a_database_id []]) "databases" = Ok (JList databases) /\
    Forall (fun db_config =>
              py_contains "database_id" db_config = Ok true /\
              py_contains "filters" db_config = Ok true) databases.
Proof.
  exact (proj2 (proj2 (proj1 (accepted_configuration_is_validated "rules.json"
           (Parsed (config_of [target a_database_id []]))
           (config_of [target a_database_id []]) [] []) eq_refl))).
Defined.

(** ** Whole runs *)

Lemma net_log (tr : trace) (lvl : level) (msg : log_msg) :
  net (tr ++ [EvLog lvl msg]) = net tr.
Proof. rewrite net_app. cbn. apply app_nil_r. Qed.

Lemma count_patches_net (tr : trace) : count_patches (net tr) = count_patches tr.
Proof.
  unfold count_patches, count, net.
  induction tr as [| e tr IH]; [reflexivity |].
  destruct e; cbn; rewrite ?IH; reflexivity.
Qed.

Lemma net_format_notion_id (notion_id : string) (tr : trace) :
  net (snd (format_notion_id notion_id tr)) = net tr.
Proof.
  unfold format_notion_id. destruct (negb _); run; [apply net_log | reflexivity].
Qed.

Lemma net_get_api_key (environ : string -> option string) (tr : trace) :
  net (snd (get_api_key environ tr)) = net tr.
Proof.
  unfold get_api_key.
  destruct (environ "NOTION_API_KEY") as [[| c s] |]; run; try apply net_log.
  destruct (negb _ && negb _); [apply net_log |].
  destruct (_ || _); apply net_log.
Qed.

Lemma get_api_key_result (environ : string -> option string) (t t' : trace) :
  fst (get_api_key environ t) = fst (get_api_key environ t').
Proof.
  unfold get_api_key.
  destruct (environ "NOTION_API_KEY") as [[| c s] |]; run; try reflexivity.
  destruct (negb _ && negb _); [reflexivity |].
  destruct (_ || _); reflexivity.
Qed.

Lemma net_validate_databases (databases : list json) (tr : trace) :
  net (snd (validate_databases databases tr)) = net tr.
Proof.
  induction databases as [| db_config rest IH]; [reflexivity |].
  cbn [validate_databases].
  destruct (py_contains "database_id" db_config) as [[|] | e]; run;
    [| apply net_log | reflexivity].
  destruct (py_contains "filters" db_config) as [[|] | e]; run;
    [exact IH | apply net_log | reflexivity].
Qed.

Lemma net_load_deletion_rules (config_path : string) (source : config_source)
    (tr : trace) :
  net (snd (load_deletion_rules config_path source tr)) = net tr.
Proof.
  unfold load_deletion_rules.
  destruct source as [| var_name | | config]; run; try apply net_log.
  destruct (py_contains "databases" config) as [[|] | e]; run;
    [| apply net_log | reflexivity].
  destruct (py_getitem config "databases") as [[| b | z | s | databases | m] | e]; run;
    try apply net_log; try reflexivity.
  pose proof (net_validate_databases databases tr) as H.
  destruct (validate_databases databases tr) as [[u | e] tr1]; exact H.
Qed.

Section WholeRun.

Variable server : service.

(** [main], step by step. *)
Lemma main_unfold (fuel : nat) (inv : invocation) (tr : trace) :
  main server fuel inv tr =
  let dry_run := args_dry_run inv || env_flag (environ inv) "DRY_RUN" in
  let tr0 := if dry_run then tr ++ [EvLog INFO MsgDryRunBanner] else tr in
  let (k, tr1) := get_api_key (environ inv) tr0 in
  match k with
  | Raise e => (Some (Aborted e), tr1)
  | Ok api_key =>
      let (c, tr2) := load_deletion_rules (args_config inv) (config_file inv) tr1 in
      match rbind c (fun config => rbind (py_getitem config "databases") py_iter) with
      | Raise e => (Some (Aborted e), tr2)
      | Ok databases =>
          let (r, tr3) :=
            process_databases server fuel api_key dry_run databases (mkStats 0 0 0 0) tr2 in
          match r with
          | None => (None, tr3)
          | Some (Raise e) => (Some (Aborted e), tr3)
          | Some (Ok st) =>
              (Some (Completed st (if total_failed st >? 0 then 1 else 0)),
               tr3 ++ [EvLog INFO (MsgSummary (total_queried st) (total_matched st)
                                              (total_deleted st) (total_failed st));
                       EvLog INFO (if dry_run then MsgNoDeletionsOccurred
                                   else MsgInTrash)])
          end
      end
  end.
Proof.
  unfold main. cbv zeta.
  generalize (args_dry_run inv || env_flag (environ inv) "DRY_RUN"). intros dry_run.
  unfold bind at 1.
  assert (H0 : (if dry_run then log INFO MsgDryRunBanner else ret tt) tr =
               (tt, if dry_run then tr ++ [EvLog INFO MsgDryRunBanner] else tr)).
  { destruct dry_run; reflexivity. }
  rewrite H0. run.
  destruct (get_api_key (environ inv) _) as [[api_key | e] tr1]; [| reflexivity].
  destruct (load_deletion_rules (args_config inv) (config_file inv) tr1) as [c tr2].
  destruct (rbind c _) as [databases | e]; [| reflexivity].
  destruct (process_databases server fuel api_key dry_run databases _ tr2)
    as [[[st | e] |] tr3]; try reflexivity.
  rewrite <- app_assoc. destruct (total_failed st >? 0); reflexivity.
Qed.

(** A run that reaches the summary went through the targets of a
    configuration that was accepted. *)
Lemma main_completed (fuel : nat) (inv : invocation) (tr tr' : trace)
    (st : stats) (code : Z) :
  main server fuel inv tr = (Some (Completed st code), tr') ->
  exists api_key config databases tr2 tr3,
    config_file inv = Parsed config /\
    py_getitem config "databases" = Ok (JList databases) /\
    process_databases server fuel api_key
      (args_dry_run inv || env_flag (environ inv) "DRY_RUN") databases
      (mkStats 0 0 0 0) tr2 = (Some (Ok st), tr3).
Proof.
  rewrite main_unfold. cbv zeta.
  destruct (get_api_key (environ inv) _) as [[api_key | e] tr1]; [| discriminate].
  destruct (load_deletion_rules (args_config inv) (config_file inv) tr1)
    as [[config | e] tr2] eqn:El; [| discriminate].
  apply load_deletion_rules_ok in El as (Hsrc & -> & databases & Hg & _).
  cbn [rbind]. rewrite Hg. cbn [rbind py_iter].
  destruct (process_databases server fuel api_key _ databases _ tr1)
    as [[[st1 | e] |] tr3] eqn:Ep; try discriminate.
  intros H. inversion H; subst.
  exists api_key, config, databases, tr1, tr3. auto.
Qed.

(** X15.  In the summary of every run that gets there, the records matched
    are the records deleted plus the records failed, no count is negative,
    and the targets processed are as many as the configuration lists. *)
Theorem summary_adds_up (fuel : nat) (inv : invocation) (tr tr' : trace)
    (st : stats) (code : Z) :
  main server fuel inv tr = (Some (Completed st code), tr') ->
  total_matched st = total_deleted st + total_failed st /\
  0 <= total_deleted st /\ 0 <= total_failed st /\
  exists config databases,
    config_file inv = Parsed config /\
    py_getitem config "databases" = Ok (JList databases) /\
    total_queried st = Z.of_nat (List.length databases).
Proof.
  intros Hmain.
  destruct (main_completed fuel inv tr tr' st code Hmain)
    as (api_key & config & databases & tr2 & tr3 & Hsrc & Hg & Hp).
  pose proof (process_databases_tally server fuel api_key
                (args_dry_run inv || env_flag (environ inv) "DRY_RUN") databases
                (mkStats 0 0 0 0) tr2) as Ht.
  pose proof (process_databases_counts server fuel api_key
                (args_dry_run inv || env_flag (environ inv) "DRY_RUN") databases
                (mkStats 0 0 0 0) tr2) as Hc.
  rewrite Hp in Ht, Hc. cbn [fst total_queried total_matched total_deleted total_failed]
    in Ht, Hc.
  repeat split; try lia.
  exists config, databases. repeat split; try assumption. lia.
Qed.

End WholeRun.

Lemma summary_adds_up_witness :
  total_matched (mkStats 1 2 1 1) =
    total_deleted (mkStats 1 2 1 1) + total_failed (mkStats 1 2 1 1).
Proof.
  exact (proj1 (summary_adds_up
           (scripted [ok (response ["a1"; "a2"] (JBool false) JNull); accepted; refused])
           2 (invoke false (Parsed (config_of [target a_database_id []]))) []
           _ (mkStats 1 2 1 1) 1 eq_refl)).
Defined.

Lemma dry_run_of_set (db_config : json) (d1 d2 : bool) :
  sets_dry_run db_config = true -> dry_run_of db_config d1 = dry_run_of db_config d2.
Proof.
  unfold sets_dry_run, dry_run_of.
  destruct db_config as [| | | | | m]; cbn; try discriminate.
  destruct (dict_get "dry_run" m); [reflexivity | discriminate].
Qed.

Section Flags.

Variable server : service.

(** X16.  A target that sets [dry_run] itself is processed by its own flag,
    whatever the flag of the command line and of the environment is: with
    [dry_run] false in its entry, its records are archived even in a run
    that was started as a dry run. *)
Theorem target_flag_overrides_global
    (fuel : nat) (api_key : string) (d1 d2 : bool) (databases : list json) :
  forallb sets_dry_run databases = true ->
  forall (st : stats) (tr : trace),
    process_databases server fuel api_key d1 databases st tr =
    process_databases server fuel api_key d2 databases st tr.
Proof.
  induction databases as [| db_config rest IH]; intros Hall st tr; [reflexivity |].
  cbn in Hall. apply andb_true_iff in Hall as [Hset Hrest].
  rewrite !process_databases_cons, (dry_run_of_set db_config d1 d2 Hset).
  destruct (py_getitem db_config "database_id") as [v | e]; [| reflexivity].
  destruct v as [| b | z | notion_id | l | m]; try reflexivity.
  destruct (format_notion_id notion_id tr) as [database_id tr1].
  destruct (py_getitem db_config "filters") as [filters | e]; [| reflexivity].
  destruct (query_database server api_key fuel database_id filters _)
    as [[[| page_id page_ids] |] tr2]; [| | reflexivity].
  - apply IH. exact Hrest.
  - cbv zeta.
    destruct (delete_each server api_key _ 1 _ _ _ _) as [st1 tr3].
    apply IH. exact Hrest.
Qed.

(** A run in which the flag in force is true for every target sends no
    mutation. *)
Lemma process_databases_dry (fuel : nat) (api_key : string) (dry_run : bool)
    (databases : list json) :
  forallb (fun db_config => truthy (dry_run_of db_config dry_run)) databases = true ->
  forall (st : stats) (tr : trace),
    count_patches (snd (process_databases server fuel api_key dry_run databases st tr)) =
      count_patches tr.
Proof.
  induction databases as [| db_config rest IH]; intros Hall st tr; [reflexivity |].
  cbn in Hall. apply andb_true_iff in Hall as [Hdry Hrest].
  rewrite process_databases_cons.
  destruct (py_getitem db_config "database_id") as [v | e]; [| reflexivity].
  destruct v as [| b | z | notion_id | l | m]; try reflexivity.
  pose proof (net_format_notion_id notion_id tr) as Hf.
  destruct (format_notion_id notion_id tr) as [database_id tr1]. cbn [snd] in Hf.
  assert (H1 : count_patches tr1 = count_patches tr).
  { rewrite <- (count_patches_net tr1), Hf. apply count_patches_net. }
  destruct (py_getitem db_config "filters") as [filters | e]; [| exact H1].
  match goal with |- context [query_database _ _ _ _ _ ?t] =>
    pose proof (query_database_counts server api_key database_id filters fuel t) as Hq;
    destruct (query_database server api_key fuel database_id filters t) as [r tr2]
  end.
  rewrite count_patches_log in Hq. destruct Hq as [Hq _].
  destruct r as [[| page_id page_ids] |]; [| | cbn [snd]; lia].
  - rewrite (IH Hrest), count_patches_log. lia.
  - cbv zeta.
    match goal with |- context [delete_each _ _ ?d ?i ?n ?l ?s ?t] =>
      pose proof (delete_each_dry server api_key d l Hdry i n s t) as Hd;
      destruct (delete_each server api_key d i n l s t) as [st1 tr3]
    end.
    destruct Hd as [_ Hd]. rewrite (IH Hrest).
    rewrite <- (count_patches_net tr3), Hd, net_log, count_patches_net. lia.
Qed.

(** X17.  A run started as a dry run, by the option or by DRY_RUN, in which
    no target sets a false [dry_run] of its own, sends no mutation at all,
    however it ends. *)
Theorem dry_run_never_mutates (fuel : nat) (inv : invocation) (tr : trace) :
  args_dry_run inv || env_flag (environ inv) "DRY_RUN" = true ->
  (forall config databases,
     config_file inv = Parsed config ->
     py_getitem config "databases" = Ok (JList databases) ->
     forallb (fun db_config => truthy (dry_run_of db_config true)) databases = true) ->
  count_patches (snd (main server fuel inv tr)) = count_patches tr.
Proof.
  intros Hdry Hall. rewrite main_unfold, Hdry. cbv zeta.
  pose proof (net_get_api_key (environ inv) (tr ++ [EvLog INFO MsgDryRunBanner])) as Hk.
  destruct (get_api_key (environ inv) _) as [[api_key | e] tr1]; cbn [snd] in Hk.
  all: assert (H1 : count_patches tr1 = count_patches tr)
         by (rewrite <- (count_patches_net tr1), Hk, net_log; apply count_patches_net).
  2:{ exact H1. }
  pose proof (net_load_deletion_rules (args_config inv) (config_file inv) tr1) as Hl.
  destruct (load_deletion_rules (args_config inv) (config_file inv) tr1)
    as [[config | e] tr2] eqn:El; cbn [snd] in Hl.
  all: assert (H2 : count_patches tr2 = count_patches tr)
         by (rewrite <- (count_patches_net tr2), Hl, count_patches_net; exact H1).
  2:{ exact H2. }
  apply load_deletion_rules_ok in El as (Hsrc & -> & databases & Hg & _).
  cbn [rbind]. rewrite Hg. cbn [rbind py_iter].
  pose proof (process_databases_dry fuel api_key true databases
                (Hall config databases Hsrc Hg) (mkStats 0 0 0 0) tr1) as Hp.
  destruct (process_databases server fuel api_key true databases _ tr1)
    as [[[st | e] |] tr3]; cbn [snd] in Hp |- *.
  - unfold count_patches in *. rewrite count_app, !count_cons. cbn. lia.
  - lia.
  - lia.
Qed.

Lemma process_databases_well_typed (fuel : nat) (api_key : string) (dry_run : bool)
    (databases : list json) :
  forallb well_typed_target databases = true ->
  forall (st : stats) (tr : trace) (e : exn),
    fst (process_databases server fuel api_key dry_run databases st tr) <> Some (Raise e).
Proof.
  induction databases as [| db_config rest IH]; intros Hall st tr e; [discriminate |].
  cbn in Hall. apply andb_true_iff in Hall as [Hdb Hrest].
  rewrite process_databases_cons. unfold well_typed_target in Hdb.
  destruct (py_getitem db_config "database_id") as [v | e0]; [| discriminate].
  destruct v as [| b | z | notion_id | l | m]; try discriminate.
  destruct (format_notion_id notion_id tr) as [database_id tr1].
  destruct (py_getitem db_config "filters") as [filters | e0]; [| discriminate].
  destruct (query_database server api_key fuel database_id filters _)
    as [[[| page_id page_ids] |] tr2]; [| | discriminate].
  - apply IH. exact Hrest.
  - cbv zeta.
    destruct (delete_each server api_key _ 1 _ _ _ _) as [st1 tr3].
    apply IH. exact Hrest.
Qed.

(** X18.  With a key that is accepted and a configuration whose targets are
    all objects with a string for [database_id] and with [filters], no run
    ends in an exception: whatever the service replies, main gets to the
    summary, unless a query goes on for ever. *)
Theorem well_typed_targets_reach_summary
    (fuel : nat) (inv : invocation) (tr : trace)
    (api_key : string) (config : json) (databases : list json) :
  fst (get_api_key (environ inv) []) = Ok api_key ->
  config_file inv = Parsed config ->
  py_getitem config "databases" = Ok (JList databases) ->
  forallb well_typed_target databases = true ->
  fst (main server fuel inv tr) = None \/
  exists st,
    fst (main server fuel inv tr) =
      Some (Completed st (if total_failed st >? 0 then 1 else 0)).
Proof.
  intros Hkey Hsrc Hg Hall. rewrite main_unfold. cbv zeta.
  match goal with |- context [get_api_key (environ inv) ?t] =>
    rewrite (get_api_key_result (environ inv) [] t) in Hkey;
    destruct (get_api_key (environ inv) t) as [k tr1]
  end.
  cbn [fst] in Hkey. subst k.
  assert (Hvalid : Forall (fun db_config =>
                     py_contains "database_id" db_config = Ok true /\
                     py_contains "filters" db_config = Ok true) databases).
  { apply Forall_forall. intros db_config Hin.
    rewrite forallb_forall in Hall. specialize (Hall db_config Hin).
    unfold well_typed_target in Hall.
    destruct (py_getitem db_config "database_id") as [v | e] eqn:E1; [| discriminate].
    destruct (py_getitem db_config "filters") as [f | e] eqn:E2;
      [| destruct v; discriminate].
    split; eapply py_getitem_contains; eassumption. }
  unfold load_deletion_rules. rewrite Hsrc.
  rewrite (py_getitem_contains config "databases" _ Hg), Hg. run.
  rewrite (validate_databases_accepts databases tr1 Hvalid).
  cbn [rbind]. rewrite Hg. cbn [rbind py_iter].
  match goal with |- context [process_databases server fuel api_key ?d databases ?s tr1] =>
    pose proof (process_databases_well_typed fuel api_key d databases Hall s tr1) as Hp;
    destruct (process_databases server fuel api_key d databases s tr1) as [[[st | e] |] tr3]
  end; cbn [fst] in *.
  - right. exists st. reflexivity.
  - exfalso. exact (Hp e eq_refl).
  - left. reflexivity.
Qed.

End Flags.

Lemma target_flag_overrides_global_witness :
  process_databases
      (scripted [ok (response ["p1"] (JBool false) JNull); accepted]) 2 "ntn_key" true
      [target a_database_id [("dry_run", JBool false)]] (mkStats 0 0 0 0) [] =
  process_databases
      (scripted [ok (response ["p1"] (JBool false) JNull); accepted]) 2 "ntn_key" false
      [target a_database_id [("dry_run", JBool false)]] (mkStats 0 0 0 0) [].
Proof.
  apply (target_flag_overrides_global
           (scripted [ok (response ["p1"] (JBool false) JNull); accepted]) 2 "ntn_key"
           true false [target a_database_id [("dry_run", JBool false)]] eq_refl).
Defined.

(** A run started with the dry-run option over a target that sets
    [dry_run] to false: the record is archived, and the summary ends on the
    line of a dry run. *)
Example dry_run_option_overridden :
  main (scripted [ok (response ["p1"] (JBool false) JNull); accepted]) 2
       (invoke true (Parsed (config_of [target a_database_id [("dry_run", JBool false)]])))
       [] =
    (Some (Completed (mkStats 1 1 1 0) 0),
     [EvLog INFO MsgDryRunBanner;
      EvLog INFO (MsgApiKeyLoaded 7);
      EvLog INFO (MsgProcessingDatabase (JStr a_dashed_id) a_dashed_id);
      EvLog INFO (MsgQuerying a_dashed_id no_filter);
      EvPost "ntn_key" a_dashed_id (JDict [("filter", no_filter)]);
      EvLog INFO (MsgFound 1);
      EvLog INFO (MsgDeleting 1);
      EvLog INFO (MsgProcessingRecord 1 1);
      EvPatch "ntn_key" (JStr "p1");
      EvLog INFO (MsgDeleted (JStr "p1"));
      EvSleep 350;
      EvLog INFO (MsgSummary 1 1 1 0);
      EvLog INFO MsgNoDeletionsOccurred]).
Proof. reflexivity. Qed.

Lemma dry_run_never_mutates_witness :
  count_patches
    (snd (main (scripted [ok (response ["p1"] (JBool false) JNull); accepted]) 2
            (invoke true (Parsed (config_of [target a_database_id []]))) [])) =
  count_patches [].
Proof.
  apply (dry_run_never_mutates
           (scripted [ok (response ["p1"] (JBool false) JNull); accepted]) 2
           (invoke true (Parsed (config_of [target a_database_id []]))) [] eq_refl).
  intros config databases Hsrc Hg.
  injection Hsrc as <-. injection Hg as <-. reflexivity.
Defined.

Lemma well_typed_targets_reach_summary_witness :
  fst (main only_patches 2
         (invoke false (Parsed (config_of [target a_database_id []]))) []) = None \/
  exists st,
    fst (main only_patches 2
           (invoke false (Parsed (config_of [target a_database_id []]))) []) =
      Some (Completed st (if total_failed st >? 0 then 1 else 0)).
Proof.
  apply (well_typed_targets_reach_summary only_patches 2
           (invoke false (Parsed (config_of [target a_database_id []]))) []
           "ntn_key" (config_of [target a_database_id []]) [target a_database_id []]);
    reflexivity.
Defined.

(** ** A key that is refused *)

Lemma get_api_key_error (environ : string -> option string) (tr tr' : trace) (e : exn) :
  get_api_key environ tr = (Raise e, tr') ->
  e = SystemExit 1 /\ exists msg, tr' = tr ++ [EvLog ERROR msg].
Proof.
  unfold get_api_key.
  destruct (environ "NOTION_API_KEY") as [[| c s] |]; run;
    try (intros H; inversion H; eauto; fail).
  destruct (negb _ && negb _); [intros H; inversion H; eauto |].
  destruct (_ || _); intros H; inversion H; eauto.
Qed.

(** X20.  When NOTION_API_KEY is missing, empty, without one of the two
    prefixes or with a line break or a tab inside, the run ends at once with
    one error and status 1: the configuration is not read and nothing is
    sent. *)
Theorem refused_key_ends_the_run
    (server : service) (fuel : nat) (inv : invocation) (tr : trace) (e : exn) :
  fst (get_api_key (environ inv) []) = Raise e ->
  exists msg,
    main server fuel inv tr =
      (Some (Aborted (SystemExit 1)),
       (if args_dry_run inv || env_flag (environ inv) "DRY_RUN"
        then tr ++ [EvLog INFO MsgDryRunBanner] else tr) ++ [EvLog ERROR msg]) /\
    exit_status (Aborted (SystemExit 1)) = 1.
Proof.
  intros Hkey. rewrite main_unfold. cbv zeta.
  match goal with |- context [get_api_key (environ inv) ?t] =>
    rewrite (get_api_key_result (environ inv) [] t) in Hkey;
    destruct (get_api_key (environ inv) t) as [k tr1] eqn:E
  end.
  cbn [fst] in Hkey. subst k.
  apply get_api_key_error in E as (-> & msg & ->).
  exists msg. split; reflexivity.
Qed.

Lemma refused_key_ends_the_run_witness :
  exists msg,
    main only_patches 2
         (mkInvocation "rules.json" false (fun _ => Some "key") FileMissing) [] =
      (Some (Aborted (SystemExit 1)),
       (if false || env_flag (fun _ => Some "key") "DRY_RUN"
        then [] ++ [EvLog INFO MsgDryRunBanner] else []) ++ [EvLog ERROR msg]) /\
    exit_status (Aborted (SystemExit 1)) = 1.
Proof.
  apply (refused_key_ends_the_run only_patches 2
           (mkInvocation "rules.json" false (fun _ => Some "key") FileMissing) []
           (SystemExit 1)).
  reflexivity.
Defined.
